(** * gdb-heap: the command layer of [heap/commands.py]

    A shallow embedding of the gdb commands defined in [heap/commands.py]
    and of the two decorators that wrap them, followed by the properties of
    the command layer.

    Layout:
    - [Py]       the fragment of Python the commands are written in:
                 exceptions, generators, a monad for statements that
                 print, assign local variables and session objects and
                 may raise, [try]/[except], [for] loops over lists and
                 generators, [dict], [sorted], [range], list indexing;
    - [Data]     the data the commands handle, what they print, and the
                 collaborators the file imports (heap, heap.glibc,
                 heap.history, heap.query, argparse, gdb), gathered in
                 one record;
    - the decorators and the [invoke] methods, one module per class, in
      the order of the file;
    - [Source]   the text of the file and the bracket tracking of the
                 Python tokenizer;
    - [Sample], [Cases]  concrete sessions on which the commands are run;
    - the vocabulary of the properties, then the properties. *)

From Stdlib Require Import ZArith List String Ascii Bool Lia Permutation Sorted.
Import ListNotations.

Local Open Scope string_scope.
Local Open Scope list_scope.
Local Open Scope Z_scope.

(* ===================================================================== *)
(** * The Python fragment                                                 *)
(* ===================================================================== *)

Module Py.

(** Characters of the format strings that cannot be typed in a literal. *)
Definition DQ : string := String (ascii_of_nat 34) EmptyString.
Definition NL : string := String (ascii_of_nat 10) EmptyString.
Definition TAB : string := String (ascii_of_nat 9) EmptyString.

(** ** Exceptions

    The exception classes that the file names or that its statements can
    raise.  [gdb_error] is [gdb.error]; [SystemExit] is what [argparse]
    raises on a bad command line. *)
Inductive exn : Type :=
| MissingDebuginfo (module : string)
| gdb_error (msg : string)
| NameError (msg : string)
| KeyboardInterrupt
| ParserError (msg : string)
| IndexError (msg : string)
| ValueError (msg : string)
| KeyError
| SystemExit
| SyntaxError (lineno : Z).

(** A generator: the items it yields, then either exhaustion or the
    exception that ends the traversal. *)
Record generator (A : Type) : Type := Generator
  { yielded : list A; ending : option exn }.
Arguments Generator {A} _ _.
Arguments yielded {A} _.
Arguments ending {A} _.

Definition enumerate {A} (l : list A) : list (Z * A) :=
  combine (map Z.of_nat (seq 0 (List.length l))) l.

(** ** Statements

    A statement runs from the local variables of the enclosing function
    ([L]) and the session-wide objects ([S]); it prints, leaves new values
    in both, and either completes with a value or raises.  What was printed
    and assigned before a [raise] stays printed and assigned. *)
Section Monad.
Context {E S : Type}.

Record outcome (L A : Type) : Type := Outcome
  { printed : list E; locals : L; globals : S; result : exn + A }.
Arguments Outcome {L A} _ _ _ _.
Arguments printed {L A} _.
Arguments locals {L A} _.
Arguments globals {L A} _.
Arguments result {L A} _.

Definition M (L A : Type) : Type := L -> S -> outcome L A.

Definition ret {L A} (a : A) : M L A :=
  fun l s => Outcome [] l s (inr a).

Definition raise {L A} (e : exn) : M L A :=
  fun l s => Outcome [] l s (inl e).

Definition bind {L A B} (m : M L A) (k : A -> M L B) : M L B :=
  fun l s =>
    let o := m l s in
    match result o with
    | inl e => Outcome (printed o) (locals o) (globals o) (inl e)
    | inr a =>
        let o' := k a (locals o) (globals o) in
        Outcome (printed o ++ printed o') (locals o') (globals o') (result o')
    end.

Definition emit {L} (e : E) : M L unit :=
  fun l s => Outcome [e] l s (inr tt).

Definition get_locals {L} : M L L :=
  fun l s => Outcome [] l s (inr l).

Definition set_locals {L} (l' : L) : M L unit :=
  fun _ s => Outcome [] l' s (inr tt).

Definition modify {L} (f : L -> L) : M L unit :=
  fun l s => Outcome [] (f l) s (inr tt).

Definition get_globals {L} : M L S :=
  fun l s => Outcome [] l s (inr s).

Definition set_globals {L} (s' : S) : M L unit :=
  fun l _ => Outcome [] l s' (inr tt).

(** The value of an expression that may raise. *)
Definition lift {L A} (r : exn + A) : M L A :=
  fun l s => Outcome [] l s r.

(** [try: body / except <classes> as e: handler].  [clauses e] is the
    handler of the first [except] clause whose classes [e] is an instance
    of, and [None] when no clause takes [e]. *)
Definition try_except {L A}
    (body : M L A) (clauses : exn -> option (M L A)) : M L A :=
  fun l s =>
    let o := body l s in
    match result o with
    | inr a => o
    | inl e =>
        match clauses e with
        | Some handler =>
            let o' := handler (locals o) (globals o) in
            Outcome (printed o ++ printed o') (locals o') (globals o') (result o')
        | None => o
        end
    end.

(** The body of a function: its local variables start from [init] and are
    dropped when it returns or raises. *)
Definition def {L A} (init : L) (body : M L A) : M unit A :=
  fun _ s =>
    let o := body init s in
    Outcome (printed o) tt (globals o) (result o).

(** An outcome that comes after [out] was printed. *)
Definition after_printing {L A} (out : list E) (o : outcome L A)
    : outcome L A :=
  Outcome (out ++ printed o) (locals o) (globals o) (result o).

(** An outcome seen from the caller, the local variables gone. *)
Definition returned {L A} (o : outcome L A) : outcome unit A :=
  Outcome (printed o) tt (globals o) (result o).

(** [for x in xs: body x], over a list. *)
Fixpoint for_ {L A} (xs : list A) (body : A -> M L unit) : M L unit :=
  match xs with
  | [] => ret tt
  | x :: xs' => bind (body x) (fun _ => for_ xs' body)
  end.

(** [for x in g: body x], over a generator: when the generator ends in an
    exception, the exception is raised in the loop after its last item. *)
Definition for_gen {L A} (g : generator A) (body : A -> M L unit) : M L unit :=
  bind (for_ (yielded g) body)
       (fun _ => match ending g with
                 | Some e => raise e
                 | None => ret tt
                 end).

(** [list(g)]. *)
Definition list_ {L A} (g : generator A) : M L (list A) :=
  match ending g with
  | Some e => raise e
  | None => ret (yielded g)
  end.

(** [enumerate(g)]. *)
Definition enumerate_gen {A} (g : generator A) : generator (Z * A) :=
  Generator (enumerate (yielded g)) (ending g).
End Monad.

Arguments Outcome {E S L A} _ _ _ _.
Arguments printed {E S L A} _.
Arguments locals {E S L A} _.
Arguments globals {E S L A} _.
Arguments result {E S L A} _.
Arguments M : clear implicits.
Arguments outcome : clear implicits.

Declare Scope py_scope.
Delimit Scope py_scope with py.
Notation "x <- m ;; k" := (bind m (fun x => k))
  (at level 61, m at next level, right associativity) : py_scope.
Notation "m ;; k" := (bind m (fun _ => k))
  (at level 61, right associativity) : py_scope.

(** ** Built-in operations *)

(** [l[i]]: a negative index counts from the end; an index outside
    [-len(l) .. len(l)-1] raises [IndexError]. *)
Definition getitem {A} (l : list A) (i : Z) : exn + A :=
  let n := Z.of_nat (List.length l) in
  let j := if i <? 0 then i + n else i in
  if (j <? 0) || (n <=? j) then inl (IndexError "list index out of range")
  else match nth_error l (Z.to_nat j) with
       | Some x => inr x
       | None => inl (IndexError "list index out of range")
       end.

(** [range(start, stop, step)] as the list of its values ([step] is never
    0 in the file; Python raises [ValueError] there). *)
Definition range (start stop step : Z) : list Z :=
  let len :=
    if 0 <? step then (stop - start + step - 1) / step
    else if step <? 0 then (start - stop - step - 1) / (- step)
    else 0 in
  map (fun k => start + Z.of_nat k * step) (seq 0 (Z.to_nat len)).

(** [dict] keeps its keys in insertion order; assigning to a key that is
    present keeps the key where it is. *)
Section Dict.
Context {K V : Type} (eqb : K -> K -> bool).

Definition dict : Type := list (K * V).

Fixpoint dict_get (d : dict) (k : K) : option V :=
  match d with
  | [] => None
  | (k', v) :: d' => if eqb k k' then Some v else dict_get d' k
  end.

(** [k in d]. *)
Definition contains (d : dict) (k : K) : bool :=
  match dict_get d k with Some _ => true | None => false end.

(** [d[k]]. *)
Definition dict_getitem (d : dict) (k : K) : exn + V :=
  match dict_get d k with Some v => inr v | None => inl KeyError end.

(** [d[k] = v]. *)
Fixpoint setitem (d : dict) (k : K) (v : V) : dict :=
  match d with
  | [] => [(k, v)]
  | (k', v') :: d' =>
      if eqb k k' then (k', v) :: d' else (k', v') :: setitem d' k v
  end.

Definition keys (d : dict) : list K := map fst d.
End Dict.
Arguments dict : clear implicits.

(** [sorted(l, key=key, reverse=reverse)]: the sort is stable, and stays so
    with [reverse=True] (items with equal keys keep their order in [l]). *)
Section Sorted.
Context {A : Type} (key : A -> Z) (reverse : bool).

Definition goes_after (x y : A) : bool :=
  if reverse then key x <? key y else key y <? key x.

Fixpoint insert (x : A) (l : list A) : list A :=
  match l with
  | [] => [x]
  | y :: l' => if goes_after x y then y :: insert x l' else x :: l
  end.

Definition sorted (l : list A) : list A := fold_right insert [] l.
End Sorted.

End Py.

(* ===================================================================== *)
(** * The data of the commands and their collaborators                    *)
(* ===================================================================== *)

Module Data.
Import Py.

(** [heap.Category]: compared and hashed by its three fields. *)
Record Category : Type := mkCategory
  { domain : string; kind : string; detail : option string }.

(** [heap.Usage]: a region of memory; its category is worked out on demand
    ([ensure_category], [categorize]). *)
Record Usage : Type := mkUsage { start : Z; size : Z }.

(** A chunk of the allocator, as read from its header. *)
Record chunk : Type := mkChunk
  { as_address : Z; chunksize : Z; is_inuse : bool; as_mem : Z }.

(** [heap.history.Snapshot]; [time] is carried as it prints. *)
Record Snapshot : Type := mkSnapshot { name : string; time : string }.

(** An arena of [glibc_arenas.arenas]. *)
Record arena : Type := mkArena { address : Z }.

(** The objects that live as long as the gdb session and that the
    commands read and assign: [history.snapshots], [glibc_arenas.arenas]
    and [glibc_arenas.cur_arena]. *)
Record session : Type := mkSession
  { snapshots : list Snapshot; arenas : list arena; cur_arena : arena }.

Definition with_cur_arena (s : session) (a : arena) : session :=
  mkSession (snapshots s) (arenas s) a.

Definition with_snapshots (s : session) (l : list Snapshot) : session :=
  mkSession l (arenas s) (cur_arena s).

(** What is printed.  Formatting is the business of the collaborators
    ([fmt_size], [fmt_addr], [Snapshot.summary], ...) and of Python ([%],
    [hex], [str]): a printed value records which of them is applied to
    what. *)
#[warnings="-register-all"]
Inductive pyval : Type :=
| Str (s : string)
| Int (n : Z)
| PyList (items : list pyval)
| Mod (fmt : string) (args : list pyval)     (* fmt % (args) *)
| Concat (parts : list pyval)                (* a string grown with += *)
| Join (sep : string) (parts : list pyval)   (* sep.join(parts) *)
| fmt_size (n : Z)
| fmt_addr (a : Z)
| hex (n : Z)
| str_chunk (c : chunk)
| str_category (c : Category)
| summary (s : Snapshot)                     (* s.summary() *)
| stats (prev cur : Snapshot)                (* Diff(prev, cur).stats() *)
| str_exn (e : exn)
| format_exc (e : exn).                      (* traceback.format_exc() *)

(** [heap.Table]. *)
Record Table : Type := mkTable
  { columnheadings : list string; rows : list (list pyval) }.

Definition add_row (t : Table) (row : list pyval) : Table :=
  mkTable (columnheadings t) (rows t ++ [row]).

Inductive event : Type :=
| print (args : list pyval)                  (* print(a, b, ...) *)
| write (t : Table).                         (* t.write(sys.stdout) *)

(** [glibc_arenas.get_ms()]. *)
Record malloc_state : Type := mkMs
  { iter_chunks : generator chunk; iter_free_chunks : generator chunk }.

(** The command line of [heap search] once [argparse] has read it. *)
Record search_namespace : Type := mkSearchNs
  { addr : list string; before : bool; after : bool }.

(** The collaborators of the file: what it imports from the rest of the
    package and from the host (gdb, argparse, Python built-ins).  A call
    that reads the target can raise; none of them assigns to the session
    objects, which only [history.add] and [heap arena] do. *)
Record collaborators : Type := mkCollaborators
  { (* heap *)
    lazily_get_usage_list : session -> generator Usage;
    ensure_category : Usage -> exn + Category;
    categorize : Usage -> exn + Category;
    hexdump_as_bytes : Z -> Z -> exn + string;
    (* heap.glibc *)
    get_ms : session -> exn + malloc_state;
    next_chunk : chunk -> exn + chunk;
    (* heap.history *)
    Snapshot_current : string -> session -> exn + Snapshot;
    as_changes_splitlines : Snapshot -> Snapshot -> list string;
    (* heap.query *)
    do_query : string -> session -> list event * option exn;
    (* gdb, argparse, built-ins *)
    string_to_argv : string -> list string;
    parse_args : list string -> exn + search_namespace;
    int_ : string -> Z -> exn + Z }.

Definition Category_eqb (a b : Category) : bool :=
  String.eqb (domain a) (domain b) && String.eqb (kind a) (kind b)
  && match detail a, detail b with
     | Some x, Some y => String.eqb x y
     | None, None => true
     | _, _ => false
     end.

(** Statements of the commands. *)
Definition stmt (L A : Type) : Type := M event session L A.

(** An [invoke] method; [self] and [from_tty] are used by none of them. *)
Definition command : Type := string -> stmt unit unit.

End Data.

(* ===================================================================== *)
(** * The decorators and the commands                                     *)
(* ===================================================================== *)

Import Py Data.
Local Open Scope py_scope.

(** [need_debuginfo], lines 32-40. *)
Definition need_debuginfo (f : command) : command :=
  fun args =>
    try_except (f args)
      (fun e =>
         match e with
         | MissingDebuginfo module =>
             Some (emit (print [Mod "Missing debuginfo for %s" [Str module]]) ;;
                   emit (print [Str "Suggested fix:"]) ;;
                   emit (print [Mod "    debuginfo-install %s" [Str module]]))
         | _ => None
         end).

(** [target_running], lines 43-52. *)
Definition target_running (f : command) : command :=
  fun args =>
    try_except (f args)
      (fun e =>
         match e with
         | gdb_error _ | NameError _ =>
             Some (emit (print [Mod ("Gdb error: " ++ DQ ++ "%s" ++ DQ
                                       ++ ". Is the target running?")%string
                                    [str_exn e]]) ;;
                   emit (print []) ;;
                   emit (print [format_exc e]))
         | _ => None
         end).

(** The two decorators as every command but [hexdump] stacks them. *)
Definition decorated (f : command) : command :=
  need_debuginfo (target_running f).

(** ** [class Heap], lines 55-104 *)
Module Heap.

Record locals : Type := mkLocals
  { total_by_category : dict Category Z;
    count_by_category : dict Category Z;
    total_size : Z;
    total_count : Z;
    t : Table }.

Definition set_total_by_category d l :=
  mkLocals d (count_by_category l) (total_size l) (total_count l) (t l).
Definition set_count_by_category d l :=
  mkLocals (total_by_category l) d (total_size l) (total_count l) (t l).
Definition set_total_size n l :=
  mkLocals (total_by_category l) (count_by_category l) n (total_count l) (t l).
Definition set_total_count n l :=
  mkLocals (total_by_category l) (count_by_category l) (total_size l) n (t l).
Definition set_t t' l :=
  mkLocals (total_by_category l) (count_by_category l) (total_size l)
           (total_count l) t'.

(** Lines 73-84, the body of the loop. *)
Definition loop_body (w : collaborators) (u : Usage) : stmt locals unit :=
  category <- lift (ensure_category w u) ;;
  modify (fun l => set_total_size (total_size l + size u) l) ;;
  l <- get_locals ;;
  (if contains Category_eqb (total_by_category l) category then
     old <- lift (dict_getitem Category_eqb (total_by_category l) category) ;;
     modify (set_total_by_category
               (setitem Category_eqb (total_by_category l) category (old + size u)))
   else
     modify (set_total_by_category
               (setitem Category_eqb (total_by_category l) category (size u)))) ;;
  modify (fun l => set_total_count (total_count l + 1) l) ;;
  l <- get_locals ;;
  (if contains Category_eqb (count_by_category l) category then
     old <- lift (dict_getitem Category_eqb (count_by_category l) category) ;;
     modify (set_count_by_category
               (setitem Category_eqb (count_by_category l) category (old + 1)))
   else
     modify (set_count_by_category
               (setitem Category_eqb (count_by_category l) category 1))).

(** [total_by_category.get] as a sort key; it is only applied to keys of
    the dictionary. *)
Definition total_by_category_get (d : dict Category Z) (c : Category) : Z :=
  match dict_get Category_eqb d c with Some v => v | None => 0 end.

(** Lines 93-101, one row of the table. *)
Definition row_body (category : Category) : stmt locals unit :=
  let detail := match detail category with
                | Some d => d
                | None => ""
                end in
  l <- get_locals ;;
  count <- lift (dict_getitem Category_eqb (count_by_category l) category) ;;
  total <- lift (dict_getitem Category_eqb (total_by_category l) category) ;;
  modify (fun l => set_t (add_row (t l)
                            [Str (domain category); Str (kind category);
                             Str detail; fmt_size count; fmt_size total]) l).

Definition invoke (w : collaborators) : command :=
  fun args =>
    def (mkLocals [] [] 0 0 (mkTable [] []))
      (try_except
         (s <- get_globals ;;
          usage_list <- list_ (lazily_get_usage_list w s) ;;
          for_ usage_list (loop_body w))
         (fun e => match e with
                   | KeyboardInterrupt => Some (ret tt) (* pass # FIXME *)
                   | _ => None
                   end) ;;
       modify (set_t (mkTable ["Domain"; "Kind"; "Detail"; "Count";
                               "Allocated size"] [])) ;;
       l <- get_locals ;;
       for_ (sorted (total_by_category_get (total_by_category l)) true
                    (keys (total_by_category l)))
            row_body ;;
       modify (fun l => set_t (add_row (t l)
                                 [Str ""; Str ""; Str "TOTAL";
                                  fmt_size (total_count l);
                                  fmt_size (total_size l)]) l) ;;
       l <- get_locals ;;
       emit (write (t l)) ;;
       emit (print [])).

End Heap.

(** ** [class HeapSizes], lines 106-141 *)
Module HeapSizes.

Record locals : Type := mkLocals
  { chunks_by_size : dict Z Z;
    num_chunks : Z;
    total_size : Z;
    t : Table }.

Definition set_chunks_by_size d l :=
  mkLocals d (num_chunks l) (total_size l) (t l).
Definition set_num_chunks n l :=
  mkLocals (chunks_by_size l) n (total_size l) (t l).
Definition set_total_size n l :=
  mkLocals (chunks_by_size l) (num_chunks l) n (t l).
Definition set_t t' l :=
  mkLocals (chunks_by_size l) (num_chunks l) (total_size l) t'.

(** Lines 123-131, the body of the loop. *)
Definition loop_body (chunk : chunk) : stmt locals unit :=
  if negb (is_inuse chunk) then ret tt (* continue *)
  else
    let size := chunksize chunk in
    modify (fun l => set_num_chunks (num_chunks l + 1) l) ;;
    modify (fun l => set_total_size (total_size l + size) l) ;;
    l <- get_locals ;;
    if contains Z.eqb (chunks_by_size l) size then
      old <- lift (dict_getitem Z.eqb (chunks_by_size l) size) ;;
      modify (set_chunks_by_size (setitem Z.eqb (chunks_by_size l) size (old + 1)))
    else
      modify (set_chunks_by_size (setitem Z.eqb (chunks_by_size l) size 1)).

(** [lambda x: chunks_by_size[x] * x], line 135; it is only applied to
    keys of the dictionary. *)
Definition sort_key (d : dict Z Z) (x : Z) : Z :=
  match dict_get Z.eqb d x with Some n => n * x | None => 0 end.

(** Lines 136-138, one row of the table. *)
Definition row_body (size : Z) : stmt locals unit :=
  l <- get_locals ;;
  n <- lift (dict_getitem Z.eqb (chunks_by_size l) size) ;;
  modify (fun l => set_t (add_row (t l)
                            [fmt_size size; Int n; fmt_size (n * size)]) l).

Definition invoke (w : collaborators) : command :=
  fun args =>
    def (mkLocals [] 0 0 (mkTable [] []))
      (s <- get_globals ;;
       ms <- lift (get_ms w s) ;;
       try_except
         (for_gen (iter_chunks ms) loop_body)
         (fun e => match e with
                   | KeyboardInterrupt => Some (ret tt) (* pass # FIXME *)
                   | _ => None
                   end) ;;
       modify (set_t (mkTable ["Chunk size"; "Num chunks"; "Allocated size"] [])) ;;
       l <- get_locals ;;
       for_ (sorted (sort_key (chunks_by_size l)) false (keys (chunks_by_size l)))
            row_body ;;
       modify (fun l => set_t (add_row (t l)
                                 [Str "TOTALS"; Int (num_chunks l);
                                  fmt_size (total_size l)]) l) ;;
       l <- get_locals ;;
       emit (write (t l)) ;;
       emit (print [])).

End HeapSizes.

(** The line that [heap used] and [heap free] print for a chunk, lines
    162-171 and 194-205. *)
Definition chunk_line {L} (w : collaborators) (i : Z) (chunk : chunk)
    : stmt L unit :=
  let size := chunksize chunk in
  let mem := as_mem chunk in
  let u := mkUsage mem size in
  category <- lift (categorize w u) ;;
  hd <- lift (hexdump_as_bytes w mem 32) ;;
  emit (print [Mod "%6i: %s -> %s %8i bytes %20s |%s"
                   [Int i; fmt_addr (as_mem chunk);
                    fmt_addr (as_mem chunk + size - 1);
                    Int size; str_category category; Str hd]]).

(** ** [class HeapUsed], lines 144-174 *)
Module HeapUsed.

Definition invoke (w : collaborators) : command :=
  fun args =>
    def tt
      (emit (print [Str "Used chunks of memory on heap"]) ;;
       emit (print [Str "-----------------------------"]) ;;
       s <- get_globals ;;
       ms <- lift (get_ms w s) ;;
       try_except
         (for_gen (enumerate_gen (iter_chunks ms))
            (fun '(i, chunk) =>
               if negb (is_inuse chunk) then ret tt (* continue *)
               else chunk_line w i chunk))
         (fun e => match e with
                   | KeyboardInterrupt => Some (emit (print [Str "Interrupted"]))
                   | _ => None
                   end) ;;
       emit (print [])).

End HeapUsed.

(** ** [class HeapFree], lines 177-207; the local variable is
    [total_size]. *)
Module HeapFree.

Definition invoke (w : collaborators) : command :=
  fun args =>
    def 0
      (emit (print [Str "Free chunks of memory on heap"]) ;;
       emit (print [Str "-----------------------------"]) ;;
       s <- get_globals ;;
       ms <- lift (get_ms w s) ;;
       for_gen (enumerate_gen (iter_free_chunks ms))
         (fun '(i, chunk) =>
            modify (fun total_size => total_size + chunksize chunk) ;;
            chunk_line w i chunk) ;;
       total_size <- get_locals ;;
       emit (print [Mod "Total size: %s" [Int total_size]])).

End HeapFree.

(** ** [class HeapAll], lines 210-236 *)
Module HeapAll.

Definition invoke (w : collaborators) : command :=
  fun args =>
    def tt
      (emit (print [Str "All chunks of memory on heap (both used and free)"]) ;;
       emit (print [Str "-------------------------------------------------"]) ;;
       s <- get_globals ;;
       ms <- lift (get_ms w s) ;;
       for_gen (enumerate_gen (iter_chunks ms))
         (fun '(i, chunk) =>
            let size := chunksize chunk in
            let kind := if is_inuse chunk then " inuse" else " free" in
            emit (print [Mod "%i: %s -> %s %s: %i bytes (%s)"
                             [Int i; fmt_addr (as_address chunk);
                              fmt_addr (as_address chunk + size - 1);
                              Str kind; Int size; str_chunk chunk]])) ;;
       emit (print [])).

End HeapAll.

(** ** [class HeapLog], lines 238-261 *)
Module HeapLog.

(** Lines 253-261, the body of the loop. *)
Definition loop_body (h : list Snapshot) (i : Z) : stmt unit unit :=
  s <- lift (getitem h (i - 1)) ;;
  emit (print [Mod ("Label %i " ++ DQ ++ "%s" ++ DQ ++ " at %s")%string
                   [Int i; Str (name s); Str (time s)]]) ;;
  emit (print [Str "    "; summary s]) ;;
  (if 1 <? i then
     prev <- lift (getitem h (i - 2)) ;;
     emit (print []) ;;
     emit (print [Str "    "; stats prev s])
   else ret tt) ;;
  emit (print []).

Definition invoke (w : collaborators) : command :=
  fun args =>
    def tt
      (g <- get_globals ;;
       let h := snapshots g in
       if Z.of_nat (List.length h) =? 0 then
         emit (print [Str "(no history)"]) (* return *)
       else
         for_ (range (Z.of_nat (List.length h)) 0 (-1)) (loop_body h)).

End HeapLog.

(** Modelled from the spec: [history.add] of heap/history.py, which is not
    part of the file.  It captures the current state of the heap as
    [Snapshot.current] does (a full traversal, which can raise), appends
    the snapshot to the log and returns it. *)
Definition history_add {L} (w : collaborators) (name : string)
    : stmt L Snapshot :=
  g <- get_globals ;;
  s <- lift (Snapshot_current w name g) ;;
  set_globals (with_snapshots g (snapshots g ++ [s])) ;;
  ret s.

(** ** [class HeapLabel], lines 263-274 *)
Module HeapLabel.

Definition invoke (w : collaborators) : command :=
  fun args =>
    def tt
      (s <- history_add w args ;;
       emit (print [summary s])).

End HeapLabel.

(** ** [class HeapDiff], lines 277-297 *)
Module HeapDiff.

Definition invoke (w : collaborators) : command :=
  fun args =>
    def tt
      (g <- get_globals ;;
       let h := snapshots g in
       if Z.of_nat (List.length h) =? 0 then
         emit (print [Str "(no history)"]) (* return *)
       else
         prev <- lift (getitem h (-1)) ;;
         curr <- lift (Snapshot_current w "current" g) ;;
         emit (print [Mod "Changes from %s to %s"
                          [Str (name prev); Str (name curr)]]) ;;
         emit (print [Str "  "; stats prev curr]) ;;
         emit (print []) ;;
         emit (print [Join NL
                        (map (fun line => Str ("  " ++ line)%string)
                             (as_changes_splitlines w prev curr))])).

End HeapDiff.

(** ** [class HeapSelect], lines 299-314 *)
Module HeapSelect.

(** The call [do_query(args)]: it prints its result and can raise. *)
Definition call_do_query {L} (w : collaborators) (args : string)
    : stmt L unit :=
  fun l g =>
    let '(out, e) := do_query w args g in
    Outcome out l g (match e with Some e => inl e | None => inr tt end).

Definition invoke (w : collaborators) : command :=
  fun args =>
    def tt
      (try_except
         (call_do_query w args)
         (fun e => match e with
                   | ParserError _ => Some (emit (print [str_exn e]))
                   | _ => None
                   end)).

End HeapSelect.

(** ** [class HeapSearch], lines 316-374 *)
Module HeapSearch.

(** The local variable [output_str], as the pieces appended to it. *)
Definition locals : Type := list pyval.

Definition block_fmt : string :=
  ("BLOCK:" ++ TAB ++ "%s -> %s %s: " ++ NL ++ TAB ++ "%i bytes (%s)" ++ NL)%string.

Definition next_fmt : string :=
  ("NEXT:" ++ TAB ++ "%s -> %s %s: " ++ NL ++ TAB ++ "%i bytes (%s)" ++ NL)%string.

(** Lines 353-373, the body of the loop. *)
Definition loop_body (w : collaborators) (args_dict : search_namespace)
    (addr : Z) (chunk : chunk) : stmt locals unit :=
  let size := chunksize chunk in
  if (addr >=? as_address chunk) && (addr <? as_address chunk + size) then
    let kind := if is_inuse chunk then " inuse" else " free" in
    modify (fun output_str =>
              output_str ++
              [Mod block_fmt
                   [fmt_addr (as_address chunk);
                    fmt_addr (as_address chunk + size - 1);
                    Str kind; Int size; str_chunk chunk]]) ;;
    if after args_dict then
      chunk_after <- lift (next_chunk w chunk) ;;
      let kind := if is_inuse chunk then " inuse" else " free" in
      modify (fun output_str =>
                output_str ++
                [Mod next_fmt
                     [fmt_addr (as_address chunk_after);
                      fmt_addr (as_address chunk_after + size - 1);
                      Str kind; Int (chunksize chunk_after);
                      str_chunk chunk_after]])
    else ret tt
  else ret tt.

Definition invoke (w : collaborators) : command :=
  fun args =>
    def []
      (let arg_list := string_to_argv w args in
       parsed <- try_except
                   (args_dict <- lift (parse_args w arg_list) ;;
                    ret (Some args_dict))
                   (fun _ => Some (ret None)) (* except: return *) ;;
       match parsed with
       | None => ret tt
       | Some args_dict =>
           addr_arg <- lift (getitem (addr args_dict) 0) ;;
           addr <- (if String.prefix "0x" addr_arg
                    then lift (int_ w addr_arg 16)
                    else lift (int_ w addr_arg 10)) ;;
           emit (print [Mod "search heap for address %s" [hex addr]]) ;;
           emit (print [Str "-------------------------------------------------"]) ;;
           s <- get_globals ;;
           ms <- lift (get_ms w s) ;;
           for_gen (enumerate_gen (iter_chunks ms))
             (fun '(i, chunk) => loop_body w args_dict addr chunk) ;;
           output_str <- get_locals ;;
           emit (print [Concat output_str])
       end).

End HeapSearch.

(** ** [class HeapChunk], lines 376-388 *)
Module HeapChunk.

Definition invoke (w : collaborators) : command :=
  fun args =>
    def tt
      (emit (print [Str args]) ;;
       let arg_list := string_to_argv w args in
       emit (print [PyList (map Str arg_list)])).

End HeapChunk.

(** ** [class HeapArenas], lines 515-527 *)
Module HeapArenas.

Definition invoke (w : collaborators) : command :=
  fun args =>
    def tt
      (g <- get_globals ;;
       for_ (enumerate (arenas g))
         (fun '(n, arena) =>
            emit (print [Mod "Arena #%d: %s" [Int n; Int (address arena)]]))).

End HeapArenas.

(** ** [class HeapArenaSelect], lines 529-542 *)
Module HeapArenaSelect.

Definition invoke (w : collaborators) : command :=
  fun args =>
    def tt
      (arena_num <- lift (int_ w args 10) ;;
       g <- get_globals ;;
       a <- lift (getitem (arenas g) arena_num) ;;
       set_globals (with_cur_arena g a) ;;
       g <- get_globals ;;
       emit (print [Mod "Arena set to %s" [Int (address (cur_arena g))]])).

End HeapArenaSelect.

(** ** [class Hexdump], lines 453-513

    [hexdump] carries no decorator.  Its loop is a [while]: the model runs
    it for at most [fuel] tests of its condition, and the value of
    [invoke] tells whether that was enough for the command to reach its
    end. *)
Module Hexdump.

(** The command line once [argparse] has read it (lines 463-468); [size]
    is [None] without [-s]. *)
Record namespace : Type := mkNamespace
  { addr : list string; chars : bool; size : option string; wide : bool }.

(** What [hexdump] asks of its host besides [collaborators]: its own
    [argparse] parser, [hexdump_as_bytes] with its [chars_only] keyword,
    and which exceptions are instances of [gdb.MemoryError]. *)
Record host : Type := mkHost
  { parse_args : list string -> exn + namespace;
    hexdump_as_bytes : Z -> Z -> bool -> exn + string;
    MemoryError : exn -> bool }.

(** [while cond: body], for at most [fuel] tests of [cond]; the value
    tells whether the loop ended by its condition. *)
Fixpoint while_ {L} (fuel : nat) (cond : L -> bool) (body : stmt L unit)
    : stmt L bool :=
  match fuel with
  | O => ret false
  | S fuel' =>
      l <- get_locals ;;
      if cond l then body ;; while_ fuel' cond body else ret true
  end.

(** Lines 476-482: the number of bytes to dump. *)
Definition total_size_of (w : collaborators) (args_dict : namespace)
    : exn + Z :=
  match size args_dict with
  | Some s =>
      if String.eqb s "" then inr 0x100
      else if String.prefix "0x" s then int_ w s 16 else int_ w s 10
  | None => inr 0x100
  end.

(** Lines 492-495: the address to start from. *)
Definition start_of (w : collaborators) (addr_arg : string) : exn + Z :=
  if String.prefix "0x" addr_arg then int_ w addr_arg 16
  else int_ w addr_arg 10.

(** Lines 501-502 and 507-508: one line of the dump. *)
Definition dump_line (h : host) (chars_only : bool) (lo len : Z)
    : stmt Z unit :=
  hd <- lift (hexdump_as_bytes h lo len chars_only) ;;
  emit (print [Mod "%s -> %s %s"
                   [fmt_addr lo; fmt_addr (lo + len - 1); Str hd]]).

(** The local variable is [addr]. *)
Definition invoke (w : collaborators) (h : host) (fuel : nat)
    : string -> stmt unit bool :=
  fun args =>
    def 0
      (let arg_list := string_to_argv w args in
       parsed <- try_except
                   (args_dict <- lift (parse_args h arg_list) ;;
                    ret (Some args_dict))
                   (fun _ => Some (ret None)) (* except: return *) ;;
       match parsed with
       | None => ret true
       | Some args_dict =>
           addr_arg <- lift (getitem (addr args_dict) 0) ;;
           total_size <- lift (total_size_of w args_dict) ;;
           let size := if wide args_dict then 32 else 16 in
           let chars_only := chars args_dict in
           start <- lift (start_of w addr_arg) ;;
           set_locals start ;;
           let end_ := start + total_size in
           try_except
             (finished <- while_ fuel (fun addr => addr + size <=? end_)
                            (addr <- get_locals ;;
                             dump_line h chars_only addr size ;;
                             set_locals (addr + size)) ;;
              if finished : bool then
                let r := (end_ - start) mod size in
                (if 0 <? r then
                   addr <- get_locals ;;
                   dump_line h chars_only addr r
                 else ret tt) ;;
                ret true
              else ret false)
             (fun e =>
                match e with
                | KeyboardInterrupt =>
                    Some (emit (print [Str "Interrupt"]) ;; ret true)
                | _ =>
                    if MemoryError h e then
                      Some (emit (print [Str "Error accessing memory"]) ;;
                            ret true)
                    else None
                end)
       end).

End Hexdump.

(** ** [register_commands], lines 546-565

    Instantiating a [gdb.Command] registers it with gdb under the name its
    constructor passes.  The names, in the order of lines 548-562: *)
Definition command_names : list string :=
  ["heap"; "heap sizes"; "heap used"; "heap free"; "heap all"; "heap log";
   "heap label"; "heap diff"; "heap select"; "heap arenas"; "heap arena";
   "heap search"; "heap chunk"; "hexdump"; "objdump"].

(** The commands gdb knows; [cpython] stands for what
    [heap.cpython.register_commands] adds (lines 564-565). *)
Definition register_commands (cpython : list string) (registry : list string)
    : list string :=
  registry ++ command_names ++ cpython.

(** The [invoke] methods of the file that carry both decorators and whose
    body can be read as Python ([objdump] cannot, see [Source]; [hexdump]
    carries no decorator). *)
Definition invoke_methods (w : collaborators) : list (string * command) :=
  [("heap", Heap.invoke w);
   ("heap sizes", HeapSizes.invoke w);
   ("heap used", HeapUsed.invoke w);
   ("heap free", HeapFree.invoke w);
   ("heap all", HeapAll.invoke w);
   ("heap log", HeapLog.invoke w);
   ("heap label", HeapLabel.invoke w);
   ("heap diff", HeapDiff.invoke w);
   ("heap select", HeapSelect.invoke w);
   ("heap search", HeapSearch.invoke w);
   ("heap chunk", HeapChunk.invoke w);
   ("heap arenas", HeapArenas.invoke w);
   ("heap arena", HeapArenaSelect.invoke w)].

(** The reports on the heap: the commands that traverse the chunks of the
    arena and print what they found. *)
Definition report_commands (w : collaborators) : list (string * command) :=
  [("heap", Heap.invoke w);
   ("heap sizes", HeapSizes.invoke w);
   ("heap used", HeapUsed.invoke w);
   ("heap free", HeapFree.invoke w);
   ("heap all", HeapAll.invoke w)].

(* ===================================================================== *)
(** * The text of the file                                                *)
(* ===================================================================== *)

Module Source.

(** [heap/commands.py], one string per line; the number before a line is
    its line number in the file. *)
Definition commands_py : list string :=
  [
   (*   1 *) "# Copyright (C) 2010  David Hugh Malcolm";
   (*   2 *) "#";
   (*   3 *) "# This library is free software; you can redistribute it and/or";
   (*   4 *) "# modify it under the terms of the GNU Lesser General Public";
   (*   5 *) "# License as published by the Free Software Foundation; either";
   (*   6 *) "# version 2.1 of the License, or (at your option) any later version.";
   (*   7 *) "#";
   (*   8 *) "# This library is distributed in the hope that it will be useful,";
   (*   9 *) "# but WITHOUT ANY WARRANTY; without even the implied warranty of";
   (*  10 *) "# MERCHANTABILITY or FITNESS FOR A PARTICULAR PURPOSE.  See the GNU";
   (*  11 *) "# Lesser General Public License for more details.";
   (*  12 *) "#";
   (*  13 *) "# You should have received a copy of the GNU Lesser General Public";
   (*  14 *) "# License along with this library; if not, write to the Free Software";
   (*  15 *) "# Foundation, Inc., 59 Temple Place, Suite 330, Boston, MA  02111-1307  USA";
   (*  16 *) EmptyString;
   (*  17 *) "import gdb";
   (*  18 *) "import re";
   (*  19 *) "import sys";
   (*  20 *) "import argparse";
   (*  21 *) EmptyString;
   (*  22 *) "from heap.history import history, Snapshot, Diff";
   (*  23 *) EmptyString;
   (*  24 *) "from heap import lazily_get_usage_list, \";
   (*  25 *) "    fmt_size, fmt_addr, \";
   (*  26 *) "    categorize, categorize_usage_list, Usage, \";
   (*  27 *) "    hexdump_as_bytes, \";
   (*  28 *) "    Table, \";
   (*  29 *) "    MissingDebuginfo";
   (*  30 *) EmptyString;
   (*  31 *) EmptyString;
   (*  32 *) "def need_debuginfo(f):";
   (*  33 *) "    def g(self, args, from_tty):";
   (*  34 *) "        try:";
   (*  35 *) "            return f(self, args, from_tty)";
   (*  36 *) "        except MissingDebuginfo as e:";
   (*  37 *) "            print('Missing debuginfo for %s' % e.module)";
   (*  38 *) "            print('Suggested fix:')";
   (*  39 *) "            print('    debuginfo-install %s' % e.module)";
   (*  40 *) "    return g";
   (*  41 *) EmptyString;
   (*  42 *) EmptyString;
   (*  43 *) "def target_running(f):";
   (*  44 *) "    def g(self, args, from_tty):";
   (*  45 *) "        try:";
   (*  46 *) "            return f(self, args, from_tty)";
   (*  47 *) "        except (gdb.error, NameError) as e:";
   (*  48 *) ("            print(" ++ DQ ++ "Gdb error: \" ++ DQ ++ "%s\" ++ DQ ++ ". Is the target running?" ++ DQ ++ " % e)")%string;
   (*  49 *) "            import traceback";
   (*  50 *) "            print()";
   (*  51 *) "            print(traceback.format_exc())";
   (*  52 *) "    return g";
   (*  53 *) EmptyString;
   (*  54 *) EmptyString;
   (*  55 *) "class Heap(gdb.Command):";
   (*  56 *) "    'Print a report on memory usage, by category'";
   (*  57 *) "    def __init__(self):";
   (*  58 *) "        gdb.Command.__init__ (self,";
   (*  59 *) ("                              " ++ DQ ++ "heap" ++ DQ ++ ",")%string;
   (*  60 *) "                              gdb.COMMAND_DATA,";
   (*  61 *) "                              prefix=True)";
   (*  62 *) EmptyString;
   (*  63 *) "    @need_debuginfo";
   (*  64 *) "    @target_running";
   (*  65 *) "    def invoke(self, args, from_tty):";
   (*  66 *) "        total_by_category = {}";
   (*  67 *) "        count_by_category = {}";
   (*  68 *) "        total_size = 0";
   (*  69 *) "        total_count = 0";
   (*  70 *) "        try:";
   (*  71 *) "            usage_list = list(lazily_get_usage_list())";
   (*  72 *) "            for u in usage_list:";
   (*  73 *) "                u.ensure_category()";
   (*  74 *) "                total_size += u.size";
   (*  75 *) "                if u.category in total_by_category:";
   (*  76 *) "                    total_by_category[u.category] += u.size";
   (*  77 *) "                else:";
   (*  78 *) "                    total_by_category[u.category] = u.size";
   (*  79 *) EmptyString;
   (*  80 *) "                total_count += 1";
   (*  81 *) "                if u.category in count_by_category:";
   (*  82 *) "                    count_by_category[u.category] += 1";
   (*  83 *) "                else:";
   (*  84 *) "                    count_by_category[u.category] = 1";
   (*  85 *) EmptyString;
   (*  86 *) "        except KeyboardInterrupt:";
   (*  87 *) "            pass # FIXME";
   (*  88 *) EmptyString;
   (*  89 *) "        t = Table(['Domain', 'Kind', 'Detail', 'Count', 'Allocated size'])";
   (*  90 *) "        for category in sorted(total_by_category.keys(),";
   (*  91 *) "                               key=total_by_category.get,";
   (*  92 *) "                               reverse=True):";
   (*  93 *) "            detail = category.detail";
   (*  94 *) "            if not detail:";
   (*  95 *) "                detail = ''";
   (*  96 *) "            t.add_row([category.domain,";
   (*  97 *) "                       category.kind,";
   (*  98 *) "                       detail,";
   (*  99 *) "                       fmt_size(count_by_category[category]),";
   (* 100 *) "                       fmt_size(total_by_category[category]),";
   (* 101 *) "                       ])";
   (* 102 *) "        t.add_row(['', '', 'TOTAL', fmt_size(total_count), fmt_size(total_size)])";
   (* 103 *) "        t.write(sys.stdout)";
   (* 104 *) "        print()";
   (* 105 *) EmptyString;
   (* 106 *) "class HeapSizes(gdb.Command):";
   (* 107 *) "    'Print a report on memory usage, by sizes'";
   (* 108 *) "    def __init__(self):";
   (* 109 *) "        gdb.Command.__init__ (self,";
   (* 110 *) ("                              " ++ DQ ++ "heap sizes" ++ DQ ++ ",")%string;
   (* 111 *) "                              gdb.COMMAND_DATA)";
   (* 112 *) EmptyString;
   (* 113 *) "    @need_debuginfo";
   (* 114 *) "    @target_running";
   (* 115 *) "    def invoke(self, args, from_tty):";
   (* 116 *) "        from heap.glibc import glibc_arenas";
   (* 117 *) "        ms = glibc_arenas.get_ms()";
   (* 118 *) "        chunks_by_size = {}";
   (* 119 *) "        num_chunks = 0";
   (* 120 *) "        total_size = 0";
   (* 121 *) "        try:";
   (* 122 *) "            for chunk in ms.iter_chunks():";
   (* 123 *) "                if not chunk.is_inuse():";
   (* 124 *) "                    continue";
   (* 125 *) "                size = int(chunk.chunksize())";
   (* 126 *) "                num_chunks += 1";
   (* 127 *) "                total_size += size";
   (* 128 *) "                if size in chunks_by_size:";
   (* 129 *) "                    chunks_by_size[size] += 1";
   (* 130 *) "                else:";
   (* 131 *) "                    chunks_by_size[size] = 1";
   (* 132 *) "        except KeyboardInterrupt:";
   (* 133 *) "            pass # FIXME";
   (* 134 *) "        t = Table(['Chunk size', 'Num chunks', 'Allocated size'])";
   (* 135 *) "        for size in sorted(chunks_by_size.keys(), key=lambda x: chunks_by_size[x] * x):";
   (* 136 *) "            t.add_row([fmt_size(size),";
   (* 137 *) "                       chunks_by_size[size],";
   (* 138 *) "                       fmt_size(chunks_by_size[size] * size)])";
   (* 139 *) "        t.add_row(['TOTALS', num_chunks, fmt_size(total_size)])";
   (* 140 *) "        t.write(sys.stdout)";
   (* 141 *) "        print()";
   (* 142 *) EmptyString;
   (* 143 *) EmptyString;
   (* 144 *) "class HeapUsed(gdb.Command):";
   (* 145 *) "    'Print used heap chunks'";
   (* 146 *) "    def __init__(self):";
   (* 147 *) "        gdb.Command.__init__ (self,";
   (* 148 *) ("                              " ++ DQ ++ "heap used" ++ DQ ++ ",")%string;
   (* 149 *) "                              gdb.COMMAND_DATA)";
   (* 150 *) EmptyString;
   (* 151 *) "    @need_debuginfo";
   (* 152 *) "    @target_running";
   (* 153 *) "    def invoke(self, args, from_tty):";
   (* 154 *) "        from heap.glibc import glibc_arenas";
   (* 155 *) "        print('Used chunks of memory on heap')";
   (* 156 *) "        print('-----------------------------')";
   (* 157 *) "        ms = glibc_arenas.get_ms()";
   (* 158 *) "        try:";
   (* 159 *) "            for i, chunk in enumerate(ms.iter_chunks()):";
   (* 160 *) "                if not chunk.is_inuse():";
   (* 161 *) "                    continue";
   (* 162 *) "                size = chunk.chunksize()";
   (* 163 *) "                mem = chunk.as_mem()";
   (* 164 *) "                u = Usage(mem, size)";
   (* 165 *) "                category = categorize(u, None)";
   (* 166 *) "                hd = hexdump_as_bytes(mem, 32)";
   (* 167 *) "                print ('%6i: %s -> %s %8i bytes %20s |%s'";
   (* 168 *) "                       % (i,";
   (* 169 *) "                          fmt_addr(chunk.as_mem()),";
   (* 170 *) "                          fmt_addr(chunk.as_mem()+size-1),";
   (* 171 *) "                          size, category, hd))";
   (* 172 *) "        except KeyboardInterrupt:";
   (* 173 *) ("            print(" ++ DQ ++ "Interrupted" ++ DQ ++ ")")%string;
   (* 174 *) "        print()";
   (* 175 *) EmptyString;
   (* 176 *) EmptyString;
   (* 177 *) "class HeapFree(gdb.Command):";
   (* 178 *) "    'Print free heap chunks'";
   (* 179 *) "    def __init__(self):";
   (* 180 *) "        gdb.Command.__init__ (self,";
   (* 181 *) ("                              " ++ DQ ++ "heap free" ++ DQ ++ ",")%string;
   (* 182 *) "                              gdb.COMMAND_DATA)";
   (* 183 *) EmptyString;
   (* 184 *) "    @need_debuginfo";
   (* 185 *) "    @target_running";
   (* 186 *) "    def invoke(self, args, from_tty):";
   (* 187 *) "        from heap.glibc import glibc_arenas";
   (* 188 *) "        print('Free chunks of memory on heap')";
   (* 189 *) "        print('-----------------------------')";
   (* 190 *) "        ms = glibc_arenas.get_ms()";
   (* 191 *) "        total_size = 0";
   (* 192 *) EmptyString;
   (* 193 *) "        for i, chunk in enumerate(ms.iter_free_chunks()):";
   (* 194 *) "            size = chunk.chunksize()";
   (* 195 *) "            total_size += size";
   (* 196 *) "            mem = chunk.as_mem()";
   (* 197 *) "            u = Usage(mem, size)";
   (* 198 *) "            category = categorize(u, None)";
   (* 199 *) "            hd = hexdump_as_bytes(mem, 32)";
   (* 200 *) EmptyString;
   (* 201 *) "            print ('%6i: %s -> %s %8i bytes %20s |%s'";
   (* 202 *) "                   % (i,";
   (* 203 *) "                      fmt_addr(chunk.as_mem()),";
   (* 204 *) "                      fmt_addr(chunk.as_mem()+size-1),";
   (* 205 *) "                      size, category, hd))";
   (* 206 *) EmptyString;
   (* 207 *) ("        print(" ++ DQ ++ "Total size: %s" ++ DQ ++ " % total_size)")%string;
   (* 208 *) EmptyString;
   (* 209 *) EmptyString;
   (* 210 *) "class HeapAll(gdb.Command):";
   (* 211 *) "    'Print all heap chunks'";
   (* 212 *) "    def __init__(self):";
   (* 213 *) "        gdb.Command.__init__ (self,";
   (* 214 *) ("                              " ++ DQ ++ "heap all" ++ DQ ++ ",")%string;
   (* 215 *) "                              gdb.COMMAND_DATA)";
   (* 216 *) EmptyString;
   (* 217 *) "    @need_debuginfo";
   (* 218 *) "    @target_running";
   (* 219 *) "    def invoke(self, args, from_tty):";
   (* 220 *) "        from heap.glibc import glibc_arenas";
   (* 221 *) "        print('All chunks of memory on heap (both used and free)')";
   (* 222 *) "        print('-------------------------------------------------')";
   (* 223 *) "        ms = glibc_arenas.get_ms()";
   (* 224 *) "        for i, chunk in enumerate(ms.iter_chunks()):";
   (* 225 *) "            size = chunk.chunksize()";
   (* 226 *) "            if chunk.is_inuse():";
   (* 227 *) "                kind = ' inuse'";
   (* 228 *) "            else:";
   (* 229 *) "                kind = ' free'";
   (* 230 *) EmptyString;
   (* 231 *) "            print ('%i: %s -> %s %s: %i bytes (%s)'";
   (* 232 *) "                   % (i,";
   (* 233 *) "                      fmt_addr(chunk.as_address()),";
   (* 234 *) "                      fmt_addr(chunk.as_address()+size-1),";
   (* 235 *) "                      kind, size, chunk))";
   (* 236 *) "        print()";
   (* 237 *) EmptyString;
   (* 238 *) "class HeapLog(gdb.Command):";
   (* 239 *) "    'Print a log of recorded heap states'";
   (* 240 *) "    def __init__(self):";
   (* 241 *) "        gdb.Command.__init__ (self,";
   (* 242 *) ("                              " ++ DQ ++ "heap log" ++ DQ ++ ",")%string;
   (* 243 *) "                              gdb.COMMAND_DATA)";
   (* 244 *) EmptyString;
   (* 245 *) "    @need_debuginfo";
   (* 246 *) "    @target_running";
   (* 247 *) "    def invoke(self, args, from_tty):";
   (* 248 *) "        h = history";
   (* 249 *) "        if len(h.snapshots) == 0:";
   (* 250 *) "            print('(no history)')";
   (* 251 *) "            return";
   (* 252 *) "        for i in range(len(h.snapshots), 0, -1):";
   (* 253 *) "            s = h.snapshots[i-1]";
   (* 254 *) ("            print('Label %i " ++ DQ ++ "%s" ++ DQ ++ " at %s' % (i, s.name, s.time))")%string;
   (* 255 *) "            print('    ', s.summary())";
   (* 256 *) "            if i > 1:";
   (* 257 *) "                prev = h.snapshots[i-2]";
   (* 258 *) "                d = Diff(prev, s)";
   (* 259 *) "                print()";
   (* 260 *) "                print('    ', d.stats())";
   (* 261 *) "            print()";
   (* 262 *) EmptyString;
   (* 263 *) "class HeapLabel(gdb.Command):";
   (* 264 *) "    'Record the current state of the heap for later comparison'";
   (* 265 *) "    def __init__(self):";
   (* 266 *) "        gdb.Command.__init__ (self,";
   (* 267 *) ("                              " ++ DQ ++ "heap label" ++ DQ ++ ",")%string;
   (* 268 *) "                              gdb.COMMAND_DATA)";
   (* 269 *) EmptyString;
   (* 270 *) "    @need_debuginfo";
   (* 271 *) "    @target_running";
   (* 272 *) "    def invoke(self, args, from_tty):";
   (* 273 *) "        s = history.add(args)";
   (* 274 *) "        print(s.summary())";
   (* 275 *) EmptyString;
   (* 276 *) EmptyString;
   (* 277 *) "class HeapDiff(gdb.Command):";
   (* 278 *) "    'Compare two states of the heap'";
   (* 279 *) "    def __init__(self):";
   (* 280 *) "        gdb.Command.__init__ (self,";
   (* 281 *) ("                              " ++ DQ ++ "heap diff" ++ DQ ++ ",")%string;
   (* 282 *) "                              gdb.COMMAND_DATA)";
   (* 283 *) EmptyString;
   (* 284 *) "    @need_debuginfo";
   (* 285 *) "    @target_running";
   (* 286 *) "    def invoke(self, args, from_tty):";
   (* 287 *) "        h = history";
   (* 288 *) "        if len(h.snapshots) == 0:";
   (* 289 *) "            print('(no history)')";
   (* 290 *) "            return";
   (* 291 *) "        prev = h.snapshots[-1]";
   (* 292 *) "        curr = Snapshot.current('current')";
   (* 293 *) "        d = Diff(prev, curr)";
   (* 294 *) "        print('Changes from %s to %s' % (prev.name, curr.name))";
   (* 295 *) "        print('  ', d.stats())";
   (* 296 *) "        print()";
   (* 297 *) "        print('\n'.join(['  ' + line for line in d.as_changes().splitlines()]))";
   (* 298 *) EmptyString;
   (* 299 *) "class HeapSelect(gdb.Command):";
   (* 300 *) "    'Query used heap chunks'";
   (* 301 *) "    def __init__(self):";
   (* 302 *) "        gdb.Command.__init__ (self,";
   (* 303 *) ("                              " ++ DQ ++ "heap select" ++ DQ ++ ",")%string;
   (* 304 *) "                              gdb.COMMAND_DATA)";
   (* 305 *) EmptyString;
   (* 306 *) "    @need_debuginfo";
   (* 307 *) "    @target_running";
   (* 308 *) "    def invoke(self, args, from_tty):";
   (* 309 *) "        from heap.query import do_query";
   (* 310 *) "        from heap.parser import ParserError";
   (* 311 *) "        try:";
   (* 312 *) "            do_query(args)";
   (* 313 *) "        except ParserError as e:";
   (* 314 *) "            print(e)";
   (* 315 *) EmptyString;
   (* 316 *) "class HeapSearch(gdb.Command):";
   (* 317 *) "    'Search for address in heap'";
   (* 318 *) "    def __init__(self):";
   (* 319 *) "        gdb.Command.__init__ (self,";
   (* 320 *) ("                              " ++ DQ ++ "heap search" ++ DQ ++ ",")%string;
   (* 321 *) "                              gdb.COMMAND_DATA)";
   (* 322 *) EmptyString;
   (* 323 *) "    @need_debuginfo";
   (* 324 *) "    @target_running";
   (* 325 *) "    def invoke(self, args, from_tty):";
   (* 326 *) "        from heap.glibc import glibc_arenas";
   (* 327 *) EmptyString;
   (* 328 *) "        arg_list = gdb.string_to_argv(args)";
   (* 329 *) EmptyString;
   (* 330 *) ("        parser = argparse.ArgumentParser(add_help=True, usage=" ++ DQ ++ "heap search [-a] [-b] <ADDR>" ++ DQ ++ ")")%string;
   (* 331 *) ("        parser.add_argument('addr', metavar='ADDR', type=str, nargs=1, help=" ++ DQ ++ "Target address" ++ DQ ++ ")")%string;
   (* 332 *) ("        parser.add_argument('-b', dest='before', action=" ++ DQ ++ "store_true" ++ DQ ++ ", default=False, help=" ++ DQ ++ "Show chunk before" ++ DQ ++ ")")%string;
   (* 333 *) ("        parser.add_argument('-a', dest='after', action=" ++ DQ ++ "store_true" ++ DQ ++ ", default=False, help=" ++ DQ ++ "Show chunk after" ++ DQ ++ ")")%string;
   (* 334 *) EmptyString;
   (* 335 *) "        try:";
   (* 336 *) "            args_dict = parser.parse_args(args=arg_list)";
   (* 337 *) "        except:";
   (* 338 *) "            return";
   (* 339 *) EmptyString;
   (* 340 *) "        addr_arg = args_dict.addr[0]";
   (* 341 *) EmptyString;
   (* 342 *) ("        if addr_arg.startswith(" ++ DQ ++ "0x" ++ DQ ++ "):")%string;
   (* 343 *) "            addr = int(addr_arg, 16)";
   (* 344 *) "        else:";
   (* 345 *) "            addr = int(addr_arg)";
   (* 346 *) "        ";
   (* 347 *) "        print('search heap for address %s' % hex(addr))";
   (* 348 *) "        print('-------------------------------------------------')";
   (* 349 *) "        ms = glibc_arenas.get_ms()";
   (* 350 *) ("        output_str = " ++ DQ ++ DQ)%string;
   (* 351 *) "        for i, chunk in enumerate(ms.iter_chunks()):";
   (* 352 *) "            ";
   (* 353 *) "            size = chunk.chunksize()";
   (* 354 *) "            if addr >= chunk.as_address() and addr < chunk.as_address() + size:";
   (* 355 *) "                if chunk.is_inuse():";
   (* 356 *) "                    kind = ' inuse'";
   (* 357 *) "                else:";
   (* 358 *) "                    kind = ' free'";
   (* 359 *) EmptyString;
   (* 360 *) "                output_str += 'BLOCK:\t%s -> %s %s: \n\t%i bytes (%s)\n' % (";
   (* 361 *) "                          fmt_addr(chunk.as_address()),";
   (* 362 *) "                          fmt_addr(chunk.as_address()+size-1),";
   (* 363 *) "                          kind, size, chunk)";
   (* 364 *) "                if args_dict.after:";
   (* 365 *) "                    chunk_after = chunk.next_chunk()";
   (* 366 *) "                    if chunk.is_inuse():";
   (* 367 *) "                        kind = ' inuse'";
   (* 368 *) "                    else:";
   (* 369 *) "                        kind = ' free'";
   (* 370 *) "                    output_str += 'NEXT:\t%s -> %s %s: \n\t%i bytes (%s)\n' % (";
   (* 371 *) "                        fmt_addr(chunk_after.as_address()),";
   (* 372 *) "                        fmt_addr(chunk_after.as_address()+size-1),";
   (* 373 *) "                        kind, chunk_after.chunksize(), chunk_after)";
   (* 374 *) "        print(output_str)";
   (* 375 *) EmptyString;
   (* 376 *) "class HeapChunk(gdb.Command):";
   (* 377 *) "    'Not implemented'";
   (* 378 *) "    def __init__(self):";
   (* 379 *) "        gdb.Command.__init__ (self,";
   (* 380 *) ("                              " ++ DQ ++ "heap chunk" ++ DQ ++ ",")%string;
   (* 381 *) "                              gdb.COMMAND_DATA)";
   (* 382 *) EmptyString;
   (* 383 *) "    @need_debuginfo";
   (* 384 *) "    @target_running";
   (* 385 *) "    def invoke(self, args, from_tty):";
   (* 386 *) "        print(args)";
   (* 387 *) "        arg_list = gdb.string_to_argv(args)";
   (* 388 *) "        print(arg_list)";
   (* 389 *) EmptyString;
   (* 390 *) EmptyString;
   (* 391 *) "class Objdump(gdb.Command):";
   (* 392 *) "    'Try to detect if ADDR is an object and dump it'";
   (* 393 *) "    def __init__(self):";
   (* 394 *) "        gdb.Command.__init__ (self,";
   (* 395 *) ("                              " ++ DQ ++ "objdump" ++ DQ ++ ",")%string;
   (* 396 *) "                              gdb.COMMAND_DATA)";
   (* 397 *) EmptyString;
   (* 398 *) "    @need_debuginfo";
   (* 399 *) "    @target_running";
   (* 400 *) "    def invoke(self, args, from_tty):";
   (* 401 *) "        from heap.glibc import iter_code_sections";
   (* 402 *) "        from heap import WrappedPointer,caching_lookup_type";
   (* 403 *) "        arg_list = gdb.string_to_argv(args)";
   (* 404 *) ("        parser = argparse.ArgumentParser(add_help=True, usage=" ++ DQ ++ "objdump [-s SIZE] <ADDR>" ++ DQ ++ ")")%string;
   (* 405 *) ("        parser.add_argument('addr', metavar='ADDR', type=str, nargs=1, help=" ++ DQ ++ "Target address" ++ DQ ++ ")")%string;
   (* 406 *) "        parser.add_argument('-s', dest='size', default=None, help='Total dump size')";
   (* 407 *) "        ";
   (* 408 *) "        try:";
   (* 409 *) "            args_dict = parser.parse_args(args=arg_list)";
   (* 410 *) "        except:";
   (* 411 *) "            return";
   (* 412 *) EmptyString;
   (* 413 *) "        addr_arg = args_dict.addr[0]";
   (* 414 *) "        if addr_arg.startswith('0x'):";
   (* 415 *) "            addr = int(addr_arg, 16)";
   (* 416 *) "        else:";
   (* 417 *) "            addr = int(addr_arg)";
   (* 418 *) EmptyString;
   (* 419 *) "        if args_dict.size:";
   (* 420 *) "            if args_dict.size.startswith('0x'):";
   (* 421 *) "                total_size = int(args_dict.size, 16)";
   (* 422 *) "            else:";
   (* 423 *) "                total_size = int(args_dict.size)";
   (* 424 *) "        else:";
   (* 425 *) "            total_size = 0x10";
   (* 426 *) EmptyString;
   (* 427 *) "        print('Searching in the following executable sections'";
   (* 428 *) "        print('-------------------------------------------------')";
   (* 429 *) "        text = [] #list of pairs (start, end) of a code section";
   (* 430 *) "        for i in gdb.inferiors():";
   (* 431 *) "            for r in iter_code_sections(i.pid):";
   (* 432 *) ("                print(" ++ DQ ++ "%s - %s : %s" ++ DQ ++ " % (hex(r[0]), hex(r[1]), r[2]))")%string;
   (* 433 *) "                text.append((r[0], r[1], r[2]))";
   (* 434 *) EmptyString;
   (* 435 *) "        print('\nDumping Object at address %s' % hex(addr))";
   (* 436 *) "        print('-------------------------------------------------')";
   (* 437 *) "        SIZE_SZ = caching_lookup_type('size_t').sizeof";
   (* 438 *) "        for a in range(addr,addr+total_size, SIZE_SZ):";
   (* 439 *) "            ptr = WrappedPointer(gdb.Value(a))";
   (* 440 *) "            #dereference first, at the first access denied bail out, dont go further";
   (* 441 *) "            try:";
   (* 442 *) "                val = ptr.dereference()";
   (* 443 *) ("                print(" ++ DQ ++ "%s => %s" ++ DQ ++ " % (hex(ptr), hex(val)))")%string;
   (* 444 *) "                for t in text:";
   (* 445 *) "                    if a >= t[0] and a <t[1]:";
   (* 446 *) "                        place=0";
   (* 447 *) "            ";
   (* 448 *) "            except:";
   (* 449 *) ("                print(" ++ DQ ++ "Error accessing memory" ++ DQ ++ ")")%string;
   (* 450 *) "                raise";
   (* 451 *) EmptyString;
   (* 452 *) EmptyString;
   (* 453 *) "class Hexdump(gdb.Command):";
   (* 454 *) "    'Print a hexdump, starting at the specific region of memory'";
   (* 455 *) "    def __init__(self):";
   (* 456 *) "        gdb.Command.__init__ (self,";
   (* 457 *) ("                              " ++ DQ ++ "hexdump" ++ DQ ++ ",")%string;
   (* 458 *) "                              gdb.COMMAND_DATA)";
   (* 459 *) EmptyString;
   (* 460 *) "    def invoke(self, args, from_tty):";
   (* 461 *) "        ";
   (* 462 *) "        arg_list = gdb.string_to_argv(args)";
   (* 463 *) ("        parser = argparse.ArgumentParser(add_help=True, usage=" ++ DQ ++ "hexdump [-c] [-w] [-s SIZE] <ADDR>" ++ DQ ++ ")")%string;
   (* 464 *) ("        parser.add_argument('addr', metavar='ADDR', type=str, nargs=1, help=" ++ DQ ++ "Target address" ++ DQ ++ ")")%string;
   (* 465 *) ("        parser.add_argument('-c', dest='chars', action=" ++ DQ ++ "store_true" ++ DQ ++ ", default=False, help=" ++ DQ ++ "Show chars only" ++ DQ ++ ")")%string;
   (* 466 *) "        parser.add_argument('-s', dest='size', default=None, help='Total Dump size')";
   (* 467 *) ("        parser.add_argument('-w', dest='wide', action=" ++ DQ ++ "store_true" ++ DQ ++ ", default=False, ")%string;
   (* 468 *) "            help='wide: 32 bytes per line instead of 16')";
   (* 469 *) EmptyString;
   (* 470 *) "        try:";
   (* 471 *) "            args_dict = parser.parse_args(args=arg_list)";
   (* 472 *) "        except:";
   (* 473 *) "            return";
   (* 474 *) EmptyString;
   (* 475 *) "        addr_arg = args_dict.addr[0]";
   (* 476 *) "        if args_dict.size:";
   (* 477 *) "            if args_dict.size.startswith('0x'):";
   (* 478 *) "                total_size = int(args_dict.size, 16)";
   (* 479 *) "            else:";
   (* 480 *) "                total_size = int(args_dict.size)";
   (* 481 *) "        else:";
   (* 482 *) "            total_size = 0x100";
   (* 483 *) EmptyString;
   (* 484 *) "        if args_dict.wide:";
   (* 485 *) "            size = 32";
   (* 486 *) "        else:";
   (* 487 *) "            size = 16";
   (* 488 *) EmptyString;
   (* 489 *) "        chars_only = args_dict.chars";
   (* 490 *) EmptyString;
   (* 491 *) EmptyString;
   (* 492 *) "        if addr_arg.startswith('0x'):";
   (* 493 *) "            start = int(addr_arg, 16)";
   (* 494 *) "        else:";
   (* 495 *) "            start = int(addr_arg)";
   (* 496 *) EmptyString;
   (* 497 *) "        addr = start";
   (* 498 *) "        end = addr + total_size";
   (* 499 *) "        try:";
   (* 500 *) "            while addr + size <= end:";
   (* 501 *) "                hd = hexdump_as_bytes(addr, size, chars_only=chars_only)";
   (* 502 *) "                print ('%s -> %s %s' % (fmt_addr(addr), fmt_addr(addr + size -1), hd))";
   (* 503 *) "                addr += size";
   (* 504 *) "            ";
   (* 505 *) "            r = (end-start) % size";
   (* 506 *) "            if r > 0 :";
   (* 507 *) "                hd = hexdump_as_bytes(addr, r, chars_only=chars_only)";
   (* 508 *) "                print ('%s -> %s %s' % (fmt_addr(addr), fmt_addr(addr + r -1), hd))";
   (* 509 *) "        except KeyboardInterrupt:";
   (* 510 *) ("            print(" ++ DQ ++ "Interrupt" ++ DQ ++ ")")%string;
   (* 511 *) "            return";
   (* 512 *) "        except gdb.MemoryError:";
   (* 513 *) ("            print(" ++ DQ ++ "Error accessing memory" ++ DQ ++ ")")%string;
   (* 514 *) EmptyString;
   (* 515 *) "class HeapArenas(gdb.Command):";
   (* 516 *) "    'Display heap arenas available'";
   (* 517 *) "    def __init__(self):";
   (* 518 *) "        gdb.Command.__init__ (self,";
   (* 519 *) ("                              " ++ DQ ++ "heap arenas" ++ DQ ++ ",")%string;
   (* 520 *) "                              gdb.COMMAND_DATA)";
   (* 521 *) EmptyString;
   (* 522 *) "    @need_debuginfo";
   (* 523 *) "    @target_running";
   (* 524 *) "    def invoke(self, args, from_tty):";
   (* 525 *) "        from heap.glibc import glibc_arenas";
   (* 526 *) "        for n, arena in enumerate(glibc_arenas.arenas):";
   (* 527 *) ("            print(" ++ DQ ++ "Arena #%d: %s" ++ DQ ++ " % (n, arena.address))")%string;
   (* 528 *) EmptyString;
   (* 529 *) "class HeapArenaSelect(gdb.Command):";
   (* 530 *) "    'Select heap arena'";
   (* 531 *) "    def __init__(self):";
   (* 532 *) "        gdb.Command.__init__ (self,";
   (* 533 *) ("                              " ++ DQ ++ "heap arena" ++ DQ ++ ",")%string;
   (* 534 *) "                              gdb.COMMAND_DATA)";
   (* 535 *) EmptyString;
   (* 536 *) "    @need_debuginfo";
   (* 537 *) "    @target_running";
   (* 538 *) "    def invoke(self, args, from_tty):";
   (* 539 *) "        from heap.glibc import glibc_arenas";
   (* 540 *) "        arena_num = int(args)";
   (* 541 *) "        glibc_arenas.cur_arena = glibc_arenas.arenas[arena_num]";
   (* 542 *) ("        print(" ++ DQ ++ "Arena set to %s" ++ DQ ++ " % glibc_arenas.cur_arena.address)")%string;
   (* 543 *) EmptyString;
   (* 544 *) EmptyString;
   (* 545 *) EmptyString;
   (* 546 *) "def register_commands():";
   (* 547 *) "    # Register the commands with gdb";
   (* 548 *) "    Heap()";
   (* 549 *) "    HeapSizes()";
   (* 550 *) "    HeapUsed()";
   (* 551 *) "    HeapFree()";
   (* 552 *) "    HeapAll()";
   (* 553 *) "    HeapLog()";
   (* 554 *) "    HeapLabel()";
   (* 555 *) "    HeapDiff()";
   (* 556 *) "    HeapSelect()";
   (* 557 *) "    HeapArenas()";
   (* 558 *) "    HeapArenaSelect()";
   (* 559 *) "    HeapSearch()";
   (* 560 *) "    HeapChunk()";
   (* 561 *) "    Hexdump()";
   (* 562 *) "    Objdump()";
   (* 563 *) EmptyString;
   (* 564 *) "    from heap.cpython import register_commands as register_cpython_commands";
   (* 565 *) "    register_cpython_commands()"
  ].

(** ** Bracket tracking of the Python tokenizer

    The tokenizer keeps the stack of the brackets that are open.  Brackets
    inside a string literal or a comment do not count.  While a bracket is
    open the end of a line does not end the statement; a closing bracket
    with nothing open, and the end of the file with a bracket still open,
    are syntax errors.  (The file has no triple-quoted string.) *)
Inductive mode : Type :=
| Code
| InString (quote : ascii)
| Escaped (quote : ascii)
| Comment.

Record scanner : Type := mkScanner
  { open_brackets : list (Z * Z);   (* (line, column), innermost first *)
    where_ : mode;
    unmatched : option (Z * Z) }.   (* a closing bracket with nothing open *)

Definition is_open (c : ascii) : bool :=
  (c =? "(")%char || (c =? "[")%char || (c =? "{")%char.

Definition is_close (c : ascii) : bool :=
  (c =? ")")%char || (c =? "]")%char || (c =? "}")%char.

Definition is_quote (c : ascii) : bool :=
  (c =? "'")%char || (c =? ascii_of_nat 34)%char.

Definition scan_char (line col : Z) (st : scanner) (c : ascii) : scanner :=
  match where_ st with
  | Code =>
      if is_open c then
        mkScanner ((line, col) :: open_brackets st) Code (unmatched st)
      else if is_close c then
        match open_brackets st with
        | _ :: rest => mkScanner rest Code (unmatched st)
        | [] => mkScanner [] Code
                  (match unmatched st with
                   | Some p => Some p
                   | None => Some (line, col)
                   end)
        end
      else if is_quote c then
        mkScanner (open_brackets st) (InString c) (unmatched st)
      else if (c =? "#")%char then
        mkScanner (open_brackets st) Comment (unmatched st)
      else st
  | InString q =>
      if (c =? "\")%char then
        mkScanner (open_brackets st) (Escaped q) (unmatched st)
      else if (c =? q)%char then
        mkScanner (open_brackets st) Code (unmatched st)
      else st
  | Escaped q => mkScanner (open_brackets st) (InString q) (unmatched st)
  | Comment => st
  end.

Fixpoint scan_chars (line col : Z) (st : scanner) (s : string) : scanner :=
  match s with
  | EmptyString => st
  | String c s' => scan_chars line (col + 1) (scan_char line col st c) s'
  end.

(** The end of a line ends a comment; a string literal does not run past
    the end of its line unless the line ends in a backslash. *)
Definition end_of_line (st : scanner) : scanner :=
  match where_ st with
  | Comment | InString _ => mkScanner (open_brackets st) Code (unmatched st)
  | Escaped q => mkScanner (open_brackets st) (InString q) (unmatched st)
  | Code => st
  end.

Fixpoint scan_lines (line : Z) (st : scanner) (src : list string) : scanner :=
  match src with
  | [] => st
  | l :: src' => scan_lines (line + 1) (end_of_line (scan_chars line 0 st l)) src'
  end.

Definition scan (src : list string) : scanner :=
  scan_lines 1 (mkScanner [] Code None) src.

(** The syntax error of the bracket structure, if it has one: the first
    closing bracket with nothing open, else the outermost bracket left
    open at the end of the file. *)
Definition bracket_error (src : list string) : option exn :=
  let st := scan src in
  match unmatched st with
  | Some (line, _) => Some (SyntaxError line)
  | None =>
      match rev (open_brackets st) with
      | (line, _) :: _ => Some (SyntaxError line)
      | [] => None
      end
  end.

(** [import heap.commands] followed by [register_commands()].  Python
    compiles the whole text of a module before it runs its first
    statement: with a syntax error nothing of the module is defined and
    nothing is registered.  Bracket matching is the only part of the
    syntax followed here. *)
Definition import_and_register (src : list string) (cpython : list string)
    (registry : list string) : list string * option exn :=
  match bracket_error src with
  | Some e => (registry, Some e)
  | None => (register_commands cpython registry, None)
  end.

End Source.

(* ===================================================================== *)
(** * A sample session                                                    *)
(* ===================================================================== *)

(** Concrete collaborators, used to run the commands on examples: the
    arena [(0x1000,16,used), (0x1010,32,free), (0x1030,16,used)], plain
    readings of [int], of [gdb.string_to_argv] and of the [argparse]
    parser of [heap search]. *)
Module Sample.

Definition chunk_a : chunk := mkChunk 0x1000 16 true 0x1010.
Definition chunk_b : chunk := mkChunk 0x1010 32 false 0x1020.
Definition chunk_c : chunk := mkChunk 0x1030 16 true 0x1040.
Definition top : chunk := mkChunk 0x1040 0x20fc0 true 0x1050.

Definition arena_chunks : list chunk := [chunk_a; chunk_b; chunk_c].

Definition uncategorized : Category := mkCategory "uncategorized" "" None.

(** [chunk.next_chunk()]: the chunk that starts where this one ends. *)
Definition next_in (chunks : list chunk) (c : chunk) : exn + chunk :=
  match find (fun n => as_address n =? as_address c + chunksize c) chunks with
  | Some n => inr n
  | None => inl (gdb_error "Cannot access memory")
  end.

Definition digit (c : ascii) : option Z :=
  let n := Z.of_nat (nat_of_ascii c) in
  if (48 <=? n) && (n <=? 57) then Some (n - 48)
  else if (97 <=? n) && (n <=? 102) then Some (n - 87)
  else if (65 <=? n) && (n <=? 70) then Some (n - 55)
  else None.

Fixpoint digits (base acc : Z) (s : string) : option Z :=
  match s with
  | EmptyString => Some acc
  | String c s' =>
      match digit c with
      | Some d => if d <? base then digits base (base * acc + d) s' else None
      | None => None
      end
  end.

Definition unsigned (base : Z) (s : string) : option Z :=
  let s := if (base =? 16) && String.prefix "0x" s
           then String.substring 2 (String.length s - 2) s else s in
  match s with
  | EmptyString => None
  | _ => digits base 0 s
  end.

(** [int(text, base)] on a sign, an optional [0x] in base 16, and
    digits; [ValueError] on anything else. *)
Definition int_of (text : string) (base : Z) : exn + Z :=
  let r := match text with
           | String "-"%char s => option_map Z.opp (unsigned base s)
           | String "+"%char s => unsigned base s
           | _ => unsigned base text
           end in
  match r with
  | Some n => inr n
  | None => inl (ValueError "invalid literal for int()")
  end.

(** Words separated by single spaces. *)
Fixpoint split_words (word : string) (s : string) : list string :=
  match s with
  | EmptyString => match word with EmptyString => [] | _ => [word] end
  | String c s' =>
      if (c =? " ")%char then
        match word with
        | EmptyString => split_words EmptyString s'
        | _ => word :: split_words EmptyString s'
        end
      else split_words (word ++ String c EmptyString)%string s'
  end.

(** The parser of lines 330-333: [-a], [-b] and one address. *)
Fixpoint parse_search (argv : list string) (ns : search_namespace)
    : exn + search_namespace :=
  match argv with
  | [] => match addr ns with [_] => inr ns | _ => inl SystemExit end
  | arg :: argv' =>
      if String.eqb arg "-a" then
        parse_search argv' (mkSearchNs (addr ns) (before ns) true)
      else if String.eqb arg "-b" then
        parse_search argv' (mkSearchNs (addr ns) true (after ns))
      else if String.prefix "-" arg then inl SystemExit
      else parse_search argv' (mkSearchNs (addr ns ++ [arg]) (before ns) (after ns))
  end.

Definition world (usage : generator Usage) (cat : Usage -> exn + Category)
    (all free : generator chunk) (query : list event * option exn)
    : collaborators :=
  {| lazily_get_usage_list := fun _ => usage;
     ensure_category := cat;
     categorize := cat;
     hexdump_as_bytes := fun _ _ => inr "";
     get_ms := fun _ => inr (mkMs all free);
     next_chunk := next_in (yielded all ++ [top]);
     Snapshot_current := fun name _ => inr (mkSnapshot name "now");
     as_changes_splitlines := fun _ _ => [];
     do_query := fun _ _ => query;
     string_to_argv := split_words EmptyString;
     parse_args := fun argv => parse_search argv (mkSearchNs [] false false);
     int_ := int_of |}.

(** The arena above, read without incident. *)
Definition quiet : collaborators :=
  world (Generator [] None) (fun _ => inr uncategorized)
        (Generator arena_chunks None) (Generator [chunk_b] None)
        ([], None).

(** A target where categorizing a usage needs debuginfo that is not
    installed. *)
Definition no_debuginfo : collaborators :=
  world (Generator [mkUsage 0x1010 16] None)
        (fun _ => inl (MissingDebuginfo "libpython2.7.so.1.0"))
        (Generator arena_chunks None) (Generator [chunk_b] None)
        ([], None).

(** A target whose memory cannot be read past the first chunk. *)
Definition unreadable : collaborators :=
  world (Generator [] None) (fun _ => inr uncategorized)
        (Generator [chunk_a]
           (Some (gdb_error "Cannot access memory at address 0x1018")))
        (Generator [] (Some (gdb_error "Cannot access memory at address 0x1018")))
        ([], None).

(** A session where the query text does not parse. *)
Definition bad_query : collaborators :=
  world (Generator [] None) (fun _ => inr uncategorized)
        (Generator arena_chunks None) (Generator [chunk_b] None)
        ([], Some (ParserError "Parse error at position 6")).

(** The operator interrupts each traversal after its first items. *)
Definition interrupted : collaborators :=
  world (Generator [mkUsage 0x1010 16] (Some KeyboardInterrupt))
        (fun _ => inr uncategorized)
        (Generator [chunk_a; chunk_b] (Some KeyboardInterrupt))
        (Generator [chunk_b] (Some KeyboardInterrupt))
        ([], None).

(** A heap with four chunks in use, of 48, 16, 16 and 32 bytes, whose
    usages fall in two categories. *)
Definition str_category_ : Category := mkCategory "C" "string data" None.
Definition widget : Category := mkCategory "app" "Widget" None.

Definition categorize_by_size (u : Usage) : exn + Category :=
  inr (if size u =? 16 then str_category_ else widget).

Definition four_in_use : collaborators :=
  world (Generator [mkUsage 0x2010 16; mkUsage 0x2040 48; mkUsage 0x2050 16]
                   None)
        categorize_by_size
        (Generator [mkChunk 0x2000 48 true 0x2010;
                    mkChunk 0x2030 16 true 0x2040;
                    mkChunk 0x2040 16 true 0x2050;
                    mkChunk 0x2050 32 true 0x2060] None)
        (Generator [] None)
        ([], None).

Definition arena0 : arena := mkArena 0x7ffff7dd1b20.
Definition arena1 : arena := mkArena 0x7ffff0000020.

Definition fresh : session := mkSession [] [arena0; arena1] arena0.

End Sample.

(* ===================================================================== *)
(** * More sample sessions                                                *)
(* ===================================================================== *)

Module Cases.

(** Categorizing the 48-byte usage is interrupted by the operator. *)
Definition interrupted_categorizing : collaborators :=
  Sample.world
    (Generator [mkUsage 0x2010 16; mkUsage 0x2040 48; mkUsage 0x2050 16] None)
    (fun u => if size u =? 48 then inl KeyboardInterrupt
              else inr Sample.str_category_)
    (Generator Sample.arena_chunks None) (Generator [Sample.chunk_b] None)
    ([], None).

(** A session with two labels recorded. *)
Definition two_labels : session :=
  mkSession [mkSnapshot "start" "10:00"; mkSnapshot "after load" "10:05"]
            [Sample.arena0; Sample.arena1] Sample.arena0.

(** The parser of lines 463-468: [-c], [-w], [-s SIZE] and one address. *)
Fixpoint parse_hexdump (argv : list string) (ns : Hexdump.namespace)
    : exn + Hexdump.namespace :=
  match argv with
  | [] => match Hexdump.addr ns with [_] => inr ns | _ => inl SystemExit end
  | arg :: argv' =>
      if String.eqb arg "-c" then
        parse_hexdump argv' (Hexdump.mkNamespace (Hexdump.addr ns) true
                               (Hexdump.size ns) (Hexdump.wide ns))
      else if String.eqb arg "-w" then
        parse_hexdump argv' (Hexdump.mkNamespace (Hexdump.addr ns)
                               (Hexdump.chars ns) (Hexdump.size ns) true)
      else if String.eqb arg "-s" then
        match argv' with
        | s :: argv'' =>
            parse_hexdump argv'' (Hexdump.mkNamespace (Hexdump.addr ns)
                                    (Hexdump.chars ns) (Some s)
                                    (Hexdump.wide ns))
        | [] => inl SystemExit
        end
      else
        parse_hexdump argv' (Hexdump.mkNamespace (Hexdump.addr ns ++ [arg])
                               (Hexdump.chars ns) (Hexdump.size ns)
                               (Hexdump.wide ns))
  end.

(** A host whose memory reads well; [gdb.MemoryError] is told by its
    message. *)
Definition readable : Hexdump.host :=
  Hexdump.mkHost
    (fun argv => parse_hexdump argv (Hexdump.mkNamespace [] false None false))
    (fun _ _ _ => inr "..")
    (fun e => match e with
              | gdb_error msg => String.prefix "Cannot access memory" msg
              | _ => false
              end).

(** Two usages of 16 bytes, each in a category of its own. *)
Definition two_of_sixteen : collaborators :=
  Sample.world
    (Generator [mkUsage 0x2010 16; mkUsage 0x2040 16] None)
    (fun u => inr (if start u =? 0x2010 then Sample.widget
                   else Sample.str_category_))
    (Generator Sample.arena_chunks None) (Generator [Sample.chunk_b] None)
    ([], None).


End Cases.

(* ===================================================================== *)
(** * The vocabulary of the properties                                    *)
(* ===================================================================== *)

(** A statement that leaves the session objects alone. *)
Definition reads_only {L A} (m : stmt L A) : Prop :=
  forall l g, globals (m l g) = g.

(** The exceptions of the clause of line 47. *)
Definition target_error (e : exn) : bool :=
  match e with
  | gdb_error _ | NameError _ => true
  | _ => false
  end.

(** What lines 48-51 print. *)
Definition error_report (e : exn) : list event :=
  [print [Mod ("Gdb error: " ++ DQ ++ "%s" ++ DQ ++ ". Is the target running?")%string
              [str_exn e]];
   print [];
   print [format_exc e]].

(** What lines 37-39 print. *)
Definition debuginfo_report (module : string) : list event :=
  [print [Mod "Missing debuginfo for %s" [Str module]];
   print [Str "Suggested fix:"];
   print [Mod "    debuginfo-install %s" [Str module]]].

(** What [heap log] shows, read off the log given newest first: for each
    snapshot its label number (its position in capture order, from 1),
    name and time, its summary, then, unless it is the oldest, the
    statistics of the [Diff] against the snapshot captured just before
    it. *)
Fixpoint log_entries (newest_first : list Snapshot) : list event :=
  match newest_first with
  | [] => []
  | s :: older =>
      [print [Mod ("Label %i " ++ DQ ++ "%s" ++ DQ ++ " at %s")%string
                  [Int (Z.of_nat (List.length newest_first));
                   Str (name s); Str (time s)]];
       print [Str "    "; summary s]]
      ++ match older with
         | prev :: _ => [print []; print [Str "    "; stats prev s]]
         | [] => []
         end
      ++ [print []]
      ++ log_entries older
  end.

(** The address lies in the half-open range of the chunk. *)
Definition contains_address (a : Z) (c : chunk) : bool :=
  (as_address c <=? a) && (a <? as_address c + chunksize c).

(** The report of a chunk: its bounds (the last address included), its
    state, its size, and the chunk as it prints. *)
Definition block_entry (c : chunk) : pyval :=
  Mod HeapSearch.block_fmt
      [fmt_addr (as_address c); fmt_addr (as_address c + chunksize c - 1);
       Str (if is_inuse c then " inuse" else " free");
       Int (chunksize c); str_chunk c].

(** What lines 370-373 append for the chunk [n] that follows [c]. *)
Definition next_entry (c n : chunk) : pyval :=
  Mod HeapSearch.next_fmt
      [fmt_addr (as_address n); fmt_addr (as_address n + chunksize c - 1);
       Str (if is_inuse c then " inuse" else " free");
       Int (chunksize n); str_chunk n].

(** What is appended to [output_str] for a chunk that contains the
    address. *)
Definition found_entries (w : collaborators) (ns : search_namespace)
    (c : chunk) : list pyval :=
  block_entry c ::
  (if after ns then
     match next_chunk w c with
     | inr n => [next_entry c n]
     | inl _ => []
     end
   else []).

(** The order in which [sorted] leaves two items, the first before the
    second. *)
Definition in_order {A} (key : A -> Z) (reverse : bool) (x y : A) : Prop :=
  if reverse then key y <= key x else key x <= key y.

(** Sums over a list and over the items of a dictionary. *)
Definition sum_over {A} (f : A -> Z) (l : list A) : Z :=
  fold_right (fun x acc => f x + acc) 0 l.

Definition dict_sum {K} (f : K -> Z -> Z) (d : dict K Z) : Z :=
  sum_over (fun kv => f (fst kv) (snd kv)) d.

(** The value under a key, 0 when the key is absent. *)
Definition value_of {K} (eqb : K -> K -> bool) (d : dict K Z) (k : K) : Z :=
  match dict_get eqb d k with Some v => v | None => 0 end.

(** [d[k] += v] when [k] is in [d], [d[k] = v] otherwise (lines 75-78,
    81-84 and 128-131). *)
Definition add_to {K} (eqb : K -> K -> bool) (d : dict K Z) (k : K) (v : Z)
    : dict K Z :=
  match dict_get eqb d k with
  | Some old => setitem eqb d k (old + v)
  | None => setitem eqb d k v
  end.

(** What a turn of the loop of [heap sizes] (lines 123-131) leaves in the
    local variables. *)
Definition count_chunk (l : HeapSizes.locals) (c : chunk) : HeapSizes.locals :=
  if is_inuse c then
    HeapSizes.mkLocals
      (add_to Z.eqb (HeapSizes.chunks_by_size l) (chunksize c) 1)
      (HeapSizes.num_chunks l + 1)
      (HeapSizes.total_size l + chunksize c)
      (HeapSizes.t l)
  else l.

(** The row of a size in the table of [heap sizes] (lines 136-138). *)
Definition size_row (d : dict Z Z) (size : Z) : list pyval :=
  [fmt_size size; Int (value_of Z.eqb d size);
   fmt_size (value_of Z.eqb d size * size)].

(** The category that [u.ensure_category()] leaves in [u.category]. *)
Definition category_of (w : collaborators) (u : Usage) : Category :=
  match ensure_category w u with
  | inr c => c
  | inl _ => mkCategory "" "" None
  end.

(** What a turn of the loop of [heap] (lines 73-84) leaves in the local
    variables. *)
Definition count_usage (w : collaborators) (l : Heap.locals) (u : Usage)
    : Heap.locals :=
  Heap.mkLocals
    (add_to Category_eqb (Heap.total_by_category l) (category_of w u) (size u))
    (add_to Category_eqb (Heap.count_by_category l) (category_of w u) 1)
    (Heap.total_size l + size u)
    (Heap.total_count l + 1)
    (Heap.t l).

(** The row of a category in the table of [heap] (lines 93-101). *)
Definition category_row (totals counts : dict Category Z) (c : Category)
    : list pyval :=
  [Str (domain c); Str (kind c);
   Str (match detail c with Some d => d | None => "" end);
   fmt_size (value_of Category_eqb counts c);
   fmt_size (value_of Category_eqb totals c)].

(** What the loop of [heap] keeps true: the two dictionaries have the same keys,
    none listed twice; the bytes add up to [total_size] and the counts to
    [total_count]. *)
Definition Heap_invariant (l : Heap.locals) : Prop :=
  keys (Heap.count_by_category l) = keys (Heap.total_by_category l)
  /\ NoDup (keys (Heap.total_by_category l))
  /\ dict_sum (fun _ n => n) (Heap.total_by_category l) = Heap.total_size l
  /\ dict_sum (fun _ n => n) (Heap.count_by_category l) = Heap.total_count l.

(** What [heap] prints from the local variables its loop has left (lines
    89-104): the rows of the categories, the row of totals, a blank
    line. *)
Definition Heap_report (l : Heap.locals) : list event :=
  [write (mkTable ["Domain"; "Kind"; "Detail"; "Count"; "Allocated size"]
                  (map (category_row (Heap.total_by_category l)
                                     (Heap.count_by_category l))
                       (sorted (Heap.total_by_category_get
                                  (Heap.total_by_category l))
                               true (keys (Heap.total_by_category l)))
                   ++ [[Str ""; Str ""; Str "TOTAL";
                        fmt_size (Heap.total_count l);
                        fmt_size (Heap.total_size l)]]));
   print []].

(** The [try] block of [heap], lines 70-87. *)
Definition Heap_try (w : collaborators) : stmt Heap.locals unit :=
  try_except
    (bind get_globals (fun s =>
     bind (list_ (lazily_get_usage_list w s)) (fun usage_list =>
     for_ usage_list (Heap.loop_body w))))
    (fun e => match e with
              | KeyboardInterrupt => Some (ret tt)
              | _ => None
              end).

(** The line of a chunk in [heap used] and [heap free] (lines 162-171 and
    194-205), given that the chunk can be categorized and dumped. *)
Definition chunk_line_of (w : collaborators) (i : Z) (c : chunk) : event :=
  print [Mod "%6i: %s -> %s %8i bytes %20s |%s"
             [Int i; fmt_addr (as_mem c);
              fmt_addr (as_mem c + chunksize c - 1);
              Int (chunksize c);
              str_category
                match categorize w (mkUsage (as_mem c) (chunksize c)) with
                | inr cat => cat
                | inl _ => mkCategory "" "" None
                end;
              Str match hexdump_as_bytes w (as_mem c) 32 with
                  | inr s => s
                  | inl _ => ""
                  end]].

(** The ranges (first address, length) that [hexdump] dumps from [start]
    for [total] bytes in lines of [size] bytes: the full lines, then the
    line of the rest. *)
Definition dumped_ranges (start total size : Z) : list (Z * Z) :=
  map (fun k => (start + Z.of_nat k * size, size))
      (seq 0 (Z.to_nat (total / size)))
  ++ (if 0 <? total mod size
      then [(start + Z.of_nat (Z.to_nat (total / size)) * size,
             total mod size)]
      else []).

(** The line [hexdump] prints for a range it can read. *)
Definition dump_line_of (h : Hexdump.host) (chars_only : bool) (r : Z * Z)
    : event :=
  print [Mod "%s -> %s %s"
             [fmt_addr (fst r); fmt_addr (fst r + snd r - 1);
              Str match Hexdump.hexdump_as_bytes h (fst r) (snd r) chars_only with
                  | inr s => s
                  | inl _ => ""
                  end]].

(** Ranges that follow one another from [from], none empty. *)
Fixpoint chained (from : Z) (ranges : list (Z * Z)) : Prop :=
  match ranges with
  | [] => True
  | (lo, len) :: rest => lo = from /\ 0 < len /\ chained (lo + len) rest
  end.

(** The distinct items of a list, in the order in which they are first
    met. *)
Definition first_met {K} (eqb : K -> K -> bool) (l : list K) : list K :=
  fold_left (fun seen k => if existsb (eqb k) seen then seen else seen ++ [k])
            l [].

(* ===================================================================== *)
(** * Properties                                                          *)
(* ===================================================================== *)

(** ** Running statements

    The equations by which a statement is run one step at a time. *)
Section Run.
Context {L : Type}.
Implicit Types (l : L) (g : session) (out p : list event).

Lemma outcome_eta {A} (o : outcome event session L A) :
  o = Outcome (printed o) (locals o) (globals o) (result o).
Proof. destruct o; reflexivity. Qed.

Lemma after_printing_nil {A} (o : outcome event session L A) :
  after_printing [] o = o.
Proof. destruct o; reflexivity. Qed.

Lemma after_printing_Outcome {A} out p l g (r : exn + A) :
  after_printing out (Outcome p l g r) = Outcome (out ++ p) l g r.
Proof. reflexivity. Qed.

Lemma after_printing_twice {A} (out1 out2 : list event) (o : outcome event session L A) :
  after_printing out1 (after_printing out2 o) = after_printing (out1 ++ out2) o.
Proof. unfold after_printing; simpl. rewrite app_assoc. reflexivity. Qed.

Lemma bind_after {A B} (m : stmt L A) (k : A -> stmt L B) l g :
  bind m k l g =
    match result (m l g) with
    | inl e => Outcome (printed (m l g)) (locals (m l g)) (globals (m l g)) (inl e)
    | inr a => after_printing (printed (m l g))
                              (k a (locals (m l g)) (globals (m l g)))
    end.
Proof. reflexivity. Qed.

Lemma bind_returns {A B} (m : stmt L A) (k : A -> stmt L B) l g out l' g' a :
  m l g = Outcome out l' g' (inr a) ->
  bind m k l g = after_printing out (k a l' g').
Proof. intros H. rewrite bind_after, H. reflexivity. Qed.

Lemma bind_raises {A B} (m : stmt L A) (k : A -> stmt L B) l g out l' g' e :
  m l g = Outcome out l' g' (inl e) ->
  bind m k l g = Outcome out l' g' (inl e).
Proof. intros H. rewrite bind_after, H. reflexivity. Qed.

Lemma bind_ret {A B} (a : A) (k : A -> stmt L B) l g :
  bind (ret a) k l g = k a l g.
Proof. rewrite bind_after. apply after_printing_nil. Qed.

Lemma bind_raise {A B} e (k : A -> stmt L B) l g :
  bind (raise e) k l g = Outcome [] l g (inl e).
Proof. reflexivity. Qed.

Lemma bind_lift_inr {A B} (a : A) (k : A -> stmt L B) l g :
  bind (lift (inr a)) k l g = k a l g.
Proof. rewrite bind_after. apply after_printing_nil. Qed.

Lemma bind_lift_inl {A B} e (k : A -> stmt L B) l g :
  bind (lift (inl e)) k l g = Outcome [] l g (inl e).
Proof. reflexivity. Qed.

Lemma bind_emit {B} ev (k : unit -> stmt L B) l g :
  bind (emit ev) k l g = after_printing [ev] (k tt l g).
Proof. reflexivity. Qed.

Lemma bind_modify {B} f (k : unit -> stmt L B) l g :
  bind (modify f) k l g = k tt (f l) g.
Proof. rewrite bind_after. apply after_printing_nil. Qed.

Lemma bind_get_locals {B} (k : L -> stmt L B) l g :
  bind get_locals k l g = k l l g.
Proof. rewrite bind_after. apply after_printing_nil. Qed.

Lemma bind_get_globals {B} (k : session -> stmt L B) l g :
  bind get_globals k l g = k g l g.
Proof. rewrite bind_after. apply after_printing_nil. Qed.

Lemma bind_set_globals {B} g' (k : unit -> stmt L B) l g :
  bind (set_globals g') k l g = k tt l g'.
Proof. rewrite bind_after. apply after_printing_nil. Qed.

Lemma bind_bind {A B C} (m : stmt L A) (k1 : A -> stmt L B)
      (k2 : B -> stmt L C) l g :
  bind (bind m k1) k2 l g = bind m (fun a => bind (k1 a) k2) l g.
Proof.
  rewrite (bind_after (bind m k1)), (bind_after m k1), (bind_after m).
  destruct (result (m l g)) as [e | a]; [reflexivity |].
  cbn [result after_printing printed locals globals].
  rewrite bind_after.
  destruct (result (k1 a (locals (m l g)) (globals (m l g)))); [reflexivity |].
  rewrite after_printing_twice. reflexivity.
Qed.

Lemma for_cons {A} (x : A) (xs : list A) (body : A -> stmt L unit) :
  for_ (x :: xs) body = bind (body x) (fun _ => for_ xs body).
Proof. reflexivity. Qed.

Lemma try_except_after {A} (body : stmt L A) clauses l g :
  try_except body clauses l g =
    match result (body l g) with
    | inr a => body l g
    | inl e =>
        match clauses e with
        | Some handler =>
            after_printing (printed (body l g))
                           (handler (locals (body l g)) (globals (body l g)))
        | None => body l g
        end
    end.
Proof. reflexivity. Qed.
End Run.

Lemma def_returned {L A} (init : L) (body : stmt L A) l g :
  def init body l g = returned (body init g).
Proof. reflexivity. Qed.

Lemma returned_after_printing {L A} (out : list event) (o : outcome event session L A) :
  returned (after_printing out o) = after_printing out (returned o).
Proof. reflexivity. Qed.

Lemma returned_Outcome {L A} (out : list event) (l : L) (g : session) (r : exn + A) :
  returned (Outcome out l g r) = Outcome out tt g r.
Proof. reflexivity. Qed.

Lemma emit_run {L} (ev : event) (l : L) (g : session) :
  emit ev l g = Outcome [ev] l g (inr tt).
Proof. reflexivity. Qed.

Lemma ret_run {L A} (a : A) (l : L) (g : session) :
  ret (E := event) a l g = Outcome [] l g (inr a).
Proof. reflexivity. Qed.

Create Rewrite HintDb run.

#[global] Hint Rewrite
  @bind_ret @bind_raise @bind_lift_inr @bind_lift_inl @bind_emit @bind_modify
  @bind_get_locals @bind_get_globals @bind_set_globals @bind_bind
  @after_printing_Outcome @after_printing_twice @after_printing_nil
  @def_returned @returned_after_printing @returned_Outcome
  @emit_run @ret_run : run.

(** ** Statements that leave the session objects alone *)

Section ReadsOnly.
Context {L : Type}.

Lemma reads_only_ret A (a : A) : reads_only (L := L) (ret a).
Proof. intros l g. reflexivity. Qed.

Lemma reads_only_raise A e : reads_only (L := L) (A := A) (raise e).
Proof. intros l g. reflexivity. Qed.

Lemma reads_only_emit ev : reads_only (L := L) (emit ev).
Proof. intros l g. reflexivity. Qed.

Lemma reads_only_lift A (r : exn + A) : reads_only (L := L) (lift r).
Proof. intros l g. reflexivity. Qed.

Lemma reads_only_modify f : reads_only (L := L) (modify f).
Proof. intros l g. reflexivity. Qed.

Lemma reads_only_get_locals : reads_only (L := L) get_locals.
Proof. intros l g. reflexivity. Qed.

Lemma reads_only_get_globals : reads_only (L := L) get_globals.
Proof. intros l g. reflexivity. Qed.

Lemma reads_only_list_ A (gen : generator A) : reads_only (L := L) (list_ gen).
Proof. intros l g. unfold list_. destruct (ending gen); reflexivity. Qed.

Lemma reads_only_bind A B (m : stmt L A) (k : A -> stmt L B) :
  reads_only m -> (forall a, reads_only (k a)) -> reads_only (bind m k).
Proof.
  intros Hm Hk l g. unfold bind.
  destruct (result (m l g)) eqn:R; simpl.
  - apply Hm.
  - rewrite Hk. apply Hm.
Qed.

Lemma reads_only_try_except A (body : stmt L A) clauses :
  reads_only body ->
  (forall e h, clauses e = Some h -> reads_only h) ->
  reads_only (try_except body clauses).
Proof.
  intros Hb Hc l g. unfold try_except.
  destruct (result (body l g)) as [e | a] eqn:R.
  - destruct (clauses e) as [h |] eqn:C; simpl.
    + rewrite (Hc e h C). apply Hb.
    + apply Hb.
  - apply Hb.
Qed.

Lemma reads_only_for_ A (xs : list A) (body : A -> stmt L unit) :
  (forall x, reads_only (body x)) -> reads_only (for_ xs body).
Proof.
  intros Hb. induction xs as [| x xs IH]; simpl.
  - apply reads_only_ret.
  - apply reads_only_bind; [apply Hb | intros _; exact IH].
Qed.

Lemma reads_only_for_gen A (gen : generator A) (body : A -> stmt L unit) :
  (forall x, reads_only (body x)) -> reads_only (for_gen gen body).
Proof.
  intros Hb. unfold for_gen. apply reads_only_bind.
  - apply reads_only_for_, Hb.
  - intros _. destruct (ending gen); [apply reads_only_raise | apply reads_only_ret].
Qed.
End ReadsOnly.

Lemma reads_only_def L A (init : L) (body : stmt L A) :
  reads_only body -> reads_only (def init body).
Proof. intros Hb l g. unfold def; simpl. apply Hb. Qed.

Lemma reads_only_call_do_query L w args :
  reads_only (L := L) (HeapSelect.call_do_query w args).
Proof.
  intros l g. unfold HeapSelect.call_do_query.
  destruct (do_query w args g). reflexivity.
Qed.

(** One step of a proof that a statement only reads the session. *)
Ltac reads_only_step :=
  match goal with
  | |- forall _, _ => intro
  | |- reads_only (bind _ _) => apply reads_only_bind
  | |- reads_only (ret _) => apply reads_only_ret
  | |- reads_only (raise _) => apply reads_only_raise
  | |- reads_only (emit _) => apply reads_only_emit
  | |- reads_only (lift _) => apply reads_only_lift
  | |- reads_only (modify _) => apply reads_only_modify
  | |- reads_only get_locals => apply reads_only_get_locals
  | |- reads_only get_globals => apply reads_only_get_globals
  | |- reads_only (list_ _) => apply reads_only_list_
  | |- reads_only (for_ _ _) => apply reads_only_for_
  | |- reads_only (for_gen _ _) => apply reads_only_for_gen
  | |- reads_only (def _ _) => apply reads_only_def
  | |- reads_only (HeapSelect.call_do_query _ _) => apply reads_only_call_do_query
  | |- reads_only (try_except _ _) => apply reads_only_try_except
  | H : match ?e with _ => _ end = Some _ |- _ =>
      destruct e; try discriminate H;
      injection H as H; subst
  | H : Some _ = Some _ |- _ => injection H as H; subst
  | |- reads_only (if ?b then _ else _) => destruct b
  | |- reads_only (match ?x with _ => _ end) => destruct x
  | |- reads_only (let '(_, _) := ?p in _) => destruct p
  end.

Ltac reads_only_tac := repeat reads_only_step.

Lemma Heap_reads_only w args : reads_only (Heap.invoke w args).
Proof.
  unfold Heap.invoke, Heap.loop_body, Heap.row_body. reads_only_tac.
Qed.

Lemma HeapSizes_reads_only w args : reads_only (HeapSizes.invoke w args).
Proof.
  unfold HeapSizes.invoke, HeapSizes.loop_body, HeapSizes.row_body.
  reads_only_tac.
Qed.

Lemma HeapUsed_reads_only w args : reads_only (HeapUsed.invoke w args).
Proof. unfold HeapUsed.invoke, chunk_line. reads_only_tac. Qed.

Lemma HeapFree_reads_only w args : reads_only (HeapFree.invoke w args).
Proof. unfold HeapFree.invoke, chunk_line. reads_only_tac. Qed.

Lemma HeapAll_reads_only w args : reads_only (HeapAll.invoke w args).
Proof. unfold HeapAll.invoke. reads_only_tac. Qed.

Lemma HeapLog_reads_only w args : reads_only (HeapLog.invoke w args).
Proof. unfold HeapLog.invoke, HeapLog.loop_body. reads_only_tac. Qed.

Lemma HeapDiff_reads_only w args : reads_only (HeapDiff.invoke w args).
Proof. unfold HeapDiff.invoke. reads_only_tac. Qed.

Lemma HeapSelect_reads_only w args : reads_only (HeapSelect.invoke w args).
Proof. unfold HeapSelect.invoke. reads_only_tac. Qed.

Lemma HeapSearch_reads_only w args : reads_only (HeapSearch.invoke w args).
Proof. unfold HeapSearch.invoke, HeapSearch.loop_body. reads_only_tac. Qed.

Lemma HeapChunk_reads_only w args : reads_only (HeapChunk.invoke w args).
Proof. unfold HeapChunk.invoke. reads_only_tac. Qed.

Lemma HeapArenas_reads_only w args : reads_only (HeapArenas.invoke w args).
Proof. unfold HeapArenas.invoke. reads_only_tac. Qed.

(** [heap label] and [heap arena] assign to the session objects, as their
    last step that can raise. *)
Lemma HeapLabel_raise_keeps_session w args g e :
  result (HeapLabel.invoke w args tt g) = inl e ->
  globals (HeapLabel.invoke w args tt g) = g.
Proof.
  unfold HeapLabel.invoke, history_add.
  rewrite def_returned, bind_bind, bind_get_globals, bind_bind.
  destruct (Snapshot_current w args g) as [e' | s].
  - rewrite bind_lift_inl. reflexivity.
  - rewrite bind_lift_inr. autorewrite with run. discriminate.
Qed.

Lemma HeapArenaSelect_raise_keeps_session w args g e :
  result (HeapArenaSelect.invoke w args tt g) = inl e ->
  globals (HeapArenaSelect.invoke w args tt g) = g.
Proof.
  unfold HeapArenaSelect.invoke. rewrite def_returned.
  destruct (int_ w args 10) as [e1 | n].
  - rewrite bind_lift_inl. reflexivity.
  - rewrite bind_lift_inr, bind_get_globals.
    destruct (getitem (arenas g) n) as [e2 | a].
    + rewrite bind_lift_inl. reflexivity.
    + rewrite bind_lift_inr. autorewrite with run. discriminate.
Qed.

(** A command of the file that raises has not touched the session. *)
Lemma failed_invoke_keeps_session w name f args g e :
  In (name, f) (invoke_methods w) ->
  result (f args tt g) = inl e ->
  globals (f args tt g) = g.
Proof.
  unfold invoke_methods. intros HIn Hr. simpl in HIn.
  repeat (destruct HIn as [HIn | HIn];
          [injection HIn as _ Hf; subst f |]); try contradiction.
  - apply Heap_reads_only.
  - apply HeapSizes_reads_only.
  - apply HeapUsed_reads_only.
  - apply HeapFree_reads_only.
  - apply HeapAll_reads_only.
  - apply HeapLog_reads_only.
  - eapply HeapLabel_raise_keeps_session; eassumption.
  - apply HeapDiff_reads_only.
  - apply HeapSelect_reads_only.
  - apply HeapSearch_reads_only.
  - apply HeapChunk_reads_only.
  - apply HeapArenas_reads_only.
  - eapply HeapArenaSelect_raise_keeps_session; eassumption.
Qed.

(** ** The decorators *)

Lemma target_running_catches (f : command) args l g e :
  result (f args l g) = inl e ->
  target_error e = true ->
  target_running f args l g =
    Outcome (printed (f args l g) ++ error_report e)
            (locals (f args l g)) (globals (f args l g)) (inr tt).
Proof.
  intros Hr He. unfold target_running, try_except. rewrite Hr.
  destruct e; try discriminate He; reflexivity.
Qed.

Lemma target_running_passes (f : command) args l g :
  match result (f args l g) with
  | inl e => target_error e = false
  | inr _ => True
  end ->
  target_running f args l g = f args l g.
Proof.
  unfold target_running, try_except.
  destruct (result (f args l g)) as [e | a] eqn:R; [| reflexivity].
  intros He. destruct e; try discriminate He; reflexivity.
Qed.

Lemma need_debuginfo_catches (f : command) args l g module :
  result (f args l g) = inl (MissingDebuginfo module) ->
  need_debuginfo f args l g =
    Outcome (printed (f args l g) ++ debuginfo_report module)
            (locals (f args l g)) (globals (f args l g)) (inr tt).
Proof.
  intros Hr. unfold need_debuginfo, try_except. rewrite Hr. reflexivity.
Qed.

Lemma need_debuginfo_passes (f : command) args l g :
  match result (f args l g) with
  | inl (MissingDebuginfo _) => False
  | _ => True
  end ->
  need_debuginfo f args l g = f args l g.
Proof.
  unfold need_debuginfo, try_except.
  destruct (result (f args l g)) as [e | a] eqn:R; [| reflexivity].
  intros He. destruct e; try contradiction; reflexivity.
Qed.

(** An exception that neither decorator names goes through both. *)
Lemma decorated_passes (f : command) args l g :
  match result (f args l g) with
  | inl (MissingDebuginfo _) | inl (gdb_error _) | inl (NameError _) => False
  | _ => True
  end ->
  decorated f args l g = f args l g.
Proof.
  intros H. unfold decorated.
  assert (Ht : target_running f args l g = f args l g).
  { apply target_running_passes.
    destruct (result (f args l g)) as [e | a]; [| exact I].
    destruct e; try contradiction; reflexivity. }
  rewrite need_debuginfo_passes; rewrite Ht; [reflexivity |].
  destruct (result (f args l g)) as [e | a]; [| exact I].
  destruct e; try contradiction; exact I.
Qed.

(** C7.  A command wrapped by [need_debuginfo] that raises
    [MissingDebuginfo] returns normally: what it had printed is followed
    by the message that names the missing module and by the suggested
    [debuginfo-install] of that module.  The same holds under the two
    decorators stacked as the file stacks them. *)
Theorem need_debuginfo_reports_missing_module :
  forall (f : command) args g module,
    result (f args tt g) = inl (MissingDebuginfo module) ->
    need_debuginfo f args tt g =
      Outcome (printed (f args tt g) ++
               [print [Mod "Missing debuginfo for %s" [Str module]];
                print [Str "Suggested fix:"];
                print [Mod "    debuginfo-install %s" [Str module]]])
              tt (globals (f args tt g)) (inr tt)
    /\ decorated f args tt g = need_debuginfo f args tt g.
Proof.
  intros f args g module Hr. split.
  - rewrite (need_debuginfo_catches f args tt g module Hr).
    destruct (locals (f args tt g)). reflexivity.
  - unfold decorated.
    assert (Ht : target_running f args tt g = f args tt g).
    { apply target_running_passes. rewrite Hr. reflexivity. }
    unfold need_debuginfo at 1 2. unfold try_except. rewrite Ht. reflexivity.
Qed.

(** C7 on an example: [heap] on a target where categorizing the first
    usage needs the debuginfo of libpython. *)
Lemma need_debuginfo_reports_missing_module_witness :
  need_debuginfo (Heap.invoke Sample.no_debuginfo) "" tt Sample.fresh =
    Outcome [print [Mod "Missing debuginfo for %s" [Str "libpython2.7.so.1.0"]];
             print [Str "Suggested fix:"];
             print [Mod "    debuginfo-install %s" [Str "libpython2.7.so.1.0"]]]
            tt Sample.fresh (inr tt).
Proof.
  exact (proj1 (need_debuginfo_reports_missing_module
                  (Heap.invoke Sample.no_debuginfo) "" Sample.fresh
                  "libpython2.7.so.1.0" eq_refl)).
Defined.

(** C8.  When a command of the file raises [gdb.error] or [NameError],
    [target_running] prints the report of the error (its cause, then the
    traceback) after what the command had printed, and returns normally;
    the session objects are what they were before the command. *)
Theorem target_running_recovers :
  forall w name f,
    In (name, f) (invoke_methods w) ->
    forall args g e,
      result (f args tt g) = inl e ->
      target_error e = true ->
      target_running f args tt g =
        Outcome (printed (f args tt g) ++
                 [print [Mod ("Gdb error: " ++ DQ ++ "%s" ++ DQ
                                ++ ". Is the target running?")%string
                             [str_exn e]];
                  print [];
                  print [format_exc e]])
                tt g (inr tt)
      /\ decorated f args tt g = target_running f args tt g.
Proof.
  intros w name f HIn args g e Hr He.
  assert (Ht := target_running_catches f args tt g e Hr He).
  rewrite (failed_invoke_keeps_session w name f args g e HIn Hr) in Ht.
  destruct (locals (f args tt g)).
  split; [exact Ht |].
  unfold decorated. apply need_debuginfo_passes. rewrite Ht. exact I.
Qed.

(** C8 on an example: [heap all] when the target cannot be read past the
    first chunk. *)
Lemma target_running_recovers_witness :
  target_running (HeapAll.invoke Sample.unreadable) "" tt Sample.fresh =
    Outcome (printed (HeapAll.invoke Sample.unreadable "" tt Sample.fresh) ++
             [print [Mod ("Gdb error: " ++ DQ ++ "%s" ++ DQ
                            ++ ". Is the target running?")%string
                         [str_exn (gdb_error "Cannot access memory at address 0x1018")]];
              print [];
              print [format_exc (gdb_error "Cannot access memory at address 0x1018")]])
            tt Sample.fresh (inr tt).
Proof.
  refine (proj1 (target_running_recovers Sample.unreadable "heap all"
                   (HeapAll.invoke Sample.unreadable) _ "" Sample.fresh
                   (gdb_error "Cannot access memory at address 0x1018")
                   eq_refl eq_refl)).
  simpl. do 4 right. left. reflexivity.
Defined.

(** C10.  When [do_query] raises [ParserError], [heap select] prints the
    error after what the query had printed and returns normally; the
    session objects are unchanged. *)
Theorem HeapSelect_reports_ParserError :
  forall w args g out msg,
    do_query w args g = (out, Some (ParserError msg)) ->
    decorated (HeapSelect.invoke w) args tt g =
      Outcome (out ++ [print [str_exn (ParserError msg)]]) tt g (inr tt).
Proof.
  intros w args g out msg Hq.
  assert (Hi : HeapSelect.invoke w args tt g =
               Outcome (out ++ [print [str_exn (ParserError msg)]]) tt g (inr tt)).
  { unfold HeapSelect.invoke, def, try_except, HeapSelect.call_do_query.
    rewrite Hq. reflexivity. }
  rewrite decorated_passes; rewrite Hi; [reflexivity | exact I].
Qed.

(** C10 on an example: the query [size >], which lacks an operand. *)
Lemma HeapSelect_reports_ParserError_witness :
  decorated (HeapSelect.invoke Sample.bad_query) "size >" tt Sample.fresh =
    Outcome [print [str_exn (ParserError "Parse error at position 6")]]
            tt Sample.fresh (inr tt).
Proof.
  exact (HeapSelect_reports_ParserError Sample.bad_query "size >" Sample.fresh
           [] "Parse error at position 6" eq_refl).
Defined.

(** ** Selecting an arena *)

Lemma getitem_out_of_range {A} (l : list A) (i : Z) :
  i < - Z.of_nat (List.length l) \/ Z.of_nat (List.length l) <= i ->
  getitem l i = inl (IndexError "list index out of range").
Proof.
  intros H. unfold getitem.
  destruct (i <? 0) eqn:Hneg.
  - apply Z.ltb_lt in Hneg.
    destruct H as [H | H]; [| lia].
    assert (Hj : (i + Z.of_nat (List.length l) <? 0) = true) by (apply Z.ltb_lt; lia).
    rewrite Hj. reflexivity.
  - apply Z.ltb_ge in Hneg.
    destruct H as [H | H]; [lia |].
    assert (Hj : (Z.of_nat (List.length l) <=? i) = true) by (apply Z.leb_le; lia).
    rewrite Hj, orb_true_r. reflexivity.
Qed.

Lemma getitem_in_range {A} (l : list A) (j : Z) :
  0 <= j < Z.of_nat (List.length l) ->
  exists x, nth_error l (Z.to_nat j) = Some x /\ getitem l j = inr x.
Proof.
  intros H. unfold getitem.
  assert (H1 : (j <? 0) = false) by (apply Z.ltb_ge; lia).
  assert (H2 : (Z.of_nat (List.length l) <=? j) = false) by (apply Z.leb_gt; lia).
  rewrite H1. simpl. rewrite H1, H2. simpl.
  destruct (nth_error l (Z.to_nat j)) as [x |] eqn:Hn.
  - exists x. split; reflexivity.
  - apply nth_error_None in Hn. lia.
Qed.

Lemma getitem_from_end {A} (l : list A) (i : Z) :
  - Z.of_nat (List.length l) <= i < 0 ->
  exists x, nth_error l (Z.to_nat (Z.of_nat (List.length l) + i)) = Some x
            /\ getitem l i = inr x.
Proof.
  intros H.
  destruct (getitem_in_range l (Z.of_nat (List.length l) + i)) as [x [Hn Hg]];
    [lia |].
  exists x. split; [exact Hn |].
  unfold getitem in *.
  assert (H1 : (i <? 0) = true) by (apply Z.ltb_lt; lia).
  assert (H2 : (Z.of_nat (List.length l) + i <? 0) = false) by (apply Z.ltb_ge; lia).
  rewrite H1. rewrite H2 in Hg.
  replace (i + Z.of_nat (List.length l)) with (Z.of_nat (List.length l) + i) by lia.
  exact Hg.
Qed.

(** C9, as it holds.  With [n] arenas, an index [i >= n] or [i < -n]
    makes [arenas[i]] raise [IndexError] before anything is assigned: the
    exception leaves the command through both decorators, the command
    prints nothing and the selection is unchanged.  An index
    [-n <= i < 0] is taken from the end of the list: arena [n + i] becomes
    the current one. *)
Theorem HeapArenaSelect_index_semantics :
  forall w args i g,
    int_ w args 10 = inr i ->
    (i < - Z.of_nat (List.length (arenas g))
     \/ Z.of_nat (List.length (arenas g)) <= i ->
     decorated (HeapArenaSelect.invoke w) args tt g =
       Outcome [] tt g (inl (IndexError "list index out of range")))
    /\ (- Z.of_nat (List.length (arenas g)) <= i < 0 ->
        exists a,
          nth_error (arenas g)
                    (Z.to_nat (Z.of_nat (List.length (arenas g)) + i)) = Some a
          /\ decorated (HeapArenaSelect.invoke w) args tt g =
               Outcome [print [Mod "Arena set to %s" [Int (address a)]]]
                       tt (with_cur_arena g a) (inr tt)).
Proof.
  intros w args i g Hi. split.
  - intros Hout.
    assert (E : HeapArenaSelect.invoke w args tt g =
                Outcome [] tt g (inl (IndexError "list index out of range"))).
    { unfold HeapArenaSelect.invoke.
      rewrite def_returned, Hi, bind_lift_inr, bind_get_globals.
      rewrite (getitem_out_of_range _ _ Hout), bind_lift_inl. reflexivity. }
    rewrite decorated_passes; rewrite E; [reflexivity | exact I].
  - intros Hneg.
    destruct (getitem_from_end (arenas g) i Hneg) as [a [Hn Hg]].
    exists a. split; [exact Hn |].
    assert (E : HeapArenaSelect.invoke w args tt g =
                Outcome [print [Mod "Arena set to %s" [Int (address a)]]]
                        tt (with_cur_arena g a) (inr tt)).
    { unfold HeapArenaSelect.invoke.
      rewrite def_returned, Hi, bind_lift_inr, bind_get_globals, Hg.
      autorewrite with run. reflexivity. }
    rewrite decorated_passes; rewrite E; [reflexivity | exact I].
Qed.

(** C9 on examples: with two arenas, [heap arena 2] raises and [heap arena
    -1] selects the second arena. *)
Lemma HeapArenaSelect_index_semantics_witness :
  decorated (HeapArenaSelect.invoke Sample.quiet) "2" tt Sample.fresh =
    Outcome [] tt Sample.fresh (inl (IndexError "list index out of range")).
Proof.
  refine (proj1 (HeapArenaSelect_index_semantics Sample.quiet "2" 2 Sample.fresh
                   eq_refl) _).
  simpl. lia.
Defined.

(** C9 as the specification words it: every index outside [0 .. n-1]
    leaves the selection unchanged.  It fails at [heap arena -1] with two
    arenas, the first one current: the second arena becomes current. *)
Lemma HeapArenaSelect_out_of_range_counterexample :
  ~ (forall w args i g,
       int_ w args 10 = inr i ->
       i < 0 \/ Z.of_nat (List.length (arenas g)) <= i ->
       cur_arena (globals (decorated (HeapArenaSelect.invoke w) args tt g))
       = cur_arena g).
Proof.
  intros H.
  specialize (H Sample.quiet "-1" (-1) Sample.fresh eq_refl).
  assert (Hout : -1 < 0 \/ Z.of_nat (List.length (arenas Sample.fresh)) <= -1)
    by (left; lia).
  specialize (H Hout). vm_compute in H. discriminate H.
Qed.

(** ** Importing the file *)

(** C1.  The brackets of the file balance up to line 426; the bracket
    that [print] opens on line 427 (column 13) is still open at the end of
    the file and is the only one.  Importing the file therefore raises
    [SyntaxError]: [register_commands] does not run, the registry of gdb
    is what it was, and none of the fifteen commands of the file gets
    registered by the import. *)
Theorem import_raises_SyntaxError :
  Source.open_brackets (Source.scan (firstn 426 Source.commands_py)) = []
  /\ nth_error Source.commands_py 426 =
       Some "        print('Searching in the following executable sections'"
  /\ Source.scan Source.commands_py =
       Source.mkScanner [(427, 13)] Source.Code None
  /\ List.length command_names = 15%nat
  /\ forall cpython registry,
       Source.import_and_register Source.commands_py cpython registry =
         (registry, Some (SyntaxError 427))
       /\ forall name,
            In name command_names -> ~ In name registry ->
            ~ In name (fst (Source.import_and_register Source.commands_py
                              cpython registry)).
Proof.
  assert (Hscan : Source.scan Source.commands_py =
                  Source.mkScanner [(427, 13)] Source.Code None)
    by (vm_compute; reflexivity).
  assert (Himport : forall cpython registry,
             Source.import_and_register Source.commands_py cpython registry =
               (registry, Some (SyntaxError 427))).
  { intros cpython registry.
    unfold Source.import_and_register, Source.bracket_error.
    rewrite Hscan. reflexivity. }
  split; [vm_compute; reflexivity |].
  split; [reflexivity |].
  split; [exact Hscan |].
  split; [reflexivity |].
  intros cpython registry. split; [apply Himport |].
  intros name _ Hreg. rewrite Himport. exact Hreg.
Qed.

(** ** The log of the history *)

Lemma range_down_S (k : nat) :
  range (Z.of_nat (S k)) 0 (-1) = Z.of_nat (S k) :: range (Z.of_nat k) 0 (-1).
Proof.
  unfold range.
  assert (H0 : (0 <? -1) = false) by reflexivity.
  assert (H1 : (-1 <? 0) = true) by reflexivity.
  rewrite H0, H1.
  replace ((Z.of_nat (S k) - 0 - -1 - 1) / - -1) with (Z.of_nat (S k))
    by (rewrite Z.div_1_r; lia).
  replace ((Z.of_nat k - 0 - -1 - 1) / - -1) with (Z.of_nat k)
    by (rewrite Z.div_1_r; lia).
  rewrite !Nat2Z.id.
  change (seq 0 (S k)) with (0%nat :: seq 1 k).
  rewrite <- seq_shift, map_cons, map_map.
  f_equal.
  apply map_ext. intros j. lia.
Qed.

Lemma firstn_S_snoc {A} (l : list A) (k : nat) (x : A) :
  nth_error l k = Some x -> firstn (S k) l = firstn k l ++ [x].
Proof.
  revert k. induction l as [| y l IH]; intros [| k] H; simpl in *;
    try discriminate.
  - injection H as ->. reflexivity.
  - rewrite (IH k H). reflexivity.
Qed.

(** One turn of the loop of lines 252-261. *)
Lemma HeapLog_loop_body (h : list Snapshot) (g : session) (i : Z) s :
  getitem h (i - 1) = inr s ->
  (1 < i -> exists prev, getitem h (i - 2) = inr prev) ->
  HeapLog.loop_body h i tt g =
    Outcome ([print [Mod ("Label %i " ++ DQ ++ "%s" ++ DQ ++ " at %s")%string
                         [Int i; Str (name s); Str (time s)]];
              print [Str "    "; summary s]]
             ++ (if 1 <? i then
                   match getitem h (i - 2) with
                   | inr prev => [print []; print [Str "    "; stats prev s]]
                   | inl _ => []
                   end
                 else [])
             ++ [print []])
            tt g (inr tt).
Proof.
  intros Hs Hp. unfold HeapLog.loop_body.
  rewrite Hs, bind_lift_inr, !bind_emit.
  destruct (1 <? i) eqn:Hi.
  - apply Z.ltb_lt in Hi. destruct (Hp Hi) as [prev Hprev]. rewrite Hprev.
    autorewrite with run. reflexivity.
  - autorewrite with run. reflexivity.
Qed.

(** The loop of lines 252-261, run from label [k] down to label 1. *)
Lemma HeapLog_loop (h : list Snapshot) (g : session) (k : nat) :
  (k <= List.length h)%nat ->
  for_ (range (Z.of_nat k) 0 (-1)) (HeapLog.loop_body h) tt g =
    Outcome (log_entries (rev (firstn k h))) tt g (inr tt).
Proof.
  induction k as [| k IH]; intros Hk.
  - reflexivity.
  - rewrite range_down_S, for_cons.
    destruct (getitem_in_range h (Z.of_nat k)) as [s [Hs Hgs]]; [lia |].
    rewrite Nat2Z.id in Hs.
    rewrite (firstn_S_snoc h k s Hs), rev_app_distr.
    change (rev [s] ++ rev (firstn k h)) with (s :: rev (firstn k h)).
    assert (Hlen : List.length (s :: rev (firstn k h)) = S k).
    { cbn [List.length]. rewrite length_rev, firstn_length_le; [reflexivity | lia]. }
    cbn [log_entries]. rewrite Hlen.
    erewrite bind_returns; [| apply (HeapLog_loop_body h g (Z.of_nat (S k)) s)].
    + rewrite IH by lia. rewrite after_printing_Outcome.
      f_equal. rewrite <- !app_assoc. f_equal. f_equal.
      destruct k as [| k'].
      * reflexivity.
      * assert (Hlt : (1 <? Z.of_nat (S (S k'))) = true)
          by (apply Z.ltb_lt; lia).
        rewrite Hlt.
        destruct (getitem_in_range h (Z.of_nat k')) as [p [Hp Hgp]]; [lia |].
        rewrite Nat2Z.id in Hp.
        replace (Z.of_nat (S (S k')) - 2) with (Z.of_nat k') by lia.
        rewrite Hgp.
        rewrite (firstn_S_snoc h k' p Hp), rev_app_distr. reflexivity.
    + replace (Z.of_nat (S k) - 1) with (Z.of_nat k) by lia. exact Hgs.
    + intros Hlt.
      destruct (getitem_in_range h (Z.of_nat (S k) - 2)) as [p [_ Hgp]]; [lia |].
      exists p. exact Hgp.
Qed.

(** C2.  On an empty log [heap log] prints [(no history)] and nothing
    else.  On a log that is not empty it prints the entries of the
    snapshots from the newest to the oldest: label number, name, time and
    summary of each, and for each but the oldest the statistics of the
    [Diff] against the snapshot captured just before it. *)
Theorem HeapLog_newest_first :
  forall w args g,
    decorated (HeapLog.invoke w) args tt g =
      Outcome match snapshots g with
              | [] => [print [Str "(no history)"]]
              | _ :: _ => log_entries (rev (snapshots g))
              end
              tt g (inr tt).
Proof.
  intros w args g.
  assert (E : HeapLog.invoke w args tt g =
              Outcome match snapshots g with
                      | [] => [print [Str "(no history)"]]
                      | _ :: _ => log_entries (rev (snapshots g))
                      end
                      tt g (inr tt)).
  { unfold HeapLog.invoke. rewrite def_returned, bind_get_globals.
    destruct (snapshots g) as [| s0 h0] eqn:Hh.
    - reflexivity.
    - assert (Hz : (Z.of_nat (List.length (s0 :: h0)) =? 0) = false)
        by (apply Z.eqb_neq; simpl; lia).
      rewrite Hz.
      rewrite (HeapLog_loop (s0 :: h0) g (List.length (s0 :: h0)) (le_n _)).
      rewrite firstn_all. reflexivity. }
  rewrite decorated_passes; rewrite E; [reflexivity | exact I].
Qed.

(** ** Searching for an address *)

Lemma snd_enumerate {A} (l : list A) : map snd (enumerate l) = l.
Proof.
  unfold enumerate. generalize 0%nat.
  induction l as [| x l IH]; intros start; simpl; [reflexivity |].
  rewrite IH. reflexivity.
Qed.

Lemma HeapSearch_loop_body w ns a c output_str g :
  (after ns = true -> contains_address a c = true ->
   exists n, next_chunk w c = inr n) ->
  HeapSearch.loop_body w ns a c output_str g =
    Outcome [] (output_str ++
                if contains_address a c then found_entries w ns c else [])
            g (inr tt).
Proof.
  intros Hnext. unfold HeapSearch.loop_body, contains_address in *.
  rewrite Z.geb_leb.
  destruct ((as_address c <=? a) && (a <? as_address c + chunksize c)) eqn:Hin.
  - unfold found_entries, block_entry, next_entry. rewrite bind_modify.
    destruct (after ns) eqn:Hafter.
    + destruct (Hnext eq_refl eq_refl) as [n Hn]. rewrite Hn, bind_lift_inr.
      unfold modify. rewrite <- app_assoc. reflexivity.
    + rewrite ret_run. reflexivity.
  - rewrite ret_run, app_nil_r. reflexivity.
Qed.

Lemma HeapSearch_loop w ns a (ics : list (Z * chunk)) output_str g :
  (after ns = true ->
   forall c, In c (map snd ics) -> contains_address a c = true ->
             exists n, next_chunk w c = inr n) ->
  for_ ics (fun '(i, chunk) => HeapSearch.loop_body w ns a chunk) output_str g =
    Outcome [] (output_str ++
                flat_map (found_entries w ns)
                         (filter (contains_address a) (map snd ics)))
            g (inr tt).
Proof.
  revert output_str.
  induction ics as [| [i c] ics IH]; intros output_str Hnext.
  - cbn. rewrite app_nil_r. reflexivity.
  - rewrite for_cons.
    erewrite bind_returns; [| apply HeapSearch_loop_body].
    + rewrite IH.
      * rewrite after_printing_Outcome.
        cbn [app map snd filter].
        f_equal. rewrite <- app_assoc. f_equal.
        destruct (contains_address a c); reflexivity.
      * intros Ha c' Hc'. apply Hnext; [exact Ha | right; exact Hc'].
    + intros Ha Hc. apply Hnext; [exact Ha | left; reflexivity | exact Hc].
Qed.

(** C3.  Given an address that [int] reads, on a heap whose traversal
    completes, [heap search] prints after its two header lines the
    report of exactly the chunks whose range
    [as_address, as_address + chunksize) contains the address, in
    traversal order, each with its bounds, state and size (followed by
    the entry of line 370 when [-a] is given).  When no chunk contains
    the address the string printed is empty and the command returns
    normally. *)
Theorem HeapSearch_reports_containing_chunks :
  forall w args ns addr_arg a g ms,
    parse_args w (string_to_argv w args) = inr ns ->
    getitem (addr ns) 0 = inr addr_arg ->
    int_ w addr_arg (if String.prefix "0x" addr_arg then 16 else 10) = inr a ->
    get_ms w g = inr ms ->
    ending (iter_chunks ms) = None ->
    (after ns = true ->
     forall c, In c (yielded (iter_chunks ms)) -> contains_address a c = true ->
               exists n, next_chunk w c = inr n) ->
    let found := filter (contains_address a) (yielded (iter_chunks ms)) in
    decorated (HeapSearch.invoke w) args tt g =
      Outcome [print [Mod "search heap for address %s" [hex a]];
               print [Str "-------------------------------------------------"];
               print [Concat (flat_map (found_entries w ns) found)]]
              tt g (inr tt)
    /\ (after ns = false ->
        flat_map (found_entries w ns) found = map block_entry found)
    /\ (found = [] -> flat_map (found_entries w ns) found = []).
Proof.
  intros w args ns addr_arg a g ms Hparse Haddr Hint Hms Hend Hnext found.
  split; [| split].
  - assert (E : HeapSearch.invoke w args tt g =
                Outcome [print [Mod "search heap for address %s" [hex a]];
                         print [Str "-------------------------------------------------"];
                         print [Concat (flat_map (found_entries w ns) found)]]
                        tt g (inr tt)).
    { assert (Hloop := HeapSearch_loop w ns a
                         (enumerate (yielded (iter_chunks ms))) [] g).
      rewrite snd_enumerate in Hloop. specialize (Hloop Hnext).
      assert (Hint' : (if String.prefix "0x" addr_arg
                       then lift (int_ w addr_arg 16)
                       else lift (int_ w addr_arg 10)) =
                      (lift (inr a) : stmt HeapSearch.locals Z)).
      { destruct (String.prefix "0x" addr_arg); rewrite Hint; reflexivity. }
      unfold HeapSearch.invoke. rewrite def_returned. cbv zeta.
      rewrite (bind_returns _ _ _ _ [] ([] : HeapSearch.locals) g (Some ns)).
      2: { rewrite try_except_after, Hparse, bind_lift_inr. reflexivity. }
      rewrite after_printing_nil, Haddr, bind_lift_inr, Hint', bind_lift_inr.
      rewrite !bind_emit, bind_get_globals, Hms, bind_lift_inr.
      unfold for_gen, enumerate_gen. cbn [yielded ending]. rewrite Hend.
      rewrite bind_bind. erewrite bind_returns; [| apply Hloop].
      autorewrite with run. reflexivity. }
    rewrite decorated_passes; rewrite E; [reflexivity | exact I].
  - intros Hafter. unfold found_entries. rewrite Hafter.
    induction found as [| c l IH]; [reflexivity |].
    cbn [flat_map map app]. rewrite IH. reflexivity.
  - intros Hnil. rewrite Hnil. reflexivity.
Qed.

(** C3 on the examples of the specification: [0x1018] lies in the free
    chunk at [0x1010]; [0x5000] lies in no chunk. *)
Lemma HeapSearch_reports_containing_chunks_witness :
  decorated (HeapSearch.invoke Sample.quiet) "0x1018" tt Sample.fresh =
    Outcome [print [Mod "search heap for address %s" [hex 0x1018]];
             print [Str "-------------------------------------------------"];
             print [Concat [block_entry Sample.chunk_b]]]
            tt Sample.fresh (inr tt)
  /\ decorated (HeapSearch.invoke Sample.quiet) "0x5000" tt Sample.fresh =
       Outcome [print [Mod "search heap for address %s" [hex 0x5000]];
                print [Str "-------------------------------------------------"];
                print [Concat []]]
               tt Sample.fresh (inr tt).
Proof.
  split.
  - refine (proj1 (HeapSearch_reports_containing_chunks Sample.quiet "0x1018"
                     (mkSearchNs ["0x1018"] false false) "0x1018" 0x1018
                     Sample.fresh
                     (mkMs (Generator Sample.arena_chunks None)
                           (Generator [Sample.chunk_b] None))
                     eq_refl eq_refl eq_refl eq_refl eq_refl _)).
    intros H; discriminate H.
  - refine (proj1 (HeapSearch_reports_containing_chunks Sample.quiet "0x5000"
                     (mkSearchNs ["0x5000"] false false) "0x5000" 0x5000
                     Sample.fresh
                     (mkMs (Generator Sample.arena_chunks None)
                           (Generator [Sample.chunk_b] None))
                     eq_refl eq_refl eq_refl eq_refl eq_refl _)).
    intros H; discriminate H.
Defined.

(** The loop of [heap search] never reads the [-b] option. *)
Lemma HeapSearch_before_unused w positional b1 b2 af a c :
  HeapSearch.loop_body w (mkSearchNs positional b1 af) a c =
  HeapSearch.loop_body w (mkSearchNs positional b2 af) a c.
Proof. reflexivity. Qed.

(** C4, on the arena [(0x1000,16,used), (0x1010,32,free), (0x1030,16,used)]
    and the address [0x1018], which lies in the second chunk.  With [-b]
    the output is the output without option: the chunk before is not
    reported.  With [-a] the entry of the chunk after, which is 16 bytes
    long, in use, and ends at [0x103f], shows the end address [0x104f]
    and the state [free]: both are worked out from the chunk that was
    found, not from its neighbour. *)
Theorem HeapSearch_neighbours_on_example :
  decorated (HeapSearch.invoke Sample.quiet) "-b 0x1018" tt Sample.fresh =
    decorated (HeapSearch.invoke Sample.quiet) "0x1018" tt Sample.fresh
  /\ decorated (HeapSearch.invoke Sample.quiet) "-a 0x1018" tt Sample.fresh =
       Outcome [print [Mod "search heap for address %s" [hex 0x1018]];
                print [Str "-------------------------------------------------"];
                print [Concat [block_entry Sample.chunk_b;
                               Mod HeapSearch.next_fmt
                                   [fmt_addr 0x1030; fmt_addr 0x104f;
                                    Str " free"; Int 16;
                                    str_chunk Sample.chunk_c]]]]
               tt Sample.fresh (inr tt)
  /\ next_chunk Sample.quiet Sample.chunk_b = inr Sample.chunk_c
  /\ as_address Sample.chunk_c + chunksize Sample.chunk_c - 1 = 0x103f
  /\ is_inuse Sample.chunk_c = true.
Proof. vm_compute. repeat split; reflexivity. Qed.

(** ** Interrupting a report *)


(** C5, on a session where the operator interrupts each traversal after
    its first items.  [heap free] prints the line of the chunk it had
    reached and lets [KeyboardInterrupt] out: the total is not printed.
    [heap all] lets it out as well.  [heap used] prints [Interrupted],
    [heap sizes] and [heap] print their table, and the three return
    normally. *)
Theorem report_commands_on_interrupt :
  decorated (HeapFree.invoke Sample.interrupted) "" tt Sample.fresh =
    Outcome [print [Str "Free chunks of memory on heap"];
             print [Str "-----------------------------"];
             print [Mod "%6i: %s -> %s %8i bytes %20s |%s"
                        [Int 0; fmt_addr 0x1020; fmt_addr 0x103f; Int 32;
                         str_category Sample.uncategorized; Str ""]]]
            tt Sample.fresh (inl KeyboardInterrupt)
  /\ decorated (HeapAll.invoke Sample.interrupted) "" tt Sample.fresh =
       Outcome [print [Str "All chunks of memory on heap (both used and free)"];
                print [Str "-------------------------------------------------"];
                print [Mod "%i: %s -> %s %s: %i bytes (%s)"
                           [Int 0; fmt_addr 0x1000; fmt_addr 0x100f;
                            Str " inuse"; Int 16; str_chunk Sample.chunk_a]];
                print [Mod "%i: %s -> %s %s: %i bytes (%s)"
                           [Int 1; fmt_addr 0x1010; fmt_addr 0x102f;
                            Str " free"; Int 32; str_chunk Sample.chunk_b]]]
               tt Sample.fresh (inl KeyboardInterrupt)
  /\ decorated (HeapUsed.invoke Sample.interrupted) "" tt Sample.fresh =
       Outcome [print [Str "Used chunks of memory on heap"];
                print [Str "-----------------------------"];
                print [Mod "%6i: %s -> %s %8i bytes %20s |%s"
                           [Int 0; fmt_addr 0x1010; fmt_addr 0x101f; Int 16;
                            str_category Sample.uncategorized; Str ""]];
                print [Str "Interrupted"];
                print []]
               tt Sample.fresh (inr tt)
  /\ decorated (HeapSizes.invoke Sample.interrupted) "" tt Sample.fresh =
       Outcome [write (mkTable ["Chunk size"; "Num chunks"; "Allocated size"]
                               [[fmt_size 16; Int 1; fmt_size 16];
                                [Str "TOTALS"; Int 1; fmt_size 16]]);
                print []]
               tt Sample.fresh (inr tt)
  /\ decorated (Heap.invoke Sample.interrupted) "" tt Sample.fresh =
       Outcome [write (mkTable ["Domain"; "Kind"; "Detail"; "Count";
                                "Allocated size"]
                               [[Str ""; Str ""; Str "TOTAL";
                                 fmt_size 0; fmt_size 0]]);
                print []]
               tt Sample.fresh (inr tt).
Proof. vm_compute. repeat split; reflexivity. Qed.

(** ** The order of the rows *)

(** C6, on a heap with four chunks in use, of 48, 16, 16 and 32 bytes.
    [heap sizes] lists the sizes by ascending allocated bytes (16: 32
    bytes, 32: 32 bytes, 48: 48 bytes), the largest total last, before a
    row of totals that sums the rows (4 chunks, 112 bytes).  [heap], on
    usages of 16, 48 and 16 bytes in two categories, lists the categories
    by descending allocated bytes (48 then 32) before its row of
    totals. *)
Theorem HeapSizes_rows_ascending_on_example :
  decorated (HeapSizes.invoke Sample.four_in_use) "" tt Sample.fresh =
    Outcome [write (mkTable ["Chunk size"; "Num chunks"; "Allocated size"]
                            [[fmt_size 16; Int 2; fmt_size 32];
                             [fmt_size 32; Int 1; fmt_size 32];
                             [fmt_size 48; Int 1; fmt_size 48];
                             [Str "TOTALS"; Int 4; fmt_size 112]]);
             print []]
            tt Sample.fresh (inr tt)
  /\ decorated (Heap.invoke Sample.four_in_use) "" tt Sample.fresh =
       Outcome [write (mkTable ["Domain"; "Kind"; "Detail"; "Count";
                                "Allocated size"]
                               [[Str "app"; Str "Widget"; Str "";
                                 fmt_size 1; fmt_size 48];
                                [Str "C"; Str "string data"; Str "";
                                 fmt_size 2; fmt_size 32];
                                [Str ""; Str ""; Str "TOTAL";
                                 fmt_size 3; fmt_size 80]]);
                print []]
               tt Sample.fresh (inr tt).
Proof. vm_compute. split; reflexivity. Qed.

(** ** [sorted] *)

Section SortedFacts.
Context {A : Type} (key : A -> Z) (reverse : bool).

Lemma insert_Permutation (x : A) (l : list A) :
  Permutation (insert key reverse x l) (x :: l).
Proof.
  induction l as [| y l IH]; simpl.
  - apply Permutation_refl.
  - destruct (goes_after key reverse x y).
    + apply Permutation_trans with (y :: x :: l).
      * apply perm_skip, IH.
      * apply perm_swap.
    + apply Permutation_refl.
Qed.

Lemma sorted_Permutation (l : list A) :
  Permutation (sorted key reverse l) l.
Proof.
  induction l as [| x l IH]; simpl.
  - apply perm_nil.
  - apply Permutation_trans with (x :: sorted key reverse l).
    + apply insert_Permutation.
    + apply perm_skip, IH.
Qed.

Lemma in_order_trans (x y z : A) :
  in_order key reverse x y -> in_order key reverse y z ->
  in_order key reverse x z.
Proof. unfold in_order. destruct reverse; lia. Qed.

Lemma goes_after_in_order (x y : A) :
  goes_after key reverse x y = true -> in_order key reverse y x.
Proof.
  unfold goes_after, in_order.
  destruct reverse; intros H; apply Z.ltb_lt in H; lia.
Qed.

Lemma not_goes_after_in_order (x y : A) :
  goes_after key reverse x y = false -> in_order key reverse x y.
Proof.
  unfold goes_after, in_order.
  destruct reverse; intros H; apply Z.ltb_ge in H; lia.
Qed.

Lemma insert_StronglySorted (x : A) (l : list A) :
  StronglySorted (in_order key reverse) l ->
  StronglySorted (in_order key reverse) (insert key reverse x l).
Proof.
  induction l as [| y l IH]; intros Hs; simpl.
  - constructor; constructor.
  - apply StronglySorted_inv in Hs. destruct Hs as [Hl Hy].
    destruct (goes_after key reverse x y) eqn:Hg.
    + constructor; [apply IH, Hl |].
      apply Forall_forall. intros z Hz.
      apply (Permutation_in _ (insert_Permutation x l)) in Hz.
      destruct Hz as [<- | Hz].
      * apply goes_after_in_order, Hg.
      * rewrite Forall_forall in Hy. apply Hy, Hz.
    + constructor; [constructor; assumption |].
      constructor; [apply not_goes_after_in_order, Hg |].
      apply Forall_forall. intros z Hz.
      apply in_order_trans with y; [apply not_goes_after_in_order, Hg |].
      rewrite Forall_forall in Hy. apply Hy, Hz.
Qed.

(** The result of [sorted] is in order. *)
Lemma sorted_StronglySorted (l : list A) :
  StronglySorted (in_order key reverse) (sorted key reverse l).
Proof.
  induction l as [| x l IH]; simpl.
  - constructor.
  - apply insert_StronglySorted, IH.
Qed.

Lemma insert_stable (k : Z) (x : A) (l : list A) :
  filter (fun y => key y =? k) (insert key reverse x l) =
  filter (fun y => key y =? k) (x :: l).
Proof.
  induction l as [| y l IH]; [reflexivity |].
  cbn [insert]. destruct (goes_after key reverse x y) eqn:Hg; [| reflexivity].
  assert (Hne : key x <> key y).
  { unfold goes_after in Hg. destruct reverse; apply Z.ltb_lt in Hg; lia. }
  cbn [filter] in *. rewrite IH.
  destruct (key x =? k) eqn:Hx; destruct (key y =? k) eqn:Hy;
    try reflexivity.
  apply Z.eqb_eq in Hx, Hy. lia.
Qed.

(** [sorted] is stable: the items with a given key come out in the order
    they had in the list, with [reverse] or without. *)
Lemma sorted_stable (k : Z) (l : list A) :
  filter (fun y => key y =? k) (sorted key reverse l) =
  filter (fun y => key y =? k) l.
Proof.
  induction l as [| x l IH]; [reflexivity |].
  cbn [sorted fold_right]. fold (sorted key reverse l).
  rewrite insert_stable. cbn [filter]. rewrite IH. reflexivity.
Qed.
End SortedFacts.

Lemma sum_over_Permutation {A} (f : A -> Z) (l l' : list A) :
  Permutation l l' -> sum_over f l = sum_over f l'.
Proof.
  induction 1; simpl; lia.
Qed.

Lemma sum_over_app {A} (f : A -> Z) (l l' : list A) :
  sum_over f (l ++ l') = sum_over f l + sum_over f l'.
Proof. induction l as [| x l IH]; simpl; lia. Qed.

Lemma sum_over_ext_in {A} (f f' : A -> Z) (l : list A) :
  (forall x, In x l -> f x = f' x) -> sum_over f l = sum_over f' l.
Proof.
  induction l as [| x l IH]; intros H; simpl; [reflexivity |].
  rewrite (H x (or_introl eq_refl)), IH; [reflexivity |].
  intros y Hy. apply H. right. exact Hy.
Qed.

(** ** [dict] *)

Section DictFacts.
Context {K : Type} (eqb : K -> K -> bool).
Hypothesis eqb_spec : forall x y, reflect (x = y) (eqb x y).

Lemma dict_get_setitem_same {V} (d : dict K V) k v :
  dict_get eqb (setitem eqb d k v) k = Some v.
Proof.
  induction d as [| [k' v'] d IH]; simpl.
  - destruct (eqb_spec k k); [reflexivity | contradiction].
  - destruct (eqb_spec k k') as [-> | Hne]; simpl.
    + destruct (eqb_spec k' k'); [reflexivity | contradiction].
    + destruct (eqb_spec k k'); [contradiction | exact IH].
Qed.

Lemma dict_get_setitem_other {V} (d : dict K V) k k' v :
  k <> k' -> dict_get eqb (setitem eqb d k v) k' = dict_get eqb d k'.
Proof.
  intros Hne. induction d as [| [k0 v0] d IH]; simpl.
  - destruct (eqb_spec k' k); [congruence | reflexivity].
  - destruct (eqb_spec k k0) as [-> | Hk]; simpl.
    + destruct (eqb_spec k' k0); [congruence | reflexivity].
    + destruct (eqb_spec k' k0); [reflexivity | exact IH].
Qed.

Lemma keys_setitem {V} (d : dict K V) k v :
  keys (setitem eqb d k v) =
    match dict_get eqb d k with
    | Some _ => keys d
    | None => keys d ++ [k]
    end.
Proof.
  unfold keys.
  induction d as [| [k0 v0] d IH]; simpl; [reflexivity |].
  destruct (eqb_spec k k0) as [-> | Hk]; simpl; [reflexivity |].
  rewrite IH. destruct (dict_get eqb d k); reflexivity.
Qed.

Lemma dict_get_None_keys {V} (d : dict K V) k :
  dict_get eqb d k = None <-> ~ In k (keys d).
Proof.
  induction d as [| [k0 v0] d IH]; simpl.
  - split; [intros _ [] | reflexivity].
  - destruct (eqb_spec k k0) as [-> | Hk].
    + split; [discriminate | intros H; exfalso; apply H; left; reflexivity].
    + rewrite IH. split.
      * intros H [Heq | Hin]; [congruence | exact (H Hin)].
      * intros H Hin. apply H. right. exact Hin.
Qed.

Lemma keys_add_to (d : dict K Z) k v :
  keys (add_to eqb d k v) =
    if contains eqb d k then keys d else keys d ++ [k].
Proof.
  unfold add_to, contains.
  destruct (dict_get eqb d k) eqn:Hg; rewrite keys_setitem, Hg; reflexivity.
Qed.

Lemma NoDup_keys_add_to (d : dict K Z) k v :
  NoDup (keys d) -> NoDup (keys (add_to eqb d k v)).
Proof.
  intros Hnd. rewrite keys_add_to. unfold contains.
  destruct (dict_get eqb d k) eqn:Hg; [exact Hnd |].
  apply dict_get_None_keys in Hg.
  apply NoDup_rev in Hnd. rewrite <- (rev_involutive (keys d ++ [k])).
  apply NoDup_rev. rewrite rev_app_distr. simpl.
  constructor; [| exact Hnd].
  intros Hin. apply Hg. apply in_rev. exact Hin.
Qed.

Lemma dict_sum_setitem (f : K -> Z -> Z) (d : dict K Z) k v :
  dict_sum f (setitem eqb d k v) =
    match dict_get eqb d k with
    | Some old => dict_sum f d - f k old + f k v
    | None => dict_sum f d + f k v
    end.
Proof.
  unfold dict_sum.
  induction d as [| [k0 v0] d IH]; simpl; [lia |].
  destruct (eqb_spec k k0) as [-> | Hk]; simpl; [lia |].
  rewrite IH. destruct (dict_get eqb d k); lia.
Qed.

(** Adding under a key adds to the sum of a measure that is additive in
    the value. *)
Lemma dict_sum_add_to (f : K -> Z -> Z) (d : dict K Z) k v :
  (forall k a b, f k (a + b) = f k a + f k b) ->
  dict_sum f (add_to eqb d k v) = dict_sum f d + f k v.
Proof.
  intros Hadd. unfold add_to.
  destruct (dict_get eqb d k) eqn:Hg; rewrite dict_sum_setitem, Hg;
    [rewrite Hadd |]; lia.
Qed.

Lemma value_of_add_to_same (d : dict K Z) k v :
  value_of eqb (add_to eqb d k v) k = value_of eqb d k + v.
Proof.
  unfold value_of, add_to.
  destruct (dict_get eqb d k) eqn:Hg; rewrite dict_get_setitem_same; lia.
Qed.

(** Summing over the keys is summing over the items. *)
Lemma sum_over_keys (f : K -> Z -> Z) (d : dict K Z) :
  NoDup (keys d) ->
  sum_over (fun k => f k (value_of eqb d k)) (keys d) = dict_sum f d.
Proof.
  unfold dict_sum, value_of.
  induction d as [| [k0 v0] d IH]; intros Hnd; simpl; [reflexivity |].
  apply NoDup_cons_iff in Hnd. destruct Hnd as [Hnotin Hnd].
  destruct (eqb_spec k0 k0); [| contradiction].
  rewrite <- (IH Hnd). f_equal.
  apply sum_over_ext_in. intros k Hk.
  destruct (eqb_spec k k0) as [-> | Hne]; [contradiction | reflexivity].
Qed.
End DictFacts.

(** ** The table of [heap sizes] *)

Lemma HeapSizes_loop_body_run (c : chunk) (l : HeapSizes.locals) (g : session) :
  HeapSizes.loop_body c l g = Outcome [] (count_chunk l c) g (inr tt).
Proof.
  unfold HeapSizes.loop_body, count_chunk.
  destruct (is_inuse c); cbn [negb]; [| reflexivity].
  rewrite !bind_modify, bind_get_locals.
  destruct l as [d n total tbl].
  cbn [HeapSizes.set_num_chunks HeapSizes.set_total_size
       HeapSizes.chunks_by_size HeapSizes.num_chunks HeapSizes.total_size
       HeapSizes.t].
  unfold contains, dict_getitem, add_to.
  destruct (dict_get Z.eqb d (chunksize c)) as [old |].
  - rewrite bind_lift_inr. reflexivity.
  - reflexivity.
Qed.

Lemma HeapSizes_loop_run (chunks : list chunk) (l : HeapSizes.locals)
      (g : session) :
  for_ chunks HeapSizes.loop_body l g =
    Outcome [] (fold_left count_chunk chunks l) g (inr tt).
Proof.
  revert l. induction chunks as [| c chunks IH]; intros l; [reflexivity |].
  rewrite for_cons.
  erewrite bind_returns; [| apply HeapSizes_loop_body_run].
  rewrite IH. reflexivity.
Qed.

(** What the loop keeps true: no size is listed twice, the counts add up
    to [num_chunks] and the bytes to [total_size]. *)
Lemma count_chunk_invariant (l : HeapSizes.locals) (c : chunk) :
  NoDup (keys (HeapSizes.chunks_by_size l))
  /\ dict_sum (fun _ n => n) (HeapSizes.chunks_by_size l) = HeapSizes.num_chunks l
  /\ dict_sum (fun size n => n * size) (HeapSizes.chunks_by_size l)
     = HeapSizes.total_size l ->
  NoDup (keys (HeapSizes.chunks_by_size (count_chunk l c)))
  /\ dict_sum (fun _ n => n) (HeapSizes.chunks_by_size (count_chunk l c))
     = HeapSizes.num_chunks (count_chunk l c)
  /\ dict_sum (fun size n => n * size) (HeapSizes.chunks_by_size (count_chunk l c))
     = HeapSizes.total_size (count_chunk l c)
  /\ HeapSizes.t (count_chunk l c) = HeapSizes.t l.
Proof.
  intros (Hnd & Hn & Hb). unfold count_chunk.
  destruct (is_inuse c); [| repeat split; assumption].
  cbn [HeapSizes.chunks_by_size HeapSizes.num_chunks HeapSizes.total_size
       HeapSizes.t].
  repeat split.
  - apply (NoDup_keys_add_to Z.eqb Z.eqb_spec), Hnd.
  - rewrite (dict_sum_add_to Z.eqb Z.eqb_spec); [lia | reflexivity].
  - rewrite (dict_sum_add_to Z.eqb Z.eqb_spec); [lia | intros; lia].
Qed.

Lemma count_chunks_invariant (chunks : list chunk) (l : HeapSizes.locals) :
  NoDup (keys (HeapSizes.chunks_by_size l))
  /\ dict_sum (fun _ n => n) (HeapSizes.chunks_by_size l) = HeapSizes.num_chunks l
  /\ dict_sum (fun size n => n * size) (HeapSizes.chunks_by_size l)
     = HeapSizes.total_size l ->
  let l' := fold_left count_chunk chunks l in
  NoDup (keys (HeapSizes.chunks_by_size l'))
  /\ dict_sum (fun _ n => n) (HeapSizes.chunks_by_size l') = HeapSizes.num_chunks l'
  /\ dict_sum (fun size n => n * size) (HeapSizes.chunks_by_size l')
     = HeapSizes.total_size l'
  /\ HeapSizes.t l' = HeapSizes.t l.
Proof.
  revert l. induction chunks as [| c chunks IH]; intros l Hinv; simpl.
  - destruct Hinv as (H1 & H2 & H3). repeat split; assumption.
  - destruct (count_chunk_invariant l c Hinv) as (H1 & H2 & H3 & H4).
    destruct (IH (count_chunk l c) (conj H1 (conj H2 H3))) as (K1 & K2 & K3 & K4).
    repeat split; try assumption. rewrite <- H4. exact K4.
Qed.

(** The loop of lines 135-138 over sizes that are keys of the dictionary. *)
Lemma HeapSizes_rows_run (sizes : list Z) (l : HeapSizes.locals) (g : session) :
  (forall size, In size sizes -> In size (keys (HeapSizes.chunks_by_size l))) ->
  for_ sizes HeapSizes.row_body l g =
    Outcome []
      (HeapSizes.set_t
         (mkTable (columnheadings (HeapSizes.t l))
                  (rows (HeapSizes.t l)
                   ++ map (size_row (HeapSizes.chunks_by_size l)) sizes))
         l)
      g (inr tt).
Proof.
  revert l. induction sizes as [| size sizes IH]; intros l Hin.
  - cbn [for_ map]. rewrite app_nil_r. destruct l as [d n total [hd rs]].
    reflexivity.
  - rewrite for_cons. unfold HeapSizes.row_body at 1.
    rewrite bind_bind, bind_get_locals, bind_bind.
    assert (Hsome : exists n, dict_get Z.eqb (HeapSizes.chunks_by_size l) size
                              = Some n).
    { destruct (dict_get Z.eqb (HeapSizes.chunks_by_size l) size) as [n |] eqn:Hg.
      - exists n. reflexivity.
      - apply (dict_get_None_keys Z.eqb Z.eqb_spec) in Hg.
        exfalso. apply Hg, Hin. left. reflexivity. }
    destruct Hsome as [n Hn]. unfold dict_getitem. rewrite Hn.
    rewrite bind_lift_inr, bind_modify, IH.
    + destruct l as [d cnt total [hd rs]].
      cbn [HeapSizes.set_t HeapSizes.chunks_by_size HeapSizes.num_chunks
           HeapSizes.total_size HeapSizes.t add_row columnheadings rows map].
      cbn [HeapSizes.chunks_by_size] in Hn.
      unfold size_row at 2, value_of. rewrite Hn.
      rewrite <- app_assoc. reflexivity.
    + intros s Hs. destruct l as [d cnt total tbl].
      cbn [HeapSizes.set_t HeapSizes.chunks_by_size]. apply Hin. right. exact Hs.
Qed.

(** What [heap sizes] prints from what its loop has counted. *)
Lemma HeapSizes_output w args g ms :
  get_ms w g = inr ms ->
  ending (iter_chunks ms) = None
  \/ ending (iter_chunks ms) = Some KeyboardInterrupt ->
  let l := fold_left count_chunk (yielded (iter_chunks ms))
                     (HeapSizes.mkLocals [] 0 0 (mkTable [] [])) in
  let d := HeapSizes.chunks_by_size l in
  let sizes := sorted (HeapSizes.sort_key d) false (keys d) in
  decorated (HeapSizes.invoke w) args tt g =
    Outcome [write (mkTable ["Chunk size"; "Num chunks"; "Allocated size"]
                            (map (size_row d) sizes
                             ++ [[Str "TOTALS"; Int (HeapSizes.num_chunks l);
                                  fmt_size (HeapSizes.total_size l)]]));
             print []]
            tt g (inr tt).
Proof.
  intros Hms Hend l d sizes.
  assert (Hperm : Permutation sizes (keys d)) by apply sorted_Permutation.
  assert (Htry : try_except
                   (for_gen (iter_chunks ms) HeapSizes.loop_body)
                   (fun e => match e with
                             | KeyboardInterrupt => Some (ret tt)
                             | _ => None
                             end)
                   (HeapSizes.mkLocals [] 0 0 (mkTable [] [])) g =
                 Outcome [] l g (inr tt)).
  { rewrite try_except_after. unfold for_gen.
    erewrite bind_returns; [| apply HeapSizes_loop_run].
    fold l. destruct Hend as [-> | ->]; reflexivity. }
  assert (E : HeapSizes.invoke w args tt g =
              Outcome [write (mkTable ["Chunk size"; "Num chunks"; "Allocated size"]
                                      (map (size_row d) sizes
                                       ++ [[Str "TOTALS"; Int (HeapSizes.num_chunks l);
                                            fmt_size (HeapSizes.total_size l)]]));
                       print []]
                      tt g (inr tt)).
  { unfold HeapSizes.invoke.
    rewrite def_returned, bind_get_globals, Hms, bind_lift_inr.
    erewrite bind_returns; [| exact Htry].
    rewrite after_printing_nil, bind_modify, bind_get_locals.
    erewrite bind_returns.
    2: { apply HeapSizes_rows_run. intros size Hin.
         destruct l; cbn [HeapSizes.set_t HeapSizes.chunks_by_size] in *.
         apply (Permutation_in _ Hperm). exact Hin. }
    rewrite after_printing_nil, bind_modify, bind_get_locals, bind_emit.
    destruct l as [d0 n0 total0 tbl0].
    cbn [HeapSizes.set_t HeapSizes.chunks_by_size HeapSizes.num_chunks
         HeapSizes.total_size HeapSizes.t add_row columnheadings rows app].
    autorewrite with run. reflexivity. }
  rewrite decorated_passes; rewrite E; [reflexivity | exact I].
Qed.

(** X1.  What [heap sizes] prints when the traversal completes or is
    interrupted: one row per size of a chunk in use, in ascending order of
    allocated bytes, then the row of totals, whose count and bytes are the
    sums of the rows above it. *)
Lemma HeapSizes_table w args g ms :
  get_ms w g = inr ms ->
  ending (iter_chunks ms) = None
  \/ ending (iter_chunks ms) = Some KeyboardInterrupt ->
  let l := fold_left count_chunk (yielded (iter_chunks ms))
                     (HeapSizes.mkLocals [] 0 0 (mkTable [] [])) in
  let d := HeapSizes.chunks_by_size l in
  let sizes := sorted (HeapSizes.sort_key d) false (keys d) in
  decorated (HeapSizes.invoke w) args tt g =
    Outcome [write (mkTable ["Chunk size"; "Num chunks"; "Allocated size"]
                            (map (size_row d) sizes
                             ++ [[Str "TOTALS"; Int (HeapSizes.num_chunks l);
                                  fmt_size (HeapSizes.total_size l)]]));
             print []]
            tt g (inr tt)
  /\ StronglySorted (fun x y => HeapSizes.sort_key d x <= HeapSizes.sort_key d y)
                    sizes
  /\ (forall x, In x sizes -> HeapSizes.sort_key d x = value_of Z.eqb d x * x)
  /\ sum_over (value_of Z.eqb d) sizes = HeapSizes.num_chunks l
  /\ sum_over (fun size => value_of Z.eqb d size * size) sizes
     = HeapSizes.total_size l.
Proof.
  intros Hms Hend l d sizes.
  destruct (count_chunks_invariant (yielded (iter_chunks ms))
              (HeapSizes.mkLocals [] 0 0 (mkTable [] [])))
    as (Hnd & Hcount & Hbytes & Ht).
  { cbn. repeat split; try reflexivity. constructor. }
  fold l in Hnd, Hcount, Hbytes, Ht. fold d in Hnd, Hcount, Hbytes.
  assert (Hperm : Permutation sizes (keys d)) by apply sorted_Permutation.
  split; [| split; [| split; [| split]]].
  - apply HeapSizes_output; assumption.
  - apply (sorted_StronglySorted (HeapSizes.sort_key d) false).
  - intros x Hx. apply (Permutation_in _ Hperm) in Hx.
    unfold HeapSizes.sort_key, value_of.
    destruct (dict_get Z.eqb d x) eqn:Hg; [reflexivity |].
    apply (dict_get_None_keys Z.eqb Z.eqb_spec) in Hg. contradiction.
  - rewrite (sum_over_Permutation _ _ _ Hperm), <- Hcount.
    apply (sum_over_keys Z.eqb Z.eqb_spec (fun _ n => n) d Hnd).
  - rewrite (sum_over_Permutation _ _ _ Hperm), <- Hbytes.
    apply (sum_over_keys Z.eqb Z.eqb_spec (fun size n => n * size) d Hnd).
Qed.

(** X1 on the heap with four chunks in use, of 48, 16, 16 and 32 bytes. *)
Lemma HeapSizes_table_witness :
  decorated (HeapSizes.invoke Sample.four_in_use) "" tt Sample.fresh =
    Outcome [write (mkTable ["Chunk size"; "Num chunks"; "Allocated size"]
                            [[fmt_size 16; Int 2; fmt_size 32];
                             [fmt_size 32; Int 1; fmt_size 32];
                             [fmt_size 48; Int 1; fmt_size 48];
                             [Str "TOTALS"; Int 4; fmt_size 112]]);
             print []]
            tt Sample.fresh (inr tt).
Proof.
  exact (proj1 (HeapSizes_table Sample.four_in_use "" Sample.fresh
                  (mkMs (Generator [mkChunk 0x2000 48 true 0x2010;
                                    mkChunk 0x2030 16 true 0x2040;
                                    mkChunk 0x2040 16 true 0x2050;
                                    mkChunk 0x2050 32 true 0x2060] None)
                        (Generator [] None))
                  eq_refl (or_introl eq_refl))).
Defined.

(** ** The table of [heap] *)

Lemma Category_eqb_spec (a b : Category) : reflect (a = b) (Category_eqb a b).
Proof.
  destruct a as [d1 k1 t1], b as [d2 k2 t2]. unfold Category_eqb. simpl.
  destruct (String.eqb_spec d1 d2) as [-> | Hd]; simpl;
    [| constructor; congruence].
  destruct (String.eqb_spec k1 k2) as [-> | Hk]; simpl;
    [| constructor; congruence].
  destruct t1 as [x |], t2 as [y |]; try (constructor; congruence).
  destruct (String.eqb_spec x y) as [-> | Ht]; constructor; congruence.
Qed.

Lemma contains_keys {K} (eqb : K -> K -> bool)
      (eqb_spec : forall x y, reflect (x = y) (eqb x y))
      (d1 d2 : dict K Z) (k : K) :
  keys d1 = keys d2 -> contains eqb d1 k = contains eqb d2 k.
Proof.
  intros Hk. unfold contains.
  destruct (dict_get eqb d1 k) eqn:H1; destruct (dict_get eqb d2 k) eqn:H2;
    try reflexivity.
  - apply (dict_get_None_keys eqb eqb_spec) in H2. rewrite <- Hk in H2.
    apply (dict_get_None_keys eqb eqb_spec) in H2. congruence.
  - apply (dict_get_None_keys eqb eqb_spec) in H1. rewrite Hk in H1.
    apply (dict_get_None_keys eqb eqb_spec) in H1. congruence.
Qed.

Ltac Heap_locals :=
  cbn [Heap.set_total_by_category Heap.set_count_by_category
       Heap.set_total_size Heap.set_total_count Heap.set_t
       Heap.total_by_category Heap.count_by_category
       Heap.total_size Heap.total_count Heap.t] in *.

Lemma Heap_loop_body_run w (u : Usage) (l : Heap.locals) (g : session) c :
  ensure_category w u = inr c ->
  Heap.loop_body w u l g = Outcome [] (count_usage w l u) g (inr tt).
Proof.
  intros Hc. unfold Heap.loop_body, count_usage, category_of. rewrite Hc.
  rewrite bind_lift_inr, bind_modify, bind_get_locals.
  destruct l as [totals counts total count tbl]. Heap_locals.
  unfold contains, dict_getitem, add_to.
  destruct (dict_get Category_eqb totals c) as [old |]; cbv beta iota.
  - rewrite bind_bind, bind_lift_inr, !bind_modify, bind_get_locals.
    Heap_locals.
    destruct (dict_get Category_eqb counts c) as [oldc |]; cbv beta iota.
    + rewrite bind_lift_inr. reflexivity.
    + reflexivity.
  - rewrite !bind_modify, bind_get_locals. Heap_locals.
    destruct (dict_get Category_eqb counts c) as [oldc |]; cbv beta iota.
    + rewrite bind_lift_inr. reflexivity.
    + reflexivity.
Qed.

Lemma Heap_loop_run w (us : list Usage) (l : Heap.locals) (g : session) :
  Forall (fun u => exists c, ensure_category w u = inr c) us ->
  for_ us (Heap.loop_body w) l g =
    Outcome [] (fold_left (count_usage w) us l) g (inr tt).
Proof.
  revert l. induction us as [| u us IH]; intros l Hall; [reflexivity |].
  apply Forall_cons_iff in Hall. destruct Hall as [[c Hc] Hall].
  rewrite for_cons.
  erewrite bind_returns; [| apply (Heap_loop_body_run w u l g c Hc)].
  rewrite IH by exact Hall. reflexivity.
Qed.

Lemma count_usage_invariant w (l : Heap.locals) (u : Usage) :
  Heap_invariant l ->
  Heap_invariant (count_usage w l u) /\ Heap.t (count_usage w l u) = Heap.t l.
Proof.
  intros (Hk & Hnd & Hb & Hc). unfold Heap_invariant, count_usage.
  cbn [Heap.total_by_category Heap.count_by_category Heap.total_size
       Heap.total_count Heap.t].
  repeat split.
  - rewrite !(keys_add_to Category_eqb Category_eqb_spec).
    rewrite (contains_keys Category_eqb Category_eqb_spec _ _ _ Hk), Hk.
    reflexivity.
  - apply (NoDup_keys_add_to Category_eqb Category_eqb_spec), Hnd.
  - rewrite (dict_sum_add_to Category_eqb Category_eqb_spec);
      [lia | reflexivity].
  - rewrite (dict_sum_add_to Category_eqb Category_eqb_spec);
      [lia | reflexivity].
Qed.

Lemma count_usages_invariant w (us : list Usage) (l : Heap.locals) :
  Heap_invariant l ->
  Heap_invariant (fold_left (count_usage w) us l)
  /\ Heap.t (fold_left (count_usage w) us l) = Heap.t l.
Proof.
  revert l. induction us as [| u us IH]; intros l Hinv; simpl.
  - split; [exact Hinv | reflexivity].
  - destruct (count_usage_invariant w l u Hinv) as [H1 H2].
    destruct (IH _ H1) as [K1 K2]. split; [exact K1 |].
    rewrite K2. exact H2.
Qed.

(** The loop of lines 90-101 over categories that are keys of the two
    dictionaries. *)
Lemma Heap_rows_run (cats : list Category) (l : Heap.locals) (g : session) :
  (forall c, In c cats -> In c (keys (Heap.total_by_category l))) ->
  keys (Heap.count_by_category l) = keys (Heap.total_by_category l) ->
  for_ cats Heap.row_body l g =
    Outcome []
      (Heap.set_t
         (mkTable (columnheadings (Heap.t l))
                  (rows (Heap.t l)
                   ++ map (category_row (Heap.total_by_category l)
                                        (Heap.count_by_category l)) cats))
         l)
      g (inr tt).
Proof.
  revert l. induction cats as [| c cats IH]; intros l Hin Hk.
  - cbn [for_ map]. rewrite app_nil_r.
    destruct l as [totals counts total count [hd rs]]. reflexivity.
  - rewrite for_cons. unfold Heap.row_body at 1.
    cbv zeta. rewrite bind_bind, bind_get_locals, bind_bind.
    assert (Ht : exists n, dict_get Category_eqb (Heap.total_by_category l) c
                           = Some n).
    { destruct (dict_get Category_eqb (Heap.total_by_category l) c) as [n |] eqn:Hg.
      - exists n. reflexivity.
      - apply (dict_get_None_keys Category_eqb Category_eqb_spec) in Hg.
        exfalso. apply Hg, Hin. left. reflexivity. }
    assert (Hc : exists n, dict_get Category_eqb (Heap.count_by_category l) c
                           = Some n).
    { destruct (dict_get Category_eqb (Heap.count_by_category l) c) as [n |] eqn:Hg.
      - exists n. reflexivity.
      - apply (dict_get_None_keys Category_eqb Category_eqb_spec) in Hg.
        exfalso. apply Hg. rewrite Hk. apply Hin. left. reflexivity. }
    destruct Ht as [nt Hnt]. destruct Hc as [nc Hnc].
    unfold dict_getitem. rewrite Hnc, bind_lift_inr, bind_bind, Hnt,
      bind_lift_inr, bind_modify, IH.
    + destruct l as [totals counts total count [hd rs]].
      cbn [Heap.set_t Heap.total_by_category Heap.count_by_category
           Heap.total_size Heap.total_count Heap.t add_row columnheadings
           rows map] in *.
      unfold category_row at 2, value_of. rewrite Hnt, Hnc.
      rewrite <- app_assoc. reflexivity.
    + intros c' Hc'. destruct l.
      cbn [Heap.set_t Heap.total_by_category]. apply Hin. right. exact Hc'.
    + destruct l. cbn [Heap.set_t Heap.total_by_category Heap.count_by_category].
      exact Hk.
Qed.

(** What [heap] prints once its [try] block is over. *)
Lemma Heap_output_after_try w args g (l : Heap.locals) :
  Heap_try w (Heap.mkLocals [] [] 0 0 (mkTable [] [])) g =
    Outcome [] l g (inr tt) ->
  keys (Heap.count_by_category l) = keys (Heap.total_by_category l) ->
  decorated (Heap.invoke w) args tt g = Outcome (Heap_report l) tt g (inr tt).
Proof.
  intros Htry Hk.
  assert (Hperm : Permutation
                    (sorted (Heap.total_by_category_get (Heap.total_by_category l))
                            true (keys (Heap.total_by_category l)))
                    (keys (Heap.total_by_category l)))
    by apply sorted_Permutation.
  assert (E : Heap.invoke w args tt g = Outcome (Heap_report l) tt g (inr tt)).
  { unfold Heap.invoke. rewrite def_returned.
    erewrite bind_returns; [| exact Htry].
    rewrite after_printing_nil, bind_modify, bind_get_locals.
    erewrite bind_returns.
    2: { apply Heap_rows_run.
         - intros c Hin. destruct l.
           cbn [Heap.set_t Heap.total_by_category] in *.
           apply (Permutation_in _ Hperm). exact Hin.
         - destruct l.
           cbn [Heap.set_t Heap.total_by_category Heap.count_by_category] in *.
           exact Hk. }
    rewrite after_printing_nil, bind_modify, bind_get_locals, bind_emit.
    unfold Heap_report.
    destruct l as [totals0 counts0 total0 count0 tbl0].
    cbn [Heap.set_t Heap.total_by_category Heap.count_by_category
         Heap.total_size Heap.total_count Heap.t add_row columnheadings
         rows app].
    autorewrite with run. reflexivity. }
  rewrite decorated_passes; rewrite E; [reflexivity | exact I].
Qed.

(** The order and the sums of the rows of [Heap_report]. *)
Lemma Heap_report_rows (l : Heap.locals) :
  Heap_invariant l ->
  let totals := Heap.total_by_category l in
  let counts := Heap.count_by_category l in
  let cats := sorted (Heap.total_by_category_get totals) true (keys totals) in
  StronglySorted (fun x y => Heap.total_by_category_get totals y
                             <= Heap.total_by_category_get totals x) cats
  /\ sum_over (value_of Category_eqb counts) cats = Heap.total_count l
  /\ sum_over (value_of Category_eqb totals) cats = Heap.total_size l.
Proof.
  intros (Hk & Hnd & Hbytes & Hcount) totals counts cats.
  fold totals in Hk, Hnd, Hbytes. fold counts in Hk, Hcount.
  assert (Hperm : Permutation cats (keys totals)) by apply sorted_Permutation.
  split; [| split].
  - apply (sorted_StronglySorted (Heap.total_by_category_get totals) true).
  - rewrite (sum_over_Permutation _ _ _ Hperm), <- Hcount, <- Hk.
    apply (sum_over_keys Category_eqb Category_eqb_spec (fun _ n => n) counts).
    rewrite Hk. exact Hnd.
  - rewrite (sum_over_Permutation _ _ _ Hperm), <- Hbytes.
    apply (sum_over_keys Category_eqb Category_eqb_spec (fun _ n => n) totals Hnd).
Qed.

Lemma Heap_invariant_init : Heap_invariant (Heap.mkLocals [] [] 0 0 (mkTable [] [])).
Proof.
  unfold Heap_invariant. cbn. repeat split; try reflexivity. constructor.
Qed.

(** X2.  What [heap] prints when the traversal completes and every usage
    gets a category: one row per category, in descending order of
    allocated bytes, then the row of totals, whose count and bytes are the
    sums of the rows above it. *)
Lemma Heap_table w args g :
  ending (lazily_get_usage_list w g) = None ->
  Forall (fun u => exists c, ensure_category w u = inr c)
         (yielded (lazily_get_usage_list w g)) ->
  let l := fold_left (count_usage w) (yielded (lazily_get_usage_list w g))
                     (Heap.mkLocals [] [] 0 0 (mkTable [] [])) in
  let totals := Heap.total_by_category l in
  let counts := Heap.count_by_category l in
  let cats := sorted (Heap.total_by_category_get totals) true (keys totals) in
  decorated (Heap.invoke w) args tt g =
    Outcome [write (mkTable ["Domain"; "Kind"; "Detail"; "Count";
                             "Allocated size"]
                            (map (category_row totals counts) cats
                             ++ [[Str ""; Str ""; Str "TOTAL";
                                  fmt_size (Heap.total_count l);
                                  fmt_size (Heap.total_size l)]]));
             print []]
            tt g (inr tt)
  /\ StronglySorted (fun x y => Heap.total_by_category_get totals y
                                <= Heap.total_by_category_get totals x) cats
  /\ (forall c, In c cats ->
                Heap.total_by_category_get totals c
                = value_of Category_eqb totals c)
  /\ sum_over (value_of Category_eqb counts) cats = Heap.total_count l
  /\ sum_over (value_of Category_eqb totals) cats = Heap.total_size l.
Proof.
  intros Hend Hall l totals counts cats.
  destruct (count_usages_invariant w (yielded (lazily_get_usage_list w g))
              (Heap.mkLocals [] [] 0 0 (mkTable [] [])) Heap_invariant_init)
    as (Hinv & Ht).
  fold l in Hinv, Ht.
  destruct (Heap_report_rows l Hinv) as (Hsorted & Hcount & Hbytes).
  split; [| split; [| split; [| split]]].
  - apply (Heap_output_after_try w args g l).
    + unfold Heap_try.
      rewrite try_except_after, bind_get_globals. unfold list_. rewrite Hend.
      rewrite bind_ret, Heap_loop_run by exact Hall. reflexivity.
    + apply Hinv.
  - exact Hsorted.
  - reflexivity.
  - exact Hcount.
  - exact Hbytes.
Qed.

(** X2 on three usages of 16, 48 and 16 bytes in two categories. *)
Lemma Heap_table_witness :
  decorated (Heap.invoke Sample.four_in_use) "" tt Sample.fresh =
    Outcome [write (mkTable ["Domain"; "Kind"; "Detail"; "Count";
                             "Allocated size"]
                            [[Str "app"; Str "Widget"; Str "";
                              fmt_size 1; fmt_size 48];
                             [Str "C"; Str "string data"; Str "";
                              fmt_size 2; fmt_size 32];
                             [Str ""; Str ""; Str "TOTAL";
                              fmt_size 3; fmt_size 80]]);
             print []]
            tt Sample.fresh (inr tt).
Proof.
  refine (proj1 (Heap_table Sample.four_in_use "" Sample.fresh eq_refl _)).
  repeat constructor; eexists; reflexivity.
Defined.

(** ** Interrupted traversals, in general *)







(** X5.  When the traversal of the usages is interrupted, the list of
    usages is lost with it ([list(...)] never returns): the table of
    [heap] holds the row of totals alone, with zero chunks and zero
    bytes, whatever the traversal had yielded. *)
Lemma Heap_interrupted_traversal w args g :
  ending (lazily_get_usage_list w g) = Some KeyboardInterrupt ->
  decorated (Heap.invoke w) args tt g =
    Outcome [write (mkTable ["Domain"; "Kind"; "Detail"; "Count";
                             "Allocated size"]
                            [[Str ""; Str ""; Str "TOTAL";
                              fmt_size 0; fmt_size 0]]);
             print []]
            tt g (inr tt).
Proof.
  intros Hend.
  assert (E : Heap.invoke w args tt g =
              Outcome [write (mkTable ["Domain"; "Kind"; "Detail"; "Count";
                                       "Allocated size"]
                                      [[Str ""; Str ""; Str "TOTAL";
                                        fmt_size 0; fmt_size 0]]);
                       print []]
                      tt g (inr tt)).
  { unfold Heap.invoke. rewrite def_returned.
    erewrite bind_returns.
    2: { rewrite try_except_after, bind_get_globals. unfold list_.
         rewrite Hend, bind_raise. reflexivity. }
    autorewrite with run. reflexivity. }
  rewrite decorated_passes; rewrite E; [reflexivity | exact I].
Qed.

(** ** More on the table of [heap] *)

Lemma Heap_loop_stops w (done : list Usage) u (rest : list Usage)
      (l : Heap.locals) (g : session) e :
  Forall (fun u => exists c, ensure_category w u = inr c) done ->
  ensure_category w u = inl e ->
  for_ (done ++ u :: rest) (Heap.loop_body w) l g =
    Outcome [] (fold_left (count_usage w) done l) g (inl e).
Proof.
  revert l. induction done as [| d done IH]; intros l Hall He.
  - cbn [app fold_left]. rewrite for_cons. unfold Heap.loop_body at 1.
    rewrite He, bind_bind, bind_lift_inl. reflexivity.
  - apply Forall_cons_iff in Hall. destruct Hall as [[c Hc] Hall].
    cbn [app fold_left]. rewrite for_cons.
    erewrite bind_returns; [| apply (Heap_loop_body_run w d l g c Hc)].
    rewrite IH by assumption. reflexivity.
Qed.

Lemma count_usages_totals w (us : list Usage) (l : Heap.locals) :
  Heap.total_count (fold_left (count_usage w) us l)
  = Heap.total_count l + Z.of_nat (List.length us)
  /\ Heap.total_size (fold_left (count_usage w) us l)
     = Heap.total_size l + sum_over size us.
Proof.
  revert l. induction us as [| u us IH]; intros l.
  - cbn. lia.
  - cbn [fold_left]. destruct (IH (count_usage w l u)) as [H1 H2].
    rewrite H1, H2. unfold count_usage.
    cbn [Heap.total_count Heap.total_size sum_over fold_right List.length].
    fold (sum_over size us). lia.
Qed.

(** X3.  When [KeyboardInterrupt] is raised while a usage is being
    categorized, [heap] still prints its table, made from the usages it
    had categorized before: the row of totals counts these usages and
    their bytes, and the command returns normally. *)
Theorem Heap_interrupted_while_categorizing :
  forall w args g done u rest,
    ending (lazily_get_usage_list w g) = None ->
    yielded (lazily_get_usage_list w g) = done ++ u :: rest ->
    Forall (fun u => exists c, ensure_category w u = inr c) done ->
    ensure_category w u = inl KeyboardInterrupt ->
    let l := fold_left (count_usage w) done
                       (Heap.mkLocals [] [] 0 0 (mkTable [] [])) in
    decorated (Heap.invoke w) args tt g = Outcome (Heap_report l) tt g (inr tt)
    /\ Heap.total_count l = Z.of_nat (List.length done)
    /\ Heap.total_size l = sum_over size done
    /\ sum_over (value_of Category_eqb (Heap.count_by_category l))
                (sorted (Heap.total_by_category_get (Heap.total_by_category l))
                        true (keys (Heap.total_by_category l)))
       = Z.of_nat (List.length done).
Proof.
  intros w args g done u rest Hend Hy Hall Hu l.
  destruct (count_usages_invariant w done
              (Heap.mkLocals [] [] 0 0 (mkTable [] [])) Heap_invariant_init)
    as (Hinv & _).
  fold l in Hinv.
  destruct (count_usages_totals w done (Heap.mkLocals [] [] 0 0 (mkTable [] [])))
    as [Hc Hs].
  fold l in Hc, Hs. cbn [Heap.total_count Heap.total_size] in Hc, Hs.
  destruct (Heap_report_rows l Hinv) as (_ & Hcount & _).
  split; [| split; [lia | split; [lia |]]].
  - apply (Heap_output_after_try w args g l); [| apply Hinv].
    unfold Heap_try.
    rewrite try_except_after, bind_get_globals. unfold list_. rewrite Hend.
    rewrite bind_ret, Hy, (Heap_loop_stops w done u rest _ g KeyboardInterrupt)
      by assumption.
    reflexivity.
  - rewrite Hcount. lia.
Qed.

(** X3 on an example: the second of three usages is interrupted. *)
Lemma Heap_interrupted_while_categorizing_witness :
  decorated (Heap.invoke Cases.interrupted_categorizing) "" tt Sample.fresh =
    Outcome [write (mkTable ["Domain"; "Kind"; "Detail"; "Count";
                             "Allocated size"]
                            [[Str "C"; Str "string data"; Str "";
                              fmt_size 1; fmt_size 16];
                             [Str ""; Str ""; Str "TOTAL";
                              fmt_size 1; fmt_size 16]]);
             print []]
            tt Sample.fresh (inr tt).
Proof.
  refine (proj1 (Heap_interrupted_while_categorizing
                   Cases.interrupted_categorizing "" Sample.fresh
                   [mkUsage 0x2010 16] (mkUsage 0x2040 48) [mkUsage 0x2050 16]
                   eq_refl eq_refl _ eq_refl)).
  repeat constructor. eexists. reflexivity.
Defined.

(** X4.  When categorizing a usage raises anything but
    [KeyboardInterrupt], [heap] prints no table: the exception leaves
    [invoke] with nothing printed, whatever had been counted before.  For
    [MissingDebuginfo] the decorated command then prints the hint alone. *)
Theorem Heap_error_while_categorizing :
  forall w args g done u rest e,
    ending (lazily_get_usage_list w g) = None ->
    yielded (lazily_get_usage_list w g) = done ++ u :: rest ->
    Forall (fun u => exists c, ensure_category w u = inr c) done ->
    ensure_category w u = inl e ->
    e <> KeyboardInterrupt ->
    Heap.invoke w args tt g = Outcome [] tt g (inl e)
    /\ (forall module, e = MissingDebuginfo module ->
          decorated (Heap.invoke w) args tt g =
            Outcome [print [Mod "Missing debuginfo for %s" [Str module]];
                     print [Str "Suggested fix:"];
                     print [Mod "    debuginfo-install %s" [Str module]]]
                    tt g (inr tt)).
Proof.
  intros w args g done u rest e Hend Hy Hall Hu Hne.
  assert (E : Heap.invoke w args tt g = Outcome [] tt g (inl e)).
  { unfold Heap.invoke. rewrite def_returned.
    erewrite bind_raises; [reflexivity |].
    rewrite try_except_after, bind_get_globals. unfold list_. rewrite Hend.
    rewrite bind_ret, Hy, (Heap_loop_stops w done u rest _ g e) by assumption.
    cbn [result]. destruct e; try reflexivity. contradiction. }
  split; [exact E |].
  intros module ->. unfold decorated.
  rewrite need_debuginfo_catches with (module := module).
  - rewrite target_running_passes; rewrite E; reflexivity.
  - rewrite target_running_passes; rewrite E; reflexivity.
Qed.

(** X4 on an example: the debuginfo of libpython is missing. *)
Lemma Heap_error_while_categorizing_witness :
  Heap.invoke Sample.no_debuginfo "" tt Sample.fresh =
    Outcome [] tt Sample.fresh (inl (MissingDebuginfo "libpython2.7.so.1.0")).
Proof.
  refine (proj1 (Heap_error_while_categorizing Sample.no_debuginfo ""
                   Sample.fresh [] (mkUsage 0x1010 16) []
                   (MissingDebuginfo "libpython2.7.so.1.0")
                   eq_refl eq_refl (Forall_nil _) eq_refl _)).
  discriminate.
Defined.

(** X5 on an example: one usage was yielded before the interrupt. *)
Lemma Heap_interrupted_traversal_witness :
  decorated (Heap.invoke Sample.interrupted) "" tt Sample.fresh =
    Outcome [write (mkTable ["Domain"; "Kind"; "Detail"; "Count";
                             "Allocated size"]
                            [[Str ""; Str ""; Str "TOTAL";
                              fmt_size 0; fmt_size 0]]);
             print []]
            tt Sample.fresh (inr tt).
Proof.
  exact (Heap_interrupted_traversal Sample.interrupted "" Sample.fresh eq_refl).
Defined.

(** ** What [heap sizes] counts *)

Lemma value_of_add_to_other {K} (eqb : K -> K -> bool)
      (eqb_spec : forall x y, reflect (x = y) (eqb x y))
      (d : dict K Z) k k' v :
  k <> k' -> value_of eqb (add_to eqb d k v) k' = value_of eqb d k'.
Proof.
  intros Hne. unfold value_of, add_to.
  destruct (dict_get eqb d k);
    rewrite (dict_get_setitem_other eqb eqb_spec) by exact Hne; reflexivity.
Qed.

Lemma In_keys_add_to {K} (eqb : K -> K -> bool)
      (eqb_spec : forall x y, reflect (x = y) (eqb x y))
      (d : dict K Z) k v k' :
  In k' (keys (add_to eqb d k v)) <-> In k' (keys d) \/ k' = k.
Proof.
  rewrite (keys_add_to eqb eqb_spec). unfold contains.
  destruct (dict_get eqb d k) eqn:Hg.
  - split; [tauto |]. intros [H | ->]; [exact H |].
    destruct (in_dec (fun x y => match eqb_spec x y with
                                 | ReflectT _ e => left e
                                 | ReflectF _ n => right n
                                 end) k (keys d)) as [Hin | Hnot];
      [exact Hin |].
    apply (dict_get_None_keys eqb eqb_spec) in Hnot. congruence.
  - rewrite in_app_iff. simpl. split.
    + intros [H | [H | []]]; [left; exact H | right; symmetry; exact H].
    + intros [H | ->]; [left; exact H | right; left; reflexivity].
Qed.

(** The number of chunks in use of a given size. *)
Lemma count_chunks_counts (chunks : list chunk) (l : HeapSizes.locals) :
  let l' := fold_left count_chunk chunks l in
  HeapSizes.num_chunks l'
  = HeapSizes.num_chunks l + Z.of_nat (List.length (filter is_inuse chunks))
  /\ HeapSizes.total_size l'
     = HeapSizes.total_size l + sum_over chunksize (filter is_inuse chunks)
  /\ (forall s, value_of Z.eqb (HeapSizes.chunks_by_size l') s
                = value_of Z.eqb (HeapSizes.chunks_by_size l) s
                  + Z.of_nat (List.length
                                (filter (fun c => is_inuse c && (chunksize c =? s))
                                        chunks)))
  /\ (forall s, In s (keys (HeapSizes.chunks_by_size l'))
                <-> In s (keys (HeapSizes.chunks_by_size l))
                    \/ exists c, In c chunks /\ is_inuse c = true
                                 /\ chunksize c = s).
Proof.
  revert l. induction chunks as [| c chunks IH]; intros l.
  - cbn. repeat split; try lia.
    + intros H; left; exact H.
    + intros [H | [c [[] _]]]; exact H.
  - cbv zeta. cbn [fold_left].
    destruct (IH (count_chunk l c)) as (H1 & H2 & H3 & H4).
    unfold count_chunk in *. cbn [filter].
    destruct (is_inuse c) eqn:Hin.
    + cbn [HeapSizes.num_chunks HeapSizes.total_size HeapSizes.chunks_by_size
           andb] in *.
      split; [| split; [| split]].
      * rewrite H1. cbn [List.length]. lia.
      * rewrite H2. cbn [sum_over fold_right]. fold (sum_over chunksize
          (filter is_inuse chunks)). lia.
      * intros s. rewrite H3.
        destruct (chunksize c =? s) eqn:Hs.
        -- apply Z.eqb_eq in Hs. subst s.
           rewrite (value_of_add_to_same Z.eqb Z.eqb_spec).
           cbn [List.length]. lia.
        -- apply Z.eqb_neq in Hs.
           rewrite (value_of_add_to_other Z.eqb Z.eqb_spec) by exact Hs. lia.
      * intros s. rewrite H4, (In_keys_add_to Z.eqb Z.eqb_spec). split.
        -- intros [[H | ->] | [c' (Hc' & Hu & Hs)]].
           ++ left; exact H.
           ++ right. exists c. repeat split; [left; reflexivity | exact Hin].
           ++ right. exists c'. repeat split; [right; exact Hc' | exact Hu | exact Hs].
        -- intros [H | [c' ([<- | Hc'] & Hu & Hs)]].
           ++ left; left; exact H.
           ++ left; right. symmetry. exact Hs.
           ++ right. exists c'. repeat split; assumption.
    + cbn [andb].
      split; [exact H1 | split; [exact H2 | split; [exact H3 |]]].
      intros s. rewrite H4. split.
      * intros [H | [c' (Hc' & Hu & Hs)]]; [left; exact H |].
        right. exists c'. repeat split; [right; exact Hc' | exact Hu | exact Hs].
      * intros [H | [c' ([<- | Hc'] & Hu & Hs)]]; [left; exact H | congruence |].
        right. exists c'. repeat split; assumption.
Qed.

(** X6.  [heap sizes] counts the chunks in use and skips the free ones:
    the sizes listed are the sizes of the chunks in use, each once; the
    count in the row of a size is the number of chunks in use of that
    size; the row of totals holds the number of chunks in use and the
    sum of their sizes. *)
Theorem HeapSizes_counts_chunks_in_use :
  forall w args g ms,
    get_ms w g = inr ms ->
    ending (iter_chunks ms) = None
    \/ ending (iter_chunks ms) = Some KeyboardInterrupt ->
    let in_use := filter is_inuse (yielded (iter_chunks ms)) in
    exists d sizes,
      decorated (HeapSizes.invoke w) args tt g =
        Outcome [write (mkTable ["Chunk size"; "Num chunks"; "Allocated size"]
                                (map (size_row d) sizes
                                 ++ [[Str "TOTALS";
                                      Int (Z.of_nat (List.length in_use));
                                      fmt_size (sum_over chunksize in_use)]]));
                 print []]
                tt g (inr tt)
      /\ NoDup sizes
      /\ (forall s, In s sizes <-> exists c, In c in_use /\ chunksize c = s)
      /\ (forall s, value_of Z.eqb d s
                    = Z.of_nat (List.length
                                  (filter (fun c => chunksize c =? s) in_use))).
Proof.
  intros w args g ms Hms Hend in_use.
  pose (l := fold_left count_chunk (yielded (iter_chunks ms))
                       (HeapSizes.mkLocals [] 0 0 (mkTable [] []))).
  pose (d := HeapSizes.chunks_by_size l).
  pose (sizes := sorted (HeapSizes.sort_key d) false (keys d)).
  destruct (count_chunks_invariant (yielded (iter_chunks ms))
              (HeapSizes.mkLocals [] 0 0 (mkTable [] [])))
    as (Hnd & _).
  { cbn. repeat split; try reflexivity. constructor. }
  destruct (count_chunks_counts (yielded (iter_chunks ms))
              (HeapSizes.mkLocals [] 0 0 (mkTable [] [])))
    as (Hn & Ht & Hv & Hk).
  fold l in Hnd, Hn, Ht, Hv, Hk. fold d in Hnd, Hv, Hk.
  cbn [HeapSizes.num_chunks HeapSizes.total_size HeapSizes.chunks_by_size]
    in Hn, Ht, Hv, Hk.
  assert (Hperm : Permutation sizes (keys d)) by apply sorted_Permutation.
  exists d, sizes. split; [| split; [| split]].
  - assert (Hout := HeapSizes_output w args g ms Hms Hend).
    cbv zeta in Hout. fold l d sizes in Hout. rewrite Hout.
    rewrite Hn, Ht. reflexivity.
  - apply (Permutation_NoDup (Permutation_sym Hperm)), Hnd.
  - intros s. split.
    + intros Hs. apply (Permutation_in _ Hperm) in Hs. apply Hk in Hs.
      destruct Hs as [[] | [c (Hc & Hu & Hs)]].
      exists c. split; [| exact Hs]. apply filter_In. split; assumption.
    + intros [c (Hc & Hs)]. apply filter_In in Hc. destruct Hc as [Hc Hu].
      apply (Permutation_in _ (Permutation_sym Hperm)). apply Hk.
      right. exists c. repeat split; assumption.
  - intros s. rewrite Hv. cbn [value_of dict_get]. unfold in_use.
    f_equal. clear. induction (yielded (iter_chunks ms)) as [| c cs IH];
      [reflexivity |].
    cbn [filter]. destruct (is_inuse c); cbn [andb filter];
      [destruct (chunksize c =? s); cbn [List.length]; lia | exact IH].
Qed.

(** X6 on the arena [(0x1000,16,used), (0x1010,32,free), (0x1030,16,used)]:
    two chunks in use, 32 bytes; the free chunk is not counted. *)
Lemma HeapSizes_counts_chunks_in_use_witness :
  exists d sizes,
    decorated (HeapSizes.invoke Sample.quiet) "" tt Sample.fresh =
      Outcome [write (mkTable ["Chunk size"; "Num chunks"; "Allocated size"]
                              (map (size_row d) sizes
                               ++ [[Str "TOTALS"; Int 2; fmt_size 32]]));
               print []]
              tt Sample.fresh (inr tt).
Proof.
  destruct (HeapSizes_counts_chunks_in_use Sample.quiet "" Sample.fresh
              (mkMs (Generator Sample.arena_chunks None)
                    (Generator [Sample.chunk_b] None))
              eq_refl (or_introl eq_refl)) as (d & sizes & H & _).
  exists d, sizes. exact H.
Defined.

(** ** The listings of [heap used] and [heap free] *)

(** A loop whose body always completes. *)
Lemma for_run {L A} (xs : list A) (body : A -> stmt L unit)
      (out : A -> list event) (step : L -> A -> L) l g :
  (forall x l g, body x l g = Outcome (out x) (step l x) g (inr tt)) ->
  for_ xs body l g =
    Outcome (flat_map out xs) (fold_left step xs l) g (inr tt).
Proof.
  intros Hb. revert l. induction xs as [| x xs IH]; intros l; [reflexivity |].
  rewrite for_cons. erewrite bind_returns; [| apply Hb].
  rewrite IH. reflexivity.
Qed.

Lemma chunk_line_run {L} w i c (l : L) g :
  (forall u, exists cat, categorize w u = inr cat) ->
  (forall a n, exists s, hexdump_as_bytes w a n = inr s) ->
  chunk_line w i c l g = Outcome [chunk_line_of w i c] l g (inr tt).
Proof.
  intros Hcat Hhd. unfold chunk_line, chunk_line_of. cbv zeta.
  destruct (Hcat (mkUsage (as_mem c) (chunksize c))) as [cat ->].
  destruct (Hhd (as_mem c) 32) as [s ->].
  rewrite !bind_lift_inr. reflexivity.
Qed.

Lemma flat_map_singleton {A B} (f : A -> B) (l : list A) :
  flat_map (fun x => [f x]) l = map f l.
Proof. induction l as [| x l IH]; simpl; [| rewrite IH]; reflexivity. Qed.

Lemma In_enumerate {A} (l : list A) (i : Z) (x : A) :
  In (i, x) (enumerate l) <-> 0 <= i /\ nth_error l (Z.to_nat i) = Some x.
Proof.
  unfold enumerate.
  assert (H : forall start,
             In (i, x) (combine (map Z.of_nat (seq start (List.length l))) l)
             <-> Z.of_nat start <= i
                 /\ nth_error l (Z.to_nat i - start) = Some x).
  { induction l as [| y l IH]; intros start.
    - simpl. split; [intros [] |]. intros [_ H].
      destruct (Z.to_nat i - start)%nat; discriminate.
    - cbn [List.length seq map combine In]. rewrite IH. split.
      + intros [Heq | [Hle Hn]].
        * injection Heq as <- <-. split; [lia |].
          rewrite Nat2Z.id, Nat.sub_diag. reflexivity.
        * split; [lia |].
          replace (Z.to_nat i - start)%nat with (S (Z.to_nat i - S start))
            by lia.
          exact Hn.
      + intros [Hle Hn].
        destruct (Z.eq_dec i (Z.of_nat start)) as [-> | Hne].
        * left. rewrite Nat2Z.id, Nat.sub_diag in Hn. simpl in Hn.
          injection Hn as ->. reflexivity.
        * right. split; [lia |].
          replace (Z.to_nat i - start)%nat with (S (Z.to_nat i - S start)) in Hn
            by lia.
          exact Hn. }
  rewrite (H 0%nat). rewrite Nat.sub_0_r. reflexivity.
Qed.

(** X7.  When the traversal of the free chunks completes, [heap free]
    prints one line per free chunk, numbered from 0 in traversal order,
    and ends with the sum of the sizes of these chunks as [Total size]. *)
Theorem HeapFree_total_is_sum :
  forall w args g ms,
    get_ms w g = inr ms ->
    ending (iter_free_chunks ms) = None ->
    (forall u, exists cat, categorize w u = inr cat) ->
    (forall a n, exists s, hexdump_as_bytes w a n = inr s) ->
    decorated (HeapFree.invoke w) args tt g =
      Outcome ([print [Str "Free chunks of memory on heap"];
                print [Str "-----------------------------"]]
               ++ map (fun '(i, c) => chunk_line_of w i c)
                      (enumerate (yielded (iter_free_chunks ms)))
               ++ [print [Mod "Total size: %s"
                              [Int (sum_over chunksize
                                             (yielded (iter_free_chunks ms)))]]])
              tt g (inr tt).
Proof.
  intros w args g ms Hms Hend Hcat Hhd.
  assert (Hsum : forall (ps : list (Z * chunk)) t0,
             fold_left (fun total (p : Z * chunk) => total + chunksize (snd p))
                       ps t0
             = t0 + sum_over chunksize (map snd ps)).
  { induction ps as [| p ps IH]; intros t0; cbn [fold_left map sum_over fold_right];
      [lia |].
    rewrite IH. fold (sum_over chunksize (map snd ps)). lia. }
  assert (E : HeapFree.invoke w args tt g =
              Outcome ([print [Str "Free chunks of memory on heap"];
                        print [Str "-----------------------------"]]
                       ++ map (fun '(i, c) => chunk_line_of w i c)
                              (enumerate (yielded (iter_free_chunks ms)))
                       ++ [print [Mod "Total size: %s"
                                      [Int (sum_over chunksize
                                              (yielded (iter_free_chunks ms)))]]])
                      tt g (inr tt)).
  { unfold HeapFree.invoke.
    rewrite def_returned, !bind_emit, bind_get_globals, Hms, bind_lift_inr.
    unfold for_gen, enumerate_gen. cbn [yielded ending]. rewrite Hend.
    rewrite bind_bind.
    erewrite bind_returns.
    2: { apply (for_run _ _ (fun p => [chunk_line_of w (fst p) (snd p)])
                  (fun total p => total + chunksize (snd p))).
         intros [i c] l0 g0. rewrite bind_modify.
         apply chunk_line_run; assumption. }
    rewrite bind_ret, bind_get_locals, emit_run.
    rewrite Hsum, snd_enumerate, (flat_map_singleton
                                    (fun p => chunk_line_of w (fst p) (snd p))).
    unfold returned, after_printing. cbn [printed locals globals result app].
    f_equal. f_equal. f_equal. f_equal.
    apply map_ext. intros [i c]. reflexivity. }
  rewrite decorated_passes; rewrite E; [reflexivity | exact I].
Qed.

(** X7 on the sample arena, whose only free chunk is 32 bytes long. *)
Lemma HeapFree_total_is_sum_witness :
  decorated (HeapFree.invoke Sample.quiet) "" tt Sample.fresh =
    Outcome [print [Str "Free chunks of memory on heap"];
             print [Str "-----------------------------"];
             chunk_line_of Sample.quiet 0 Sample.chunk_b;
             print [Mod "Total size: %s" [Int 32]]]
            tt Sample.fresh (inr tt).
Proof.
  refine (HeapFree_total_is_sum Sample.quiet "" Sample.fresh
            (mkMs (Generator Sample.arena_chunks None)
                  (Generator [Sample.chunk_b] None))
            eq_refl eq_refl _ _).
  - intros u. eexists. reflexivity.
  - intros a n. eexists. reflexivity.
Defined.

(** X8.  When the traversal completes, [heap used] prints a line for each
    chunk in use and none for the free ones; the number on a line is the
    position of the chunk among all the chunks of the traversal, free
    ones included, counted from 0. *)
Theorem HeapUsed_numbers_by_position :
  forall w args g ms,
    get_ms w g = inr ms ->
    ending (iter_chunks ms) = None ->
    (forall u, exists cat, categorize w u = inr cat) ->
    (forall a n, exists s, hexdump_as_bytes w a n = inr s) ->
    let listed := filter (fun p : Z * chunk => is_inuse (snd p))
                         (enumerate (yielded (iter_chunks ms))) in
    decorated (HeapUsed.invoke w) args tt g =
      Outcome ([print [Str "Used chunks of memory on heap"];
                print [Str "-----------------------------"]]
               ++ map (fun '(i, c) => chunk_line_of w i c) listed
               ++ [print []])
              tt g (inr tt)
    /\ forall i c,
         In (i, c) listed <->
         0 <= i /\ nth_error (yielded (iter_chunks ms)) (Z.to_nat i) = Some c
         /\ is_inuse c = true.
Proof.
  intros w args g ms Hms Hend Hcat Hhd listed. split.
  - assert (E : HeapUsed.invoke w args tt g =
                Outcome ([print [Str "Used chunks of memory on heap"];
                          print [Str "-----------------------------"]]
                         ++ map (fun '(i, c) => chunk_line_of w i c) listed
                         ++ [print []])
                        tt g (inr tt)).
    { unfold HeapUsed.invoke.
      rewrite def_returned, !bind_emit, bind_get_globals, Hms, bind_lift_inr.
      erewrite bind_returns.
      2: { rewrite try_except_after. unfold for_gen, enumerate_gen.
           cbn [yielded ending]. rewrite Hend.
           erewrite bind_returns.
           2: { apply (for_run _ _
                         (fun p => if is_inuse (snd p)
                                   then [chunk_line_of w (fst p) (snd p)]
                                   else [])
                         (fun l0 _ => l0)).
                intros [i c] l0 g0. cbn [fst snd].
                destruct (is_inuse c); cbn [negb];
                  [apply chunk_line_run; assumption | reflexivity]. }
           rewrite ret_run, after_printing_Outcome. reflexivity. }
      rewrite emit_run.
      unfold returned, after_printing. cbn [printed locals globals result app].
      rewrite app_nil_r. do 4 f_equal. unfold listed.
      clear. induction (enumerate (yielded (iter_chunks ms))) as [| [i c] ps IH];
        [reflexivity |].
      cbn [flat_map filter snd fst]. destruct (is_inuse c); cbn [app map];
        rewrite IH; reflexivity. }
    rewrite decorated_passes; rewrite E; [reflexivity | exact I].
  - intros i c. unfold listed. rewrite filter_In, In_enumerate. cbn [snd].
    tauto.
Qed.

(** X8 on the sample arena: the chunks in use are number 0 and number 2. *)
Lemma HeapUsed_numbers_by_position_witness :
  decorated (HeapUsed.invoke Sample.quiet) "" tt Sample.fresh =
    Outcome [print [Str "Used chunks of memory on heap"];
             print [Str "-----------------------------"];
             chunk_line_of Sample.quiet 0 Sample.chunk_a;
             chunk_line_of Sample.quiet 2 Sample.chunk_c;
             print []]
            tt Sample.fresh (inr tt).
Proof.
  refine (proj1 (HeapUsed_numbers_by_position Sample.quiet "" Sample.fresh
                   (mkMs (Generator Sample.arena_chunks None)
                         (Generator [Sample.chunk_b] None))
                   eq_refl eq_refl _ _)).
  - intros u. eexists. reflexivity.
  - intros a n. eexists. reflexivity.
Defined.

(** ** What the decorators and the reports never do *)

Lemma reads_only_decorated (f : command) args :
  reads_only (f args) -> reads_only (decorated f args).
Proof.
  intros Hf. unfold decorated, need_debuginfo, target_running.
  apply reads_only_try_except.
  - apply reads_only_try_except; [exact Hf |].
    intros e h He. destruct e; try discriminate He;
      injection He as <-; reads_only_tac.
  - intros e h He. destruct e; try discriminate He.
    injection He as <-. reads_only_tac.
Qed.

(** X9.  Of the decorated commands, only [heap label] and [heap arena]
    assign to the session objects: after any other command, with its
    decorators or without, however it ends, the log of the history, the
    list of arenas and the current arena are what they were. *)
Theorem reporting_commands_keep_session :
  forall w name f,
    In (name, f) (invoke_methods w) ->
    name <> "heap label" -> name <> "heap arena" ->
    forall args g,
      globals (f args tt g) = g /\ globals (decorated f args tt g) = g.
Proof.
  intros w name f HIn Hlabel Harena args g.
  assert (Hf : reads_only (f args)).
  { unfold invoke_methods in HIn. simpl in HIn.
    repeat (destruct HIn as [HIn | HIn];
            [injection HIn as Hn Hf; subst f name |]); try contradiction.
    - apply Heap_reads_only.
    - apply HeapSizes_reads_only.
    - apply HeapUsed_reads_only.
    - apply HeapFree_reads_only.
    - apply HeapAll_reads_only.
    - apply HeapLog_reads_only.
    - apply HeapDiff_reads_only.
    - apply HeapSelect_reads_only.
    - apply HeapSearch_reads_only.
    - apply HeapChunk_reads_only.
    - apply HeapArenas_reads_only. }
  split; [apply Hf | apply reads_only_decorated, Hf].
Qed.

(** X9 on an example: [heap diff] leaves the session as it found it. *)
Lemma reporting_commands_keep_session_witness :
  globals (decorated (HeapDiff.invoke Sample.quiet) "" tt Cases.two_labels)
  = Cases.two_labels.
Proof.
  refine (proj2 (reporting_commands_keep_session Sample.quiet "heap diff"
                   (HeapDiff.invoke Sample.quiet) _ _ _ "" Cases.two_labels)).
  - simpl. do 7 right. left. reflexivity.
  - discriminate.
  - discriminate.
Defined.

(** X10.  A command under the two decorators never raises
    [MissingDebuginfo], [gdb.error] or [NameError]: an exception that
    leaves the decorated command is one of another class, and it is the
    exception the command itself raised. *)
Theorem decorated_never_raises_handled :
  forall (f : command) args l g e,
    result (decorated f args l g) = inl e ->
    (forall module, e <> MissingDebuginfo module)
    /\ target_error e = false
    /\ result (f args l g) = inl e.
Proof.
  intros f args l g e He.
  destruct (result (f args l g)) as [e0 | a] eqn:Hf.
  2: { rewrite decorated_passes in He by (rewrite Hf; exact I). congruence. }
  destruct (target_error e0) eqn:Ht.
  { exfalso. unfold decorated in He.
    rewrite need_debuginfo_passes in He;
      rewrite (target_running_catches f args l g e0 Hf Ht) in *;
      [discriminate He | exact I]. }
  destruct e0 as [module | | | | | | | | |]; try discriminate Ht;
    try (rewrite decorated_passes in He by (rewrite Hf; exact I);
         rewrite Hf in He; injection He as <-;
         split; [intros m; discriminate | split; reflexivity]).
  exfalso. unfold decorated in He.
  rewrite (need_debuginfo_catches _ _ _ _ module) in He; [discriminate He |].
  rewrite target_running_passes; rewrite Hf; reflexivity.
Qed.

(** X10 on an example: the interrupt that leaves [heap free]. *)
Lemma decorated_never_raises_handled_witness :
  target_error KeyboardInterrupt = false
  /\ result (HeapFree.invoke Sample.interrupted "" tt Sample.fresh)
     = inl KeyboardInterrupt.
Proof.
  exact (proj2 (decorated_never_raises_handled
                  (HeapFree.invoke Sample.interrupted) "" tt Sample.fresh
                  KeyboardInterrupt eq_refl)).
Defined.

(** ** Listing and selecting arenas *)

Lemma nth_error_enumerate {A} (l : list A) (n : nat) :
  nth_error (enumerate l) n
  = option_map (fun x => (Z.of_nat n, x)) (nth_error l n).
Proof.
  unfold enumerate.
  assert (H : forall start n,
             nth_error (combine (map Z.of_nat (seq start (List.length l))) l) n
             = option_map (fun x => (Z.of_nat (start + n), x)) (nth_error l n)).
  { induction l as [| x l IH]; intros start [| k]; cbn; try reflexivity.
    - rewrite Nat.add_0_r. reflexivity.
    - rewrite IH. rewrite Nat.add_succ_r. reflexivity. }
  apply (H 0%nat).
Qed.

Lemma HeapArenas_output w args g :
  decorated (HeapArenas.invoke w) args tt g =
    Outcome (map (fun '(n, arena) =>
                    print [Mod "Arena #%d: %s" [Int n; Int (address arena)]])
                 (enumerate (arenas g)))
            tt g (inr tt).
Proof.
  assert (E : HeapArenas.invoke w args tt g =
              Outcome (map (fun '(n, arena) =>
                              print [Mod "Arena #%d: %s"
                                         [Int n; Int (address arena)]])
                           (enumerate (arenas g)))
                      tt g (inr tt)).
  { unfold HeapArenas.invoke. rewrite def_returned, bind_get_globals.
    rewrite (for_run _ _
               (fun p : Z * arena =>
                  [print [Mod "Arena #%d: %s" [Int (fst p); Int (address (snd p))]]])
               (fun l0 _ => l0)).
    - rewrite returned_Outcome, flat_map_singleton. f_equal.
      apply map_ext. intros [n a]. reflexivity.
    - intros [n a] l0 g0. reflexivity. }
  rewrite decorated_passes; rewrite E; [reflexivity | exact I].
Qed.

(** X11.  [heap arenas] lists the arenas numbered from 0 in the order of
    the list, and the number it shows for an arena is the number that
    selects it: given that number, [heap arena] makes that arena the
    current one and prints its address, leaving the list of arenas and
    the history as they were. *)
Theorem HeapArenaSelect_selects_listed :
  forall w args args' i g a,
    int_ w args 10 = inr i ->
    0 <= i ->
    nth_error (arenas g) (Z.to_nat i) = Some a ->
    nth_error (printed (decorated (HeapArenas.invoke w) args' tt g)) (Z.to_nat i)
    = Some (print [Mod "Arena #%d: %s" [Int i; Int (address a)]])
    /\ decorated (HeapArenaSelect.invoke w) args tt g =
         Outcome [print [Mod "Arena set to %s" [Int (address a)]]]
                 tt (mkSession (snapshots g) (arenas g) a) (inr tt).
Proof.
  intros w args args' i g a Hi Hpos Hn. split.
  - rewrite HeapArenas_output. cbn [printed].
    rewrite nth_error_map, nth_error_enumerate, Hn. cbn [option_map].
    rewrite Z2Nat.id by exact Hpos. reflexivity.
  - assert (Hlen : 0 <= i < Z.of_nat (List.length (arenas g))).
    { split; [exact Hpos |].
      assert (Hlt : (Z.to_nat i < List.length (arenas g))%nat)
        by (apply nth_error_Some; congruence).
      lia. }
    destruct (getitem_in_range (arenas g) i Hlen) as [a' [Hn' Hg]].
    assert (a' = a) by congruence. subst a'.
    assert (E : HeapArenaSelect.invoke w args tt g =
                Outcome [print [Mod "Arena set to %s" [Int (address a)]]]
                        tt (mkSession (snapshots g) (arenas g) a) (inr tt)).
    { unfold HeapArenaSelect.invoke.
      rewrite def_returned, Hi, bind_lift_inr, bind_get_globals, Hg.
      autorewrite with run. reflexivity. }
    rewrite decorated_passes; rewrite E; [reflexivity | exact I].
Qed.

(** X11 on an example: of two arenas, [heap arena 1] selects the second,
    which [heap arenas] lists as number 1. *)
Lemma HeapArenaSelect_selects_listed_witness :
  decorated (HeapArenaSelect.invoke Sample.quiet) "1" tt Sample.fresh =
    Outcome [print [Mod "Arena set to %s" [Int (address Sample.arena1)]]]
            tt (mkSession [] [Sample.arena0; Sample.arena1] Sample.arena1)
            (inr tt).
Proof.
  refine (proj2 (HeapArenaSelect_selects_listed Sample.quiet "1" "" 1
                   Sample.fresh Sample.arena1 eq_refl _ eq_refl)).
  lia.
Defined.

(** X12.  When the argument of [heap arena] is not an integer, the
    [ValueError] of [int] leaves the command through both decorators:
    nothing is printed and the selection is unchanged. *)
Theorem HeapArenaSelect_not_a_number :
  forall w args g msg,
    int_ w args 10 = inl (ValueError msg) ->
    decorated (HeapArenaSelect.invoke w) args tt g =
      Outcome [] tt g (inl (ValueError msg)).
Proof.
  intros w args g msg Hi.
  assert (E : HeapArenaSelect.invoke w args tt g =
              Outcome [] tt g (inl (ValueError msg))).
  { unfold HeapArenaSelect.invoke.
    rewrite def_returned, Hi, bind_lift_inl. reflexivity. }
  rewrite decorated_passes; rewrite E; [reflexivity | exact I].
Qed.

(** X12 on an example: [heap arena main]. *)
Lemma HeapArenaSelect_not_a_number_witness :
  decorated (HeapArenaSelect.invoke Sample.quiet) "main" tt Sample.fresh =
    Outcome [] tt Sample.fresh (inl (ValueError "invalid literal for int()")).
Proof.
  exact (HeapArenaSelect_not_a_number Sample.quiet "main" Sample.fresh
           "invalid literal for int()" eq_refl).
Defined.

(** ** More on searching for an address *)

(** X13.  When [argparse] rejects the command line of [heap search],
    whatever it raises (it exits on a bad option, a missing address or
    [-h]), the command prints nothing of its own and returns normally. *)
Theorem HeapSearch_bad_command_line :
  forall w args g e,
    parse_args w (string_to_argv w args) = inl e ->
    decorated (HeapSearch.invoke w) args tt g = Outcome [] tt g (inr tt).
Proof.
  intros w args g e Hparse.
  assert (E : HeapSearch.invoke w args tt g = Outcome [] tt g (inr tt)).
  { unfold HeapSearch.invoke. rewrite def_returned. cbv zeta.
    rewrite (bind_returns _ _ _ _ [] ([] : HeapSearch.locals) g None).
    - reflexivity.
    - rewrite try_except_after, Hparse, bind_lift_inl. reflexivity. }
  rewrite decorated_passes; rewrite E; [reflexivity | exact I].
Qed.

(** X13 on an example: no address on the command line. *)
Lemma HeapSearch_bad_command_line_witness :
  decorated (HeapSearch.invoke Sample.quiet) "-a" tt Sample.fresh =
    Outcome [] tt Sample.fresh (inr tt).
Proof.
  exact (HeapSearch_bad_command_line Sample.quiet "-a" Sample.fresh SystemExit
           eq_refl).
Defined.

(** X14.  When the address given to [heap search] is not a number for
    [int] (in base 16 after [0x], in base 10 otherwise), the [ValueError]
    leaves the command through both decorators before anything is
    printed. *)
Theorem HeapSearch_not_an_address :
  forall w args ns addr_arg g msg,
    parse_args w (string_to_argv w args) = inr ns ->
    getitem (addr ns) 0 = inr addr_arg ->
    int_ w addr_arg (if String.prefix "0x" addr_arg then 16 else 10)
    = inl (ValueError msg) ->
    decorated (HeapSearch.invoke w) args tt g =
      Outcome [] tt g (inl (ValueError msg)).
Proof.
  intros w args ns addr_arg g msg Hparse Haddr Hint.
  assert (Hint' : (if String.prefix "0x" addr_arg
                   then lift (int_ w addr_arg 16)
                   else lift (int_ w addr_arg 10)) =
                  (lift (inl (ValueError msg)) : stmt HeapSearch.locals Z)).
  { destruct (String.prefix "0x" addr_arg); rewrite Hint; reflexivity. }
  assert (E : HeapSearch.invoke w args tt g =
              Outcome [] tt g (inl (ValueError msg))).
  { unfold HeapSearch.invoke. rewrite def_returned. cbv zeta.
    rewrite (bind_returns _ _ _ _ [] ([] : HeapSearch.locals) g (Some ns)).
    2: { rewrite try_except_after, Hparse, bind_lift_inr. reflexivity. }
    rewrite after_printing_nil, Haddr, bind_lift_inr, Hint', bind_lift_inl.
    reflexivity. }
  rewrite decorated_passes; rewrite E; [reflexivity | exact I].
Qed.

(** X14 on an example: [heap search 0xzz]. *)
Lemma HeapSearch_not_an_address_witness :
  decorated (HeapSearch.invoke Sample.quiet) "0xzz" tt Sample.fresh =
    Outcome [] tt Sample.fresh (inl (ValueError "invalid literal for int()")).
Proof.
  exact (HeapSearch_not_an_address Sample.quiet "0xzz"
           (mkSearchNs ["0xzz"] false false) "0xzz" Sample.fresh
           "invalid literal for int()" eq_refl eq_refl eq_refl).
Defined.

(** What [heap search] prints when its command line and its address are
    read and the traversal completes. *)
Lemma HeapSearch_output w args ns addr_arg a g ms :
  parse_args w (string_to_argv w args) = inr ns ->
  getitem (addr ns) 0 = inr addr_arg ->
  int_ w addr_arg (if String.prefix "0x" addr_arg then 16 else 10) = inr a ->
  get_ms w g = inr ms ->
  ending (iter_chunks ms) = None ->
  (after ns = true ->
   forall c, In c (yielded (iter_chunks ms)) -> contains_address a c = true ->
             exists n, next_chunk w c = inr n) ->
  decorated (HeapSearch.invoke w) args tt g =
    Outcome [print [Mod "search heap for address %s" [hex a]];
             print [Str "-------------------------------------------------"];
             print [Concat (flat_map (found_entries w ns)
                                     (filter (contains_address a)
                                             (yielded (iter_chunks ms))))]]
            tt g (inr tt).
Proof.
  intros Hparse Haddr Hint Hms Hend Hnext.
  assert (Hloop := HeapSearch_loop w ns a
                     (enumerate (yielded (iter_chunks ms))) [] g).
  rewrite snd_enumerate in Hloop. specialize (Hloop Hnext).
  assert (Hint' : (if String.prefix "0x" addr_arg
                   then lift (int_ w addr_arg 16)
                   else lift (int_ w addr_arg 10)) =
                  (lift (inr a) : stmt HeapSearch.locals Z)).
  { destruct (String.prefix "0x" addr_arg); rewrite Hint; reflexivity. }
  assert (E : HeapSearch.invoke w args tt g =
              Outcome [print [Mod "search heap for address %s" [hex a]];
                       print [Str "-------------------------------------------------"];
                       print [Concat (flat_map (found_entries w ns)
                                               (filter (contains_address a)
                                                       (yielded (iter_chunks ms))))]]
                      tt g (inr tt)).
  { unfold HeapSearch.invoke. rewrite def_returned. cbv zeta.
    rewrite (bind_returns _ _ _ _ [] ([] : HeapSearch.locals) g (Some ns)).
    2: { rewrite try_except_after, Hparse, bind_lift_inr. reflexivity. }
    rewrite after_printing_nil, Haddr, bind_lift_inr, Hint', bind_lift_inr.
    rewrite !bind_emit, bind_get_globals, Hms, bind_lift_inr.
    unfold for_gen, enumerate_gen. cbn [yielded ending]. rewrite Hend.
    rewrite bind_bind. erewrite bind_returns; [| apply Hloop].
    autorewrite with run. reflexivity. }
  rewrite decorated_passes; rewrite E; [reflexivity | exact I].
Qed.

(** On chunks in address order that do not overlap, an address lies in at
    most one chunk. *)
Lemma at_most_one_contains (a : Z) (chunks : list chunk) :
  StronglySorted (fun c1 c2 => as_address c1 + chunksize c1 <= as_address c2)
                 chunks ->
  (List.length (filter (contains_address a) chunks) <= 1)%nat.
Proof.
  induction 1 as [| c chunks Hs IH Hall]; [simpl; lia |].
  cbn [filter]. destruct (contains_address a c) eqn:Hc; [| exact IH].
  assert (Hnone : filter (contains_address a) chunks = []).
  { clear IH Hs. induction chunks as [| c' chunks IH']; [reflexivity |].
    apply Forall_cons_iff in Hall. destruct Hall as [Hle Hall].
    cbn [filter].
    assert (Hc' : contains_address a c' = false).
    { unfold contains_address in *.
      apply andb_true_iff in Hc. destruct Hc as [_ Hhi].
      apply Z.ltb_lt in Hhi.
      apply andb_false_iff. left. apply Z.leb_gt. lia. }
    rewrite Hc'. apply IH', Hall. }
  rewrite Hnone. simpl. lia.
Qed.

(** X15.  On a heap whose chunks come in address order without
    overlapping, [heap search] reports at most one chunk: the chunk, if
    there is one, whose range contains the address. *)
Theorem HeapSearch_at_most_one_chunk :
  forall w args ns addr_arg a g ms,
    parse_args w (string_to_argv w args) = inr ns ->
    getitem (addr ns) 0 = inr addr_arg ->
    int_ w addr_arg (if String.prefix "0x" addr_arg then 16 else 10) = inr a ->
    get_ms w g = inr ms ->
    ending (iter_chunks ms) = None ->
    after ns = false ->
    StronglySorted (fun c1 c2 => as_address c1 + chunksize c1 <= as_address c2)
                   (yielded (iter_chunks ms)) ->
    exists found,
      decorated (HeapSearch.invoke w) args tt g =
        Outcome [print [Mod "search heap for address %s" [hex a]];
                 print [Str "-------------------------------------------------"];
                 print [Concat (map block_entry found)]]
                tt g (inr tt)
      /\ (List.length found <= 1)%nat
      /\ forall c, In c found <->
                   In c (yielded (iter_chunks ms))
                   /\ as_address c <= a < as_address c + chunksize c.
Proof.
  intros w args ns addr_arg a g ms Hparse Haddr Hint Hms Hend Hafter Hsorted.
  exists (filter (contains_address a) (yielded (iter_chunks ms))).
  split; [| split].
  - assert (Hflat : forall l, flat_map (found_entries w ns) l = map block_entry l).
    { unfold found_entries. rewrite Hafter.
      induction l as [| c l IH]; [reflexivity |].
      cbn [flat_map map app]. rewrite IH. reflexivity. }
    rewrite <- Hflat.
    apply (HeapSearch_output w args ns addr_arg a g ms Hparse Haddr Hint
             Hms Hend).
    rewrite Hafter. discriminate.
  - apply at_most_one_contains, Hsorted.
  - intros c. rewrite filter_In. unfold contains_address.
    rewrite andb_true_iff, Z.leb_le, Z.ltb_lt. tauto.
Qed.

(** X15 on the sample arena and the address [0x1018]. *)
Lemma HeapSearch_at_most_one_chunk_witness :
  exists found,
    decorated (HeapSearch.invoke Sample.quiet) "0x1018" tt Sample.fresh =
      Outcome [print [Mod "search heap for address %s" [hex 0x1018]];
               print [Str "-------------------------------------------------"];
               print [Concat (map block_entry found)]]
              tt Sample.fresh (inr tt)
    /\ (List.length found <= 1)%nat.
Proof.
  destruct (HeapSearch_at_most_one_chunk Sample.quiet "0x1018"
              (mkSearchNs ["0x1018"] false false) "0x1018" 0x1018 Sample.fresh
              (mkMs (Generator Sample.arena_chunks None)
                    (Generator [Sample.chunk_b] None))
              eq_refl eq_refl eq_refl eq_refl eq_refl eq_refl)
    as (found & H1 & H2 & _).
  - repeat constructor; simpl; lia.
  - exists found. split; assumption.
Defined.

(** ** Comparing with the last label *)

(** X16.  [heap diff] compares the current state with the label recorded
    last: with an empty log it prints [(no history)] and nothing else;
    otherwise it prints the names of the last label and of the current
    snapshot, the statistics of their [Diff] and its changes, each
    indented by two spaces.  The current snapshot is not added to the
    log. *)
Theorem HeapDiff_compares_with_last_label :
  forall w args g,
    (snapshots g = [] ->
     decorated (HeapDiff.invoke w) args tt g =
       Outcome [print [Str "(no history)"]] tt g (inr tt))
    /\ (forall older prev curr,
          snapshots g = older ++ [prev] ->
          Snapshot_current w "current" g = inr curr ->
          decorated (HeapDiff.invoke w) args tt g =
            Outcome [print [Mod "Changes from %s to %s"
                                [Str (name prev); Str (name curr)]];
                     print [Str "  "; stats prev curr];
                     print [];
                     print [Join NL
                              (map (fun line => Str ("  " ++ line)%string)
                                   (as_changes_splitlines w prev curr))]]
                    tt g (inr tt)).
Proof.
  intros w args g. split.
  - intros Hempty.
    assert (E : HeapDiff.invoke w args tt g =
                Outcome [print [Str "(no history)"]] tt g (inr tt)).
    { unfold HeapDiff.invoke. rewrite def_returned, bind_get_globals, Hempty.
      reflexivity. }
    rewrite decorated_passes; rewrite E; [reflexivity | exact I].
  - intros older prev curr Hlog Hcur.
    assert (Hlast : getitem (snapshots g) (-1) = inr prev).
    { destruct (getitem_from_end (snapshots g) (-1)) as [x [Hn Hg]].
      - rewrite Hlog, length_app. simpl. lia.
      - rewrite Hg. f_equal.
        rewrite Hlog in Hn. rewrite length_app in Hn. simpl in Hn.
        replace (Z.to_nat (Z.of_nat (List.length older + 1) + -1))
          with (List.length older) in Hn by lia.
        rewrite nth_error_app2 in Hn by lia.
        rewrite Nat.sub_diag in Hn. simpl in Hn. congruence. }
    assert (Hnz : (Z.of_nat (List.length (snapshots g)) =? 0) = false).
    { apply Z.eqb_neq. rewrite Hlog, length_app. simpl. lia. }
    assert (E : HeapDiff.invoke w args tt g =
                Outcome [print [Mod "Changes from %s to %s"
                                    [Str (name prev); Str (name curr)]];
                         print [Str "  "; stats prev curr];
                         print [];
                         print [Join NL
                                  (map (fun line => Str ("  " ++ line)%string)
                                       (as_changes_splitlines w prev curr))]]
                        tt g (inr tt)).
    { unfold HeapDiff.invoke. rewrite def_returned, bind_get_globals.
      cbv zeta. rewrite Hnz, Hlast, bind_lift_inr, Hcur, bind_lift_inr.
      autorewrite with run. reflexivity. }
    rewrite decorated_passes; rewrite E; [reflexivity | exact I].
Qed.

(** X16 on an example: two labels recorded, the second one is compared. *)
Lemma HeapDiff_compares_with_last_label_witness :
  decorated (HeapDiff.invoke Sample.quiet) "" tt Cases.two_labels =
    Outcome [print [Mod "Changes from %s to %s"
                        [Str "after load"; Str "current"]];
             print [Str "  "; stats (mkSnapshot "after load" "10:05")
                                    (mkSnapshot "current" "now")];
             print [];
             print [Join NL []]]
            tt Cases.two_labels (inr tt).
Proof.
  exact (proj2 (HeapDiff_compares_with_last_label Sample.quiet ""
                  Cases.two_labels)
               [mkSnapshot "start" "10:00"] (mkSnapshot "after load" "10:05")
               (mkSnapshot "current" "now") eq_refl eq_refl).
Defined.

(** ** [hexdump] *)

Lemma dump_line_run h chars_only lo len (l : Z) g :
  (forall a n c, exists s, Hexdump.hexdump_as_bytes h a n c = inr s) ->
  Hexdump.dump_line h chars_only lo len l g =
    Outcome [dump_line_of h chars_only (lo, len)] l g (inr tt).
Proof.
  intros Hhd. unfold Hexdump.dump_line, dump_line_of. cbn [fst snd].
  destruct (Hhd lo len chars_only) as [s ->].
  rewrite bind_lift_inr. reflexivity.
Qed.

Lemma full_lines_S (addr size : Z) (n : nat) :
  map (fun k => (addr + Z.of_nat k * size, size)) (seq 0 (S n))
  = (addr, size)
    :: map (fun k => (addr + size + Z.of_nat k * size, size)) (seq 0 n).
Proof.
  change (seq 0 (S n)) with (0%nat :: seq 1 n).
  rewrite <- seq_shift, map_cons, map_map. f_equal.
  - f_equal. lia.
  - apply map_ext. intros k. f_equal. lia.
Qed.

(** The loop of lines 500-503, with fuel to spare. *)
Lemma Hexdump_loop h chars_only size end_ :
  0 < size ->
  (forall a n c, exists s, Hexdump.hexdump_as_bytes h a n c = inr s) ->
  forall (n fuel : nat) (addr : Z) (g : session),
    Z.to_nat ((end_ - addr) / size) = n ->
    (n < fuel)%nat ->
    Hexdump.while_ fuel (fun addr => addr + size <=? end_)
      (addr <- get_locals ;;
       Hexdump.dump_line h chars_only addr size ;;
       set_locals (addr + size)) addr g =
    Outcome (map (dump_line_of h chars_only)
                 (map (fun k => (addr + Z.of_nat k * size, size)) (seq 0 n)))
            (addr + Z.of_nat n * size) g (inr true).
Proof.
  intros Hsize Hhd. induction n as [| n IH]; intros fuel addr g Hn Hfuel.
  - destruct fuel as [| fuel]; [lia |]. cbn [Hexdump.while_].
    rewrite bind_get_locals.
    assert (Hq : (end_ - addr) / size <= 0) by lia.
    assert (Hlt : end_ - addr < size).
    { destruct (Z_lt_ge_dec (end_ - addr) size) as [H | H]; [exact H |].
      assert (1 <= (end_ - addr) / size)
        by (apply Z.div_le_lower_bound; lia).
      lia. }
    assert (Hc : (addr + size <=? end_) = false) by (apply Z.leb_gt; lia).
    rewrite Hc, ret_run. cbn [seq map]. f_equal. lia.
  - destruct fuel as [| fuel]; [lia |]. cbn [Hexdump.while_].
    rewrite bind_get_locals.
    assert (Hq : 1 <= (end_ - addr) / size) by lia.
    assert (Hge : size <= end_ - addr).
    { destruct (Z_lt_ge_dec (end_ - addr) size) as [H | H]; [| lia].
      destruct (Z_lt_ge_dec (end_ - addr) 0) as [Hneg | Hpos].
      - assert ((end_ - addr) / size < 0)
          by (apply Z.div_lt_upper_bound; lia).
        lia.
      - rewrite Z.div_small in Hq by lia. lia. }
    assert (Hc : (addr + size <=? end_) = true) by (apply Z.leb_le; lia).
    rewrite Hc, bind_bind, bind_get_locals, bind_bind.
    erewrite bind_returns; [| apply dump_line_run, Hhd].
    unfold set_locals at 1.
    rewrite bind_after. cbn [result printed locals globals].
    rewrite (IH fuel (addr + size) g).
    + rewrite full_lines_S. rewrite !after_printing_Outcome.
      cbn [map app]. f_equal. lia.
    + replace (end_ - (addr + size)) with (end_ - addr + (-1) * size) by lia.
      rewrite Z.div_add by lia. lia.
    + lia.
Qed.

(** What [hexdump] prints when its command line is read, the memory reads
    well and the fuel is enough. *)
Lemma Hexdump_output w h fuel args g ns addr_arg total start :
  Hexdump.parse_args h (string_to_argv w args) = inr ns ->
  getitem (Hexdump.addr ns) 0 = inr addr_arg ->
  Hexdump.total_size_of w ns = inr total ->
  Hexdump.start_of w addr_arg = inr start ->
  (forall a n c, exists s, Hexdump.hexdump_as_bytes h a n c = inr s) ->
  let size := if Hexdump.wide ns then 32 else 16 in
  (Z.to_nat (total / size) < fuel)%nat ->
  Hexdump.invoke w h fuel args tt g =
    Outcome (map (dump_line_of h (Hexdump.chars ns))
                 (dumped_ranges start total size))
            tt g (inr true).
Proof.
  intros Hparse Haddr Htotal Hstart Hhd size Hfuel.
  assert (Hsize : 0 < size) by (unfold size; destruct (Hexdump.wide ns); lia).
  unfold Hexdump.invoke. rewrite def_returned. cbv zeta.
  rewrite (bind_returns _ _ _ _ [] 0 g (Some ns)).
  2: { rewrite try_except_after, Hparse, bind_lift_inr. reflexivity. }
  rewrite after_printing_nil, Haddr, bind_lift_inr, Htotal, bind_lift_inr,
    Hstart, bind_lift_inr.
  fold size.
  unfold set_locals at 1. rewrite bind_after. cbn [result printed locals globals].
  rewrite after_printing_nil, try_except_after.
  erewrite bind_returns.
  2: { apply (Hexdump_loop h (Hexdump.chars ns) size (start + total) Hsize Hhd
                (Z.to_nat (total / size)) fuel start g).
       - f_equal. f_equal. lia.
       - exact Hfuel. }
  replace (start + total - start) with total by lia.
  unfold dumped_ranges.
  destruct (0 <? total mod size) eqn:Hr.
  - rewrite bind_bind, bind_get_locals.
    erewrite bind_returns; [| apply dump_line_run, Hhd].
    rewrite ret_run, !after_printing_Outcome.
    cbn [result returned printed locals globals].
    rewrite map_app. reflexivity.
  - rewrite bind_ret, ret_run, !after_printing_Outcome.
    cbn [result returned printed locals globals].
    rewrite !app_nil_r. reflexivity.
Qed.

Lemma chained_app (from : Z) (r1 r2 : list (Z * Z)) :
  chained from r1 ->
  chained (from + sum_over snd r1) r2 ->
  chained from (r1 ++ r2).
Proof.
  revert from. induction r1 as [| [lo len] r1 IH]; intros from H1 H2.
  - cbn in *. replace (from + 0) with from in H2 by lia. exact H2.
  - cbn [chained app sum_over fold_right snd] in *.
    destruct H1 as (-> & Hlen & H1). repeat split; try assumption.
    apply IH; [exact H1 |].
    fold (sum_over snd r1) in H2.
    replace (from + len + sum_over snd r1) with (from + (len + sum_over snd r1))
      by lia.
    exact H2.
Qed.

Lemma full_lines_chained (size : Z) (n : nat) (from : Z) :
  0 < size ->
  chained from (map (fun k => (from + Z.of_nat k * size, size)) (seq 0 n))
  /\ sum_over snd (map (fun k => (from + Z.of_nat k * size, size)) (seq 0 n))
     = Z.of_nat n * size.
Proof.
  intros Hsize. revert from. induction n as [| n IH]; intros from.
  - cbn. split; [exact I | lia].
  - rewrite full_lines_S. cbn [chained sum_over fold_right snd].
    destruct (IH (from + size)) as [Hc Hs].
    fold (sum_over snd
            (map (fun k => (from + size + Z.of_nat k * size, size)) (seq 0 n))).
    rewrite Hs. repeat split; try assumption; lia.
Qed.

(** X17.  [hexdump] of [total >= 0] bytes from [start] prints lines of 16
    bytes (32 with [-w]) and a last shorter line for what is left: the
    ranges of the lines follow one another from [start], none is empty,
    and their lengths add up to [total], so that each byte of
    [start, start + total) is dumped once and no other. *)
Theorem Hexdump_dumps_each_byte_once :
  forall w h fuel args g ns addr_arg total start,
    Hexdump.parse_args h (string_to_argv w args) = inr ns ->
    getitem (Hexdump.addr ns) 0 = inr addr_arg ->
    Hexdump.total_size_of w ns = inr total ->
    Hexdump.start_of w addr_arg = inr start ->
    (forall a n c, exists s, Hexdump.hexdump_as_bytes h a n c = inr s) ->
    0 <= total ->
    let size := if Hexdump.wide ns then 32 else 16 in
    (Z.to_nat (total / size) < fuel)%nat ->
    exists ranges,
      Hexdump.invoke w h fuel args tt g =
        Outcome (map (dump_line_of h (Hexdump.chars ns)) ranges)
                tt g (inr true)
      /\ chained start ranges
      /\ sum_over snd ranges = total
      /\ Forall (fun r => snd r <= size) ranges.
Proof.
  intros w h fuel args g ns addr_arg total start Hparse Haddr Htotal Hstart
         Hhd Hpos size Hfuel.
  assert (Hsize : 0 < size) by (unfold size; destruct (Hexdump.wide ns); lia).
  exists (dumped_ranges start total size).
  assert (Hq : 0 <= total / size) by (apply Z.div_pos; lia).
  assert (Hr : 0 <= total mod size < size) by (apply Z.mod_pos_bound; lia).
  assert (Hdm : total = size * (total / size) + total mod size)
    by (apply Z.div_mod; lia).
  destruct (full_lines_chained size (Z.to_nat (total / size)) start Hsize)
    as [Hc Hs].
  split; [| split; [| split]].
  - apply (Hexdump_output w h fuel args g ns addr_arg total start); assumption.
  - unfold dumped_ranges. apply chained_app; [exact Hc |].
    rewrite Hs. destruct (0 <? total mod size) eqn:Hrem; [| exact I].
    apply Z.ltb_lt in Hrem. cbn [chained]. repeat split; lia.
  - unfold dumped_ranges. rewrite sum_over_app, Hs.
    destruct (0 <? total mod size) eqn:Hrem.
    + cbn [sum_over fold_right snd]. lia.
    + apply Z.ltb_ge in Hrem. cbn [sum_over fold_right]. lia.
  - unfold dumped_ranges. apply Forall_app. split.
    + apply Forall_forall. intros r Hin. apply in_map_iff in Hin.
      destruct Hin as [k [<- _]]. cbn [snd]. lia.
    + destruct (0 <? total mod size); constructor; [cbn [snd]; lia | constructor].
Qed.

(** X17 on an example: 40 bytes from [0x1000] are two lines of 16 bytes
    and one of 8. *)
Lemma Hexdump_dumps_each_byte_once_witness :
  exists ranges,
    Hexdump.invoke Sample.quiet Cases.readable 3 "-s 40 0x1000" tt Sample.fresh =
      Outcome (map (dump_line_of Cases.readable false) ranges)
              tt Sample.fresh (inr true)
    /\ chained 0x1000 ranges
    /\ sum_over snd ranges = 40.
Proof.
  destruct (Hexdump_dumps_each_byte_once Sample.quiet Cases.readable 3
              "-s 40 0x1000" Sample.fresh
              (Hexdump.mkNamespace ["0x1000"] false (Some "40") false)
              "0x1000" 40 0x1000 eq_refl eq_refl eq_refl eq_refl)
    as (ranges & H1 & H2 & H3 & _).
  - intros a n c. eexists. reflexivity.
  - lia.
  - vm_compute. lia.
  - exists ranges. repeat split; assumption.
Defined.

(** X18.  With a negative size, [hexdump] prints no full line, but the
    rest of the division is positive for every size that is not a
    multiple of the line: it then dumps [total mod size] bytes from
    [start], as it would at the end of a dump. *)
Theorem Hexdump_negative_size :
  forall w h fuel args g ns addr_arg total start,
    Hexdump.parse_args h (string_to_argv w args) = inr ns ->
    getitem (Hexdump.addr ns) 0 = inr addr_arg ->
    Hexdump.total_size_of w ns = inr total ->
    Hexdump.start_of w addr_arg = inr start ->
    (forall a n c, exists s, Hexdump.hexdump_as_bytes h a n c = inr s) ->
    total < 0 ->
    (0 < fuel)%nat ->
    let size := if Hexdump.wide ns then 32 else 16 in
    Hexdump.invoke w h fuel args tt g =
      Outcome (if 0 <? total mod size
               then [dump_line_of h (Hexdump.chars ns) (start, total mod size)]
               else [])
              tt g (inr true)
    /\ 0 <= total mod size < size.
Proof.
  intros w h fuel args g ns addr_arg total start Hparse Haddr Htotal Hstart
         Hhd Hneg Hfuel size.
  assert (Hsize : 0 < size) by (unfold size; destruct (Hexdump.wide ns); lia).
  assert (Hq : total / size < 0) by (apply Z.div_lt_upper_bound; lia).
  assert (Hn : Z.to_nat (total / size) = 0%nat) by lia.
  split; [| apply Z.mod_pos_bound; lia].
  rewrite (Hexdump_output w h fuel args g ns addr_arg total start Hparse Haddr
             Htotal Hstart Hhd).
  - fold size. unfold dumped_ranges. rewrite Hn. cbn [seq map app Z.of_nat].
    destruct (0 <? total mod size); [| reflexivity].
    cbn [map]. replace (start + 0 * size) with start by lia. reflexivity.
  - fold size. lia.
Qed.

(** X18 on an example: [hexdump -s -1 0x1000] dumps 15 bytes. *)
Lemma Hexdump_negative_size_witness :
  Hexdump.invoke Sample.quiet Cases.readable 1 "-s -1 0x1000" tt Sample.fresh =
    Outcome [dump_line_of Cases.readable false (0x1000, 15)]
            tt Sample.fresh (inr true).
Proof.
  refine (proj1 (Hexdump_negative_size Sample.quiet Cases.readable 1
                   "-s -1 0x1000" Sample.fresh
                   (Hexdump.mkNamespace ["0x1000"] false (Some "-1") false)
                   "0x1000" (-1) 0x1000 eq_refl eq_refl eq_refl eq_refl
                   _ _ _)).
  - intros a n c. eexists. reflexivity.
  - lia.
  - lia.
Defined.




(** ** Rows with equal bytes *)

Lemma keys_fold_add_to {K A} (eqb : K -> K -> bool)
      (eqb_spec : forall x y, reflect (x = y) (eqb x y))
      (key : A -> K) (val : A -> Z) (xs : list A) (d : dict K Z) :
  keys (fold_left (fun d x => add_to eqb d (key x) (val x)) xs d)
  = fold_left (fun seen k => if existsb (eqb k) seen then seen else seen ++ [k])
              (map key xs) (keys d).
Proof.
  revert d. induction xs as [| x xs IH]; intros d; [reflexivity |].
  cbn [fold_left map]. rewrite IH, (keys_add_to eqb eqb_spec). f_equal.
  unfold contains.
  destruct (dict_get eqb d (key x)) eqn:Hg.
  - assert (Hin : In (key x) (keys d)).
    { destruct (in_dec (fun a b => match eqb_spec a b with
                                   | ReflectT _ e => left e
                                   | ReflectF _ n => right n
                                   end) (key x) (keys d)) as [H | H];
        [exact H |].
      apply (dict_get_None_keys eqb eqb_spec) in H. congruence. }
    assert (He : existsb (eqb (key x)) (keys d) = true).
    { apply existsb_exists. exists (key x). split; [exact Hin |].
      destruct (eqb_spec (key x) (key x)); [reflexivity | contradiction]. }
    rewrite He. reflexivity.
  - apply (dict_get_None_keys eqb eqb_spec) in Hg.
    assert (He : existsb (eqb (key x)) (keys d) = false).
    { destruct (existsb (eqb (key x)) (keys d)) eqn:E; [| reflexivity].
      apply existsb_exists in E. destruct E as [k [Hk Heq]].
      destruct (eqb_spec (key x) k); [subst; contradiction | discriminate]. }
    rewrite He. reflexivity.
Qed.

Lemma total_by_category_of_usages w (us : list Usage) (l : Heap.locals) :
  Heap.total_by_category (fold_left (count_usage w) us l)
  = fold_left (fun d u => add_to Category_eqb d (category_of w u) (size u))
              us (Heap.total_by_category l).
Proof.
  revert l. induction us as [| u us IH]; intros l; [reflexivity |].
  cbn [fold_left]. rewrite IH. reflexivity.
Qed.

Lemma chunks_by_size_of_chunks (chunks : list chunk) (l : HeapSizes.locals) :
  HeapSizes.chunks_by_size (fold_left count_chunk chunks l)
  = fold_left (fun d c => add_to Z.eqb d (chunksize c) 1)
              (filter is_inuse chunks) (HeapSizes.chunks_by_size l).
Proof.
  revert l. induction chunks as [| c chunks IH]; intros l; [reflexivity |].
  cbn [fold_left filter]. rewrite IH. unfold count_chunk.
  destruct (is_inuse c); reflexivity.
Qed.

(** X20.  In the table of [heap], categories with the same allocated
    bytes come in the order in which the traversal first met them. *)
Theorem Heap_equal_bytes_in_order_met :
  forall w args g,
    ending (lazily_get_usage_list w g) = None ->
    Forall (fun u => exists c, ensure_category w u = inr c)
           (yielded (lazily_get_usage_list w g)) ->
    exists totals counts cats,
      decorated (Heap.invoke w) args tt g =
        Outcome [write (mkTable ["Domain"; "Kind"; "Detail"; "Count";
                                 "Allocated size"]
                                (map (category_row totals counts) cats
                                 ++ [[Str ""; Str ""; Str "TOTAL";
                                      fmt_size (sum_over (value_of Category_eqb counts) cats);
                                      fmt_size (sum_over (value_of Category_eqb totals) cats)]]));
                 print []]
                tt g (inr tt)
      /\ forall bytes,
           filter (fun c => value_of Category_eqb totals c =? bytes) cats
           = filter (fun c => value_of Category_eqb totals c =? bytes)
                    (first_met Category_eqb
                       (map (category_of w)
                            (yielded (lazily_get_usage_list w g)))).
Proof.
  intros w args g Hend Hall.
  pose (l := fold_left (count_usage w) (yielded (lazily_get_usage_list w g))
                       (Heap.mkLocals [] [] 0 0 (mkTable [] []))).
  destruct (count_usages_invariant w (yielded (lazily_get_usage_list w g))
              (Heap.mkLocals [] [] 0 0 (mkTable [] [])) Heap_invariant_init)
    as (Hinv & _).
  fold l in Hinv.
  destruct (Heap_report_rows l Hinv) as (_ & Hcount & Hbytes).
  exists (Heap.total_by_category l), (Heap.count_by_category l),
    (sorted (Heap.total_by_category_get (Heap.total_by_category l)) true
            (keys (Heap.total_by_category l))).
  split.
  - rewrite Hcount, Hbytes.
    apply (Heap_output_after_try w args g l); [| apply Hinv].
    unfold Heap_try.
    rewrite try_except_after, bind_get_globals. unfold list_. rewrite Hend.
    rewrite bind_ret, Heap_loop_run by exact Hall. reflexivity.
  - intros bytes.
    etransitivity;
      [apply (sorted_stable (Heap.total_by_category_get (Heap.total_by_category l))
                            true bytes (keys (Heap.total_by_category l))) |].
    unfold first_met, l.
    rewrite total_by_category_of_usages,
      (keys_fold_add_to Category_eqb Category_eqb_spec (category_of w) size).
    reflexivity.
Qed.

(** X20 on an example: two categories of 16 bytes each keep the order of
    the traversal. *)
Lemma Heap_equal_bytes_in_order_met_witness :
  exists totals counts cats,
    decorated (Heap.invoke Cases.two_of_sixteen) "" tt Sample.fresh =
      Outcome [write (mkTable ["Domain"; "Kind"; "Detail"; "Count";
                               "Allocated size"]
                              (map (category_row totals counts) cats
                               ++ [[Str ""; Str ""; Str "TOTAL";
                                    fmt_size (sum_over (value_of Category_eqb counts) cats);
                                    fmt_size (sum_over (value_of Category_eqb totals) cats)]]));
               print []]
              tt Sample.fresh (inr tt).
Proof.
  destruct (Heap_equal_bytes_in_order_met Cases.two_of_sixteen "" Sample.fresh
              eq_refl) as (totals & counts & cats & H & _).
  - repeat constructor; eexists; reflexivity.
  - exists totals, counts, cats. exact H.
Defined.

(** X21.  In the table of [heap sizes], sizes with the same allocated
    bytes come in the order in which the traversal first met a chunk in
    use of that size. *)
Theorem HeapSizes_equal_bytes_in_order_met :
  forall w args g ms,
    get_ms w g = inr ms ->
    ending (iter_chunks ms) = None
    \/ ending (iter_chunks ms) = Some KeyboardInterrupt ->
    exists d sizes,
      decorated (HeapSizes.invoke w) args tt g =
        Outcome [write (mkTable ["Chunk size"; "Num chunks"; "Allocated size"]
                                (map (size_row d) sizes
                                 ++ [[Str "TOTALS";
                                      Int (sum_over (value_of Z.eqb d) sizes);
                                      fmt_size (sum_over
                                                  (fun s => value_of Z.eqb d s * s)
                                                  sizes)]]));
                 print []]
                tt g (inr tt)
      /\ forall bytes,
           filter (fun s => value_of Z.eqb d s * s =? bytes) sizes
           = filter (fun s => value_of Z.eqb d s * s =? bytes)
                    (first_met Z.eqb
                       (map chunksize
                            (filter is_inuse (yielded (iter_chunks ms))))).
Proof.
  intros w args g ms Hms Hend.
  pose (l := fold_left count_chunk (yielded (iter_chunks ms))
                       (HeapSizes.mkLocals [] 0 0 (mkTable [] []))).
  pose (d := HeapSizes.chunks_by_size l).
  pose (sizes := sorted (HeapSizes.sort_key d) false (keys d)).
  destruct (count_chunks_invariant (yielded (iter_chunks ms))
              (HeapSizes.mkLocals [] 0 0 (mkTable [] [])))
    as (Hnd & Hcount & Hbytes & _).
  { cbn. repeat split; try reflexivity. constructor. }
  fold l in Hnd, Hcount, Hbytes. fold d in Hnd, Hcount, Hbytes.
  assert (Hperm : Permutation sizes (keys d)) by apply sorted_Permutation.
  assert (Hkey : forall x, HeapSizes.sort_key d x = value_of Z.eqb d x * x).
  { intros x. unfold HeapSizes.sort_key, value_of.
    destruct (dict_get Z.eqb d x); lia. }
  exists d, sizes. split.
  - assert (Hn : sum_over (value_of Z.eqb d) sizes = HeapSizes.num_chunks l).
    { rewrite (sum_over_Permutation _ _ _ Hperm), <- Hcount.
      apply (sum_over_keys Z.eqb Z.eqb_spec (fun _ n => n) d Hnd). }
    assert (Hb : sum_over (fun s => value_of Z.eqb d s * s) sizes
                 = HeapSizes.total_size l).
    { rewrite (sum_over_Permutation _ _ _ Hperm), <- Hbytes.
      apply (sum_over_keys Z.eqb Z.eqb_spec (fun size n => n * size) d Hnd). }
    rewrite Hn, Hb. apply (HeapSizes_output w args g ms Hms Hend).
  - intros bytes.
    assert (Hext : forall l0,
               filter (fun s => value_of Z.eqb d s * s =? bytes) l0
               = filter (fun s => HeapSizes.sort_key d s =? bytes) l0).
    { intros l0. apply filter_ext. intros s. rewrite Hkey. reflexivity. }
    rewrite !Hext. unfold sizes. rewrite sorted_stable. f_equal.
    unfold d, l, first_met.
    rewrite chunks_by_size_of_chunks,
      (keys_fold_add_to Z.eqb Z.eqb_spec chunksize (fun _ => 1)).
    reflexivity.
Qed.

(** X21 on the heap with four chunks in use, of 48, 16, 16 and 32 bytes. *)
Lemma HeapSizes_equal_bytes_in_order_met_witness :
  exists d sizes,
    decorated (HeapSizes.invoke Sample.four_in_use) "" tt Sample.fresh =
      Outcome [write (mkTable ["Chunk size"; "Num chunks"; "Allocated size"]
                              (map (size_row d) sizes
                               ++ [[Str "TOTALS";
                                    Int (sum_over (value_of Z.eqb d) sizes);
                                    fmt_size (sum_over
                                                (fun s => value_of Z.eqb d s * s)
                                                sizes)]]));
               print []]
              tt Sample.fresh (inr tt).
Proof.
  destruct (HeapSizes_equal_bytes_in_order_met Sample.four_in_use ""
              Sample.fresh
              (mkMs (Generator [mkChunk 0x2000 48 true 0x2010;
                                mkChunk 0x2030 16 true 0x2040;
                                mkChunk 0x2040 16 true 0x2050;
                                mkChunk 0x2050 32 true 0x2060] None)
                    (Generator [] None))
              eq_refl (or_introl eq_refl)) as (d & sizes & H1 & _).
  exists d, sizes. exact H1.
Defined.

(** ** What a failed search shows *)

(** X22.  [heap search] prints what it found only after the traversal:
    when the traversal ends in a [gdb.error], the decorated command shows
    the two header lines and the report of the error, and none of the
    chunks it had found, whether or not one contained the address. *)
Theorem HeapSearch_error_loses_findings :
  forall w args ns addr_arg a g ms msg,
    parse_args w (string_to_argv w args) = inr ns ->
    getitem (addr ns) 0 = inr addr_arg ->
    int_ w addr_arg (if String.prefix "0x" addr_arg then 16 else 10) = inr a ->
    get_ms w g = inr ms ->
    ending (iter_chunks ms) = Some (gdb_error msg) ->
    after ns = false ->
    decorated (HeapSearch.invoke w) args tt g =
      Outcome [print [Mod "search heap for address %s" [hex a]];
               print [Str "-------------------------------------------------"];
               print [Mod ("Gdb error: " ++ DQ ++ "%s" ++ DQ
                             ++ ". Is the target running?")%string
                          [str_exn (gdb_error msg)]];
               print [];
               print [format_exc (gdb_error msg)]]
              tt g (inr tt).
Proof.
  intros w args ns addr_arg a g ms msg Hparse Haddr Hint Hms Hend Hafter.
  assert (Hloop := HeapSearch_loop w ns a
                     (enumerate (yielded (iter_chunks ms))) [] g).
  rewrite snd_enumerate in Hloop.
  assert (Hnext : after ns = true ->
                  forall c, In c (yielded (iter_chunks ms)) ->
                            contains_address a c = true ->
                            exists n, next_chunk w c = inr n)
    by (rewrite Hafter; discriminate).
  specialize (Hloop Hnext).
  assert (Hint' : (if String.prefix "0x" addr_arg
                   then lift (int_ w addr_arg 16)
                   else lift (int_ w addr_arg 10)) =
                  (lift (inr a) : stmt HeapSearch.locals Z)).
  { destruct (String.prefix "0x" addr_arg); rewrite Hint; reflexivity. }
  assert (E : HeapSearch.invoke w args tt g =
              Outcome [print [Mod "search heap for address %s" [hex a]];
                       print [Str "-------------------------------------------------"]]
                      tt g (inl (gdb_error msg))).
  { unfold HeapSearch.invoke. rewrite def_returned. cbv zeta.
    rewrite (bind_returns _ _ _ _ [] ([] : HeapSearch.locals) g (Some ns)).
    2: { rewrite try_except_after, Hparse, bind_lift_inr. reflexivity. }
    rewrite after_printing_nil, Haddr, bind_lift_inr, Hint', bind_lift_inr.
    rewrite !bind_emit, bind_get_globals, Hms, bind_lift_inr.
    unfold for_gen, enumerate_gen. cbn [yielded ending]. rewrite Hend.
    rewrite bind_bind. erewrite bind_returns; [| apply Hloop].
    rewrite bind_raise. autorewrite with run. reflexivity. }
  unfold decorated.
  assert (Ht := target_running_catches (HeapSearch.invoke w) args tt g
                  (gdb_error msg)).
  rewrite E in Ht. specialize (Ht eq_refl eq_refl).
  rewrite need_debuginfo_passes; rewrite Ht; [reflexivity | exact I].
Qed.

(** X22 on an example: the memory cannot be read past the first chunk,
    which contains the address [0x1008]. *)
Lemma HeapSearch_error_loses_findings_witness :
  decorated (HeapSearch.invoke Sample.unreadable) "0x1008" tt Sample.fresh =
    Outcome [print [Mod "search heap for address %s" [hex 0x1008]];
             print [Str "-------------------------------------------------"];
             print [Mod ("Gdb error: " ++ DQ ++ "%s" ++ DQ
                           ++ ". Is the target running?")%string
                        [str_exn (gdb_error "Cannot access memory at address 0x1018")]];
             print [];
             print [format_exc (gdb_error "Cannot access memory at address 0x1018")]]
            tt Sample.fresh (inr tt).
Proof.
  exact (HeapSearch_error_loses_findings Sample.unreadable "0x1008"
           (mkSearchNs ["0x1008"] false false) "0x1008" 0x1008 Sample.fresh
           (mkMs (Generator [Sample.chunk_a]
                    (Some (gdb_error "Cannot access memory at address 0x1018")))
                 (Generator []
                    (Some (gdb_error "Cannot access memory at address 0x1018"))))
           "Cannot access memory at address 0x1018"
           eq_refl eq_refl eq_refl eq_refl eq_refl eq_refl).
Defined.


